(** * TaxHawk tax engine: a shallow embedding and its verified properties

    The engine of [client/src/engine] is embedded function by function:
    [taxUtils.js] (slabs, cess, 87A rebate, surcharge with marginal relief,
    taxable-income derivation, HRA), [redemptionPlanner.js], [models.js],
    the seven checks of [checks/] and the orchestrator [runAllChecks].

    Numbers.  A JavaScript number is modelled as an exact rational [Q]:
    the rounding error of the IEEE-754 doubles of the source, [NaN] and the
    infinities other than the [Infinity] of the slab tables are left out.
    [Math.round] (round half up) is [Qfloor (x + 1/2)] and yields a [Z].
    [inject_Z z] is the integer [z] used as a number again.
    A field that the source only ever fills with a [Math.round] result or
    with a difference of such results is a [Z].  Strings are [string]
    (UTF-8 bytes), objects with a fixed shape are records, the open
    [details] dictionaries are JSON-like values, an absent or null option
    is [None].  The clock read by [new Date()] is an explicit argument. *)

From Stdlib Require Import QArith Qround Qpower Qabs Lqa ZArith Lia.
From Stdlib Require Import String Ascii List DecimalString Sorted Permutation.
Import ListNotations.

Open Scope Q_scope.

(* ------------------------------------------------------------------ *)
(** ** JavaScript number primitives                                     *)
(* ------------------------------------------------------------------ *)

Module Js.

(** [a <= b], [a < b], [a === b] on numbers. *)
Definition le (a b : Q) : bool := Qle_bool a b.
Definition lt (a b : Q) : bool := negb (Qle_bool b a).
Definition eq (a b : Q) : bool := Qeq_bool a b.

(** [Math.min(a, b)] and [Math.max(a, b)]. *)
Definition min (a b : Q) : Q := if le a b then a else b.
Definition max (a b : Q) : Q := if le a b then b else a.

(** [Math.round(x)]: the integer nearest to [x], halves rounded up. *)
Definition round (x : Q) : Z := Qfloor (x + (1 # 2)).

(** [Math.abs(x)]. *)
Definition abs (x : Q) : Q := if lt x 0 then - x else x.

End Js.

Notation "a <=? b" := (Js.le a b) (at level 70) : Q_scope.
Notation "a <? b" := (Js.lt a b) (at level 70) : Q_scope.
Notation "a =? b" := (Js.eq a b) (at level 70) : Q_scope.
Notation "a >? b" := (Js.lt b a) (at level 70) : Q_scope.
Notation "a >=? b" := (Js.le b a) (at level 70) : Q_scope.

(* ------------------------------------------------------------------ *)
(** ** taxUtils.js: statutory constants                                 *)
(* ------------------------------------------------------------------ *)

(** An upper limit of a slab: a finite amount or [Infinity]. *)
Inductive Limit : Type :=
| Fin (u : Q)
| Infinity.

(** A slab is the pair [[upper_limit, rate]]. *)
Definition Slab : Type := (Limit * Q)%type.

Definition NEW_REGIME_SLABS_FY2024_25 : list Slab :=
  [ (Fin 300000, 0.00);
    (Fin 700000, 0.05);
    (Fin 1000000, 0.10);
    (Fin 1200000, 0.15);
    (Fin 1500000, 0.20);
    (Infinity, 0.30) ].

Definition NEW_REGIME_SLABS_FY2025_26 : list Slab :=
  [ (Fin 400000, 0.00);
    (Fin 800000, 0.05);
    (Fin 1200000, 0.10);
    (Fin 1600000, 0.15);
    (Fin 2000000, 0.20);
    (Fin 2400000, 0.25);
    (Infinity, 0.30) ].

Definition OLD_REGIME_SLABS_BELOW_60 : list Slab :=
  [ (Fin 250000, 0.00);
    (Fin 500000, 0.05);
    (Fin 1000000, 0.20);
    (Infinity, 0.30) ].

Definition OLD_REGIME_SLABS_SENIOR : list Slab :=
  [ (Fin 300000, 0.00);
    (Fin 500000, 0.05);
    (Fin 1000000, 0.20);
    (Infinity, 0.30) ].

Definition OLD_REGIME_SLABS_SUPER_SENIOR : list Slab :=
  [ (Fin 500000, 0.00);
    (Fin 1000000, 0.20);
    (Infinity, 0.30) ].

Definition CESS_RATE : Q := 0.04.

(** Property lookup [obj[key]] in an object given as its list of entries. *)
Fixpoint prop {A : Type} (key : string) (obj : list (string * A)) : option A :=
  match obj with
  | [] => None
  | (k, v) :: rest => if String.eqb k key then Some v else prop key rest
  end.

Definition STANDARD_DEDUCTION : list (string * list (string * Q)) :=
  [ ("2024-25", [("old", 50000); ("new", 75000)]);
    ("2025-26", [("old", 75000); ("new", 75000)]) ]%string.

Record RebateInfo : Type := mkRebateInfo {
  income_limit : Q;
  max_rebate : Q
}.

Definition REBATE_87A : list (string * list (string * RebateInfo)) :=
  [ ("2024-25",
      [ ("old", mkRebateInfo 500000 12500);
        ("new", mkRebateInfo 700000 25000) ]);
    ("2025-26",
      [ ("old", mkRebateInfo 500000 12500);
        ("new", mkRebateInfo 1200000 60000) ]) ]%string.

Definition SURCHARGE_SLABS_OLD : list Slab :=
  [ (Fin 5000000, 0.00);
    (Fin 10000000, 0.10);
    (Fin 20000000, 0.15);
    (Fin 50000000, 0.25);
    (Infinity, 0.37) ].

Definition SURCHARGE_SLABS_NEW : list Slab :=
  [ (Fin 5000000, 0.00);
    (Fin 10000000, 0.10);
    (Fin 20000000, 0.15);
    (Fin 50000000, 0.25);
    (Infinity, 0.25) ].

Definition LIMIT_80C : Q := 150000.
Definition LIMIT_80CCD_1B : Q := 50000.
Definition LIMIT_80D_SELF_BELOW_60 : Q := 25000.
Definition LIMIT_80D_SELF_SENIOR : Q := 50000.
Definition LIMIT_80D_PARENTS_BELOW_60 : Q := 25000.
Definition LIMIT_80D_PARENTS_SENIOR : Q := 50000.
Definition LIMIT_24B_SELF_OCCUPIED : Q := 200000.

Definition HRA_METRO_PERCENT : Q := 0.50.
Definition HRA_NON_METRO_PERCENT : Q := 0.40.
Definition HRA_RENT_MINUS_BASIC_PERCENT : Q := 0.10.

Definition LTCG_EXEMPTION : Q := 125000.
Definition LTCG_RATE : Q := 0.125.
Definition STCG_RATE : Q := 0.20.

(* ------------------------------------------------------------------ *)
(** ** taxUtils.js: core tax functions                                  *)
(* ------------------------------------------------------------------ *)

(** [x <= upperLimit] and [Math.min(x, upperLimit)] for a slab limit. *)
Definition leLimit (x : Q) (l : Limit) : bool :=
  match l with
  | Fin u => x <=? u
  | Infinity => true
  end.

Definition minLimit (x : Q) (l : Limit) : Q :=
  match l with
  | Fin u => Js.min x u
  | Infinity => x
  end.

(** The loop of [computeTaxOnSlabs], from the state [(tax, prevLimit)].
    Once [prevLimit] is [Infinity] the next test [taxableIncome <= prevLimit]
    breaks, so the loop ends with the slab whose limit is [Infinity]. *)
Fixpoint taxOnSlabsFrom (taxableIncome : Q) (slabs : list Slab)
    (tax prevLimit : Q) : Q :=
  match slabs with
  | [] => tax
  | (upperLimit, rate) :: rest =>
      if taxableIncome <=? prevLimit then tax
      else
        let taxableInSlab := minLimit taxableIncome upperLimit - prevLimit in
        let tax' := tax + taxableInSlab * rate in
        match upperLimit with
        | Fin u => taxOnSlabsFrom taxableIncome rest tax' u
        | Infinity => tax'
        end
  end.

Definition computeTaxOnSlabs (taxableIncome : Q) (slabs : list Slab) : Q :=
  taxOnSlabsFrom taxableIncome slabs 0 0.

Definition applyCess (tax : Q) : Z := Js.round (tax * CESS_RATE).

(** [REBATE_87A[fy]?.[regime]]. *)
Definition rebateInfo (regime fy : string) : option RebateInfo :=
  match prop fy REBATE_87A with
  | Some byRegime => prop regime byRegime
  | None => None
  end.

Definition apply87aRebate (tax taxableIncome : Q) (regime fy : string) : Q :=
  match rebateInfo regime fy with
  | Some info =>
      if taxableIncome <=? income_limit info then
        let rebate := Js.min tax (max_rebate info) in
        (inject_Z (Js.round (tax - rebate)))
      else tax
  | None => tax
  end.

(** The first loop of [getSurcharge], from the state
    [(rate, prevThreshold, prevRate)]. *)
Fixpoint surchargeSlab (taxableIncome : Q) (surchargeSlabs : list Slab)
    (rate prevThreshold prevRate : Q) : Q * Q * Q :=
  match surchargeSlabs with
  | [] => (rate, prevThreshold, prevRate)
  | (upperLimit, surchargeRate) :: rest =>
      match upperLimit with
      | Fin u =>
          if taxableIncome <=? u then (surchargeRate, prevThreshold, prevRate)
          else surchargeSlab taxableIncome rest rate u surchargeRate
      | Infinity => (surchargeRate, prevThreshold, prevRate)
      end
  end.

Definition getSurcharge (taxableIncome baseTax : Q)
    (surchargeSlabs taxSlabs : list Slab) : Z :=
  let '(rate, prevThreshold, prevRate) :=
    surchargeSlab taxableIncome surchargeSlabs 0 0 0 in
  if rate =? 0 then 0%Z
  else
    let rawSurcharge := baseTax * rate in
    let taxAtThreshold := computeTaxOnSlabs prevThreshold taxSlabs in
    let surchargeAtThreshold := taxAtThreshold * prevRate in
    let totalAtThreshold := taxAtThreshold + surchargeAtThreshold in
    let excessIncome := taxableIncome - prevThreshold in
    let maxTotal := totalAtThreshold + excessIncome in
    let rawTotal := baseTax + rawSurcharge in
    if rawTotal >? maxTotal then Js.round (Js.max (maxTotal - baseTax) 0)
    else Js.round rawSurcharge.

(** The slab table chosen by [getMarginalRate]. *)
Definition marginalSlabs (regime fy ageCategory : string) : list Slab :=
  if String.eqb regime "new" then
    if String.eqb fy "2025-26" then NEW_REGIME_SLABS_FY2025_26
    else NEW_REGIME_SLABS_FY2024_25
  else if String.eqb ageCategory "super_senior" then OLD_REGIME_SLABS_SUPER_SENIOR
  else if String.eqb ageCategory "senior" then OLD_REGIME_SLABS_SENIOR
  else OLD_REGIME_SLABS_BELOW_60.

(** The loop of [getMarginalRate]. *)
Fixpoint marginalRateFrom (taxableIncome : Q) (slabs : list Slab) (rate : Q) : Q :=
  match slabs with
  | [] => rate
  | (upperLimit, slabRate) :: rest =>
      if leLimit taxableIncome upperLimit then slabRate
      else marginalRateFrom taxableIncome rest slabRate
  end.

Definition getMarginalRate (taxableIncome : Q) (regime fy ageCategory : string) : Q :=
  marginalRateFrom taxableIncome (marginalSlabs regime fy ageCategory) 0.

(** The object returned by [calculateNewRegimeTax] and [calculateOldRegimeTax]. *)
Record TaxBreakdown : Type := mkTaxBreakdown {
  tb_taxable_income : Q;
  base_tax : Z;
  rebate_87a : Z;
  tax_after_rebate : Q;
  surcharge : Z;
  cess : Z;
  total_tax : Z
}.

Definition newRegimeSlabs (fy : string) : list Slab :=
  if String.eqb fy "2025-26" then NEW_REGIME_SLABS_FY2025_26
  else NEW_REGIME_SLABS_FY2024_25.

Definition calculateNewRegimeTax (taxableIncome : Q) (fy : string) : TaxBreakdown :=
  let slabs := newRegimeSlabs fy in
  let baseTax := computeTaxOnSlabs taxableIncome slabs in
  let taxAfterRebate := apply87aRebate baseTax taxableIncome "new" fy in
  let surcharge := getSurcharge taxableIncome taxAfterRebate SURCHARGE_SLABS_NEW slabs in
  let cess := applyCess (taxAfterRebate + (inject_Z surcharge)) in
  let totalTax := Js.round (taxAfterRebate + (inject_Z surcharge) + (inject_Z cess)) in
  {| tb_taxable_income := taxableIncome;
     base_tax := Js.round baseTax;
     rebate_87a := Js.round (baseTax - taxAfterRebate);
     tax_after_rebate := taxAfterRebate;
     surcharge := surcharge;
     cess := cess;
     total_tax := totalTax |}.

Definition oldRegimeSlabs (ageCategory : string) : list Slab :=
  if String.eqb ageCategory "super_senior" then OLD_REGIME_SLABS_SUPER_SENIOR
  else if String.eqb ageCategory "senior" then OLD_REGIME_SLABS_SENIOR
  else OLD_REGIME_SLABS_BELOW_60.

Definition calculateOldRegimeTax (taxableIncome : Q) (fy ageCategory : string)
    : TaxBreakdown :=
  let slabs := oldRegimeSlabs ageCategory in
  let baseTax := computeTaxOnSlabs taxableIncome slabs in
  let taxAfterRebate := apply87aRebate baseTax taxableIncome "old" fy in
  let surcharge := getSurcharge taxableIncome taxAfterRebate SURCHARGE_SLABS_OLD slabs in
  let cess := applyCess (taxAfterRebate + (inject_Z surcharge)) in
  let totalTax := Js.round (taxAfterRebate + (inject_Z surcharge) + (inject_Z cess)) in
  {| tb_taxable_income := taxableIncome;
     base_tax := Js.round baseTax;
     rebate_87a := Js.round (baseTax - taxAfterRebate);
     tax_after_rebate := taxAfterRebate;
     surcharge := surcharge;
     cess := cess;
     total_tax := totalTax |}.

(* ------------------------------------------------------------------ *)
(** ** models.js: the data model                                        *)
(* ------------------------------------------------------------------ *)

Open Scope string_scope.
Open Scope Q_scope.

(** [s.toLowerCase()], on the ASCII letters. *)
Definition lowerAscii (c : ascii) : ascii :=
  let n := nat_of_ascii c in
  if andb (Nat.leb 65 n) (Nat.leb n 90) then ascii_of_nat (n + 32) else c.

Fixpoint toLowerCase (s : string) : string :=
  match s with
  | EmptyString => EmptyString
  | String c rest => String (lowerAscii c) (toLowerCase rest)
  end.

Definition METRO_CITIES : list string := ["mumbai"; "delhi"; "kolkata"; "chennai"].

(** [set.has(x)] and [array.includes(x)] on strings. *)
Definition includes (l : list string) (x : string) : bool :=
  existsb (String.eqb x) l.

Record SalaryProfile : Type := mkSalaryProfile {
  financial_year : string;
  employee_name : string;
  pan : string;
  employer_name : string;
  gross_salary : Q;
  basic_salary : Q;
  hra_received : Q;
  special_allowance : Q;
  lta : Q;
  bonus : Q;
  other_salary : Q;
  hra_exemption : Q;
  lta_exemption : Q;
  other_exemptions : Q;
  standard_deduction : Q;
  professional_tax : Q;
  deduction_80c : Q;
  deduction_80ccc : Q;
  deduction_80ccd_1 : Q;
  deduction_80ccd_1b : Q;
  deduction_80ccd_2 : Q;
  deduction_80d : Q;
  deduction_80e : Q;
  deduction_80g : Q;
  deduction_80tta : Q;
  deduction_24b : Q;
  other_deductions : Q;
  taxable_income : Q;
  tax_payable : Q;
  sp_cess : Q;
  total_tax_paid : Q;
  regime : string;
  city : string;
  monthly_rent : Q;
  epf_employee_contribution : Q
}.

(** The computed property [is_metro]. *)
Definition is_metro (salary : SalaryProfile) : bool :=
  includes METRO_CITIES (toLowerCase (city salary)).

(** A [Date], read through [getFullYear()] and [getMonth()] (0 = January). *)
Record Date : Type := mkDate {
  getFullYear : Z;
  getMonth : Z;
  getDate : Z
}.

Record Holding : Type := mkHolding {
  security_name : string;
  security_type : string;
  purchase_date : Date;
  purchase_price : Q;
  quantity : Q;
  current_price : Q
}.

Definition total_cost (h : Holding) : Q :=
  inject_Z (Js.round (purchase_price h * quantity h * 100)) / 100.

Definition current_value (h : Holding) : Q :=
  inject_Z (Js.round (current_price h * quantity h * 100)) / 100.

Definition unrealized_gain (h : Holding) : Q :=
  inject_Z (Js.round ((current_value h - total_cost h) * 100)) / 100.

Definition holdingMonths (h : Holding) (asOf : Date) : Z :=
  let pd := purchase_date h in
  ((getFullYear asOf - getFullYear pd) * 12 + (getMonth asOf - getMonth pd))%Z.

Definition isLongTerm (h : Holding) (asOf : Date) : bool :=
  let months := holdingMonths h asOf in
  if includes ["equity_share"; "equity_mf"; "elss"] (security_type h)
  then (12 <? months)%Z
  else (24 <? months)%Z.

Record Holdings : Type := mkHoldings {
  holdings : list Holding;
  realized_stcg_this_fy : Q;
  realized_ltcg_this_fy : Q
}.

(** [createHoldings({})]. *)
Definition emptyHoldings : Holdings :=
  {| holdings := []; realized_stcg_this_fy := 0; realized_ltcg_this_fy := 0 |}.

Inductive FindingStatus : Type :=
| OPPORTUNITY
| OPTIMIZED
| NOT_APPLICABLE.

Inductive Confidence : Type :=
| DEFINITE
| LIKELY
| NEEDS_VERIFICATION.

(** The values stored in the open [details] dictionary of a finding. *)
#[local] Unset Elimination Schemes.
Inductive JsVal : Type :=
| VNum (q : Q)
| VStr (s : string)
| VBool (b : bool)
| VArr (items : list JsVal)
| VObj (entries : list (string * JsVal)).
#[local] Set Elimination Schemes.

Definition VInt (z : Z) : JsVal := VNum (inject_Z z).

Record Finding : Type := mkFinding {
  check_id : string;
  check_name : string;
  status : FindingStatus;
  finding : string;
  savings : Z;
  action : string;
  deadline : string;
  confidence : Confidence;
  explanation : string;
  details : list (string * JsVal)
}.

(** [createFinding]: an absent [explanation] becomes the empty string. *)
Definition createFinding (check_id check_name : string) (status : FindingStatus)
    (finding : string) (savings : Z) (action deadline : string)
    (confidence : Confidence) (explanation : option string)
    (details : list (string * JsVal)) : Finding :=
  {| check_id := check_id;
     check_name := check_name;
     status := status;
     finding := finding;
     savings := savings;
     action := action;
     deadline := deadline;
     confidence := confidence;
     explanation := match explanation with Some e => e | None => "" end;
     details := details |}.

Record TaxHawkResult : Type := mkTaxHawkResult {
  user_name : string;
  r_financial_year : string;
  current_regime : string;
  recommended_regime : string;
  total_savings : Z;
  checks : list Finding;
  summary : string;
  disclaimer : string
}.

Definition createTaxHawkResult (user_name financial_year current_regime
    recommended_regime : string) (total_savings : Z) (checks : list Finding)
    (summary : string) : TaxHawkResult :=
  {| user_name := user_name;
     r_financial_year := financial_year;
     current_regime := current_regime;
     recommended_regime := recommended_regime;
     total_savings := total_savings;
     checks := checks;
     summary := summary;
     disclaimer :=
       String.concat ""
         [ "This analysis is for informational purposes only and does not constitute ";
           "tax advice. Please consult a qualified Chartered Accountant before making ";
           "tax decisions. Tax laws are subject to change." ] |}.

(* ------------------------------------------------------------------ *)
(** ** taxUtils.js: taxable income derivation and HRA                   *)
(* ------------------------------------------------------------------ *)

(** [STANDARD_DEDUCTION[fy]?.[regime] ?? fallback]. *)
Definition standardDeduction (fy regime : string) (fallback : Q) : Q :=
  match prop fy STANDARD_DEDUCTION with
  | Some byRegime =>
      match prop regime byRegime with
      | Some d => d
      | None => fallback
      end
  | None => fallback
  end.

Definition computeNewRegimeTaxableIncome (salary : SalaryProfile) : Q :=
  let fy := financial_year salary in
  let stdDed := standardDeduction fy "new" 75000 in
  let taxable := gross_salary salary - stdDed - professional_tax salary
                 - deduction_80ccd_2 salary in
  Js.max taxable 0.

(** The what-if overrides of [computeOldRegimeTaxableIncome]. *)
Record OldRegimeOpts : Type := mkOldRegimeOpts {
  hraExemption : option Q;
  total80c : option Q;
  total80d : option Q;
  total80ccd1b : option Q;
  total24b : option Q
}.

Definition noOverrides : OldRegimeOpts :=
  {| hraExemption := None; total80c := None; total80d := None;
     total80ccd1b := None; total24b := None |}.

Record OldRegimeBreakdown : Type := mkOldRegimeBreakdown {
  ob_gross_salary : Q;
  ob_hra_exemption : Q;
  ob_lta_exemption : Q;
  ob_other_exemptions : Q;
  net_salary : Q;
  ob_standard_deduction : Q;
  ob_professional_tax : Q;
  gross_total_income : Q;
  ob_deduction_80c : Q;
  ob_deduction_80ccd_1b : Q;
  ob_deduction_80ccd_2 : Q;
  ob_deduction_80d : Q;
  ob_deduction_24b : Q;
  deduction_other : Q;
  total_vi_a : Q;
  ob_taxable_income : Q
}.

(** [override != null ? override : current]. *)
Definition orElse (override : option Q) (current : Q) : Q :=
  match override with
  | Some v => v
  | None => current
  end.

Definition computeOldRegimeTaxableIncome (salary : SalaryProfile)
    (opts : OldRegimeOpts) : OldRegimeBreakdown :=
  let fy := financial_year salary in
  let stdDed := standardDeduction fy "old" 50000 in
  let hraExempt := orElse (hraExemption opts) (hra_exemption salary) in
  let netSalary := gross_salary salary - hraExempt - lta_exemption salary
                   - other_exemptions salary in
  let gti := netSalary - stdDed - professional_tax salary in
  let ded80c :=
    orElse (total80c opts)
      (Js.min (deduction_80c salary + deduction_80ccc salary
               + deduction_80ccd_1 salary) LIMIT_80C) in
  let ded80d := orElse (total80d opts) (deduction_80d salary) in
  let ded80ccd1b := orElse (total80ccd1b opts) (deduction_80ccd_1b salary) in
  let ded80ccd2 := deduction_80ccd_2 salary in
  let ded24b :=
    match total24b opts with
    | Some v => Js.min v LIMIT_24B_SELF_OCCUPIED
    | None => Js.min (deduction_24b salary) LIMIT_24B_SELF_OCCUPIED
    end in
  let dedOther := deduction_80e salary + deduction_80g salary
                  + deduction_80tta salary + other_deductions salary in
  let totalVia := ded80c + ded80ccd1b + ded80ccd2 + ded80d + ded24b + dedOther in
  let taxableIncome := Js.max (gti - totalVia) 0 in
  {| ob_gross_salary := gross_salary salary;
     ob_hra_exemption := hraExempt;
     ob_lta_exemption := lta_exemption salary;
     ob_other_exemptions := other_exemptions salary;
     net_salary := netSalary;
     ob_standard_deduction := stdDed;
     ob_professional_tax := professional_tax salary;
     gross_total_income := gti;
     ob_deduction_80c := ded80c;
     ob_deduction_80ccd_1b := ded80ccd1b;
     ob_deduction_80ccd_2 := ded80ccd2;
     ob_deduction_80d := ded80d;
     ob_deduction_24b := ded24b;
     deduction_other := dedOther;
     total_vi_a := totalVia;
     ob_taxable_income := taxableIncome |}.

Definition calculateHraExemption (basicAnnual hraReceivedAnnual rentPaidAnnual : Q)
    (isMetro : bool) : Q :=
  let optionA := hraReceivedAnnual in
  let optionB := rentPaidAnnual - HRA_RENT_MINUS_BASIC_PERCENT * basicAnnual in
  let optionC :=
    (if isMetro then HRA_METRO_PERCENT else HRA_NON_METRO_PERCENT) * basicAnnual in
  Js.max (Js.min (Js.min optionA optionB) optionC) 0.

(* ------------------------------------------------------------------ *)
(** ** redemptionPlanner.js                                             *)
(* ------------------------------------------------------------------ *)

Record RedemptionOpts : Type := mkRedemptionOpts {
  exemptionRemaining : option Q;
  exemptionNextFy : option Q
}.

Record OneFy : Type := mkOneFy {
  taxable : Q;
  tax : Z;
  effective_rate : Q;
  exemption_used : Q
}.

Record SplitFy : Type := mkSplitFy {
  sell_fy1 : Q;
  tax_fy1 : Z;
  sell_fy2 : Q;
  taxable_fy2 : Q;
  tax_fy2 : Z;
  split_total_tax : Z;
  split_effective_rate : Q
}.

Record RedemptionTax : Type := mkRedemptionTax {
  planned_ltcg : Q;
  one_fy : OneFy;
  split_fy : SplitFy;
  split_beneficial : bool;
  split_savings : Z;
  exemption_remaining : Q;
  exemption_next_fy : Q
}.

(** [plannedLtcg] is [None] for [null] or [undefined]. *)
Definition computeRedemptionTax (plannedLtcg : option Q) (opts : RedemptionOpts)
    : RedemptionTax :=
  let ltcg := Js.max (orElse plannedLtcg 0) 0 in
  let exemptionRemaining := orElse (exemptionRemaining opts) LTCG_EXEMPTION in
  let exemptionNextFy := orElse (exemptionNextFy opts) LTCG_EXEMPTION in
  let taxRate := LTCG_RATE * (1 + CESS_RATE) in
  let oneFyTaxable := Js.max (ltcg - exemptionRemaining) 0 in
  let oneFyTax := Js.round (oneFyTaxable * taxRate) in
  let oneFyEffective := if ltcg >? 0 then inject_Z oneFyTax / ltcg else 0 in
  let sellFy1 := Js.min ltcg exemptionRemaining in
  let taxFy1 := 0%Z in
  let remainingAfterFy1 := ltcg - sellFy1 in
  let taxableFy2 := Js.max (remainingAfterFy1 - exemptionNextFy) 0 in
  let taxFy2 := Js.round (taxableFy2 * taxRate) in
  let splitTotalTax := (taxFy1 + taxFy2)%Z in
  let splitEffective := if ltcg >? 0 then inject_Z splitTotalTax / ltcg else 0 in
  let splitSavings := (oneFyTax - splitTotalTax)%Z in
  {| planned_ltcg := ltcg;
     one_fy :=
       {| taxable := oneFyTaxable;
          tax := oneFyTax;
          effective_rate := oneFyEffective;
          exemption_used := Js.min ltcg exemptionRemaining |};
     split_fy :=
       {| sell_fy1 := sellFy1;
          tax_fy1 := taxFy1;
          sell_fy2 := remainingAfterFy1;
          taxable_fy2 := taxableFy2;
          tax_fy2 := taxFy2;
          split_total_tax := splitTotalTax;
          split_effective_rate := splitEffective |};
     split_beneficial := (0 <? splitSavings)%Z;
     split_savings := splitSavings;
     exemption_remaining := exemptionRemaining;
     exemption_next_fy := exemptionNextFy |}.

(* ------------------------------------------------------------------ *)
(** ** Number formatting used in the narrative strings                  *)
(* ------------------------------------------------------------------ *)

(** Concatenation of the pieces of a template literal. *)
Definition cat (pieces : list string) : string := String.concat "" pieces.

Definition newline : string := String (ascii_of_nat 10) EmptyString.

(** The decimal digits of a natural number. *)
Definition digits (n : N) : string := NilZero.string_of_uint (N.to_uint n).

(** [`${z}`] for an integer [z]. *)
Definition intToString (z : Z) : string :=
  if (z <? 0)%Z then cat ["-"; digits (Z.to_N (- z))] else digits (Z.to_N z).

(** [x.toFixed(0)]. *)
Definition toFixed0 (x : Q) : string :=
  cat [ if x <? 0 then "-" else "";
        digits (Z.to_N (Js.round (Js.abs x))) ].

(** Indian digit grouping on the reversed digits: after the last three
    digits, groups of two. *)
Fixpoint groupPairs (l : list ascii) : list ascii :=
  match l with
  | a :: b :: tl =>
      match tl with
      | [] => [a; b]
      | _ => a :: b :: ","%char :: groupPairs tl
      end
  | _ => l
  end.

Definition groupIndian (ds : string) : string :=
  match rev (list_ascii_of_string ds) with
  | a :: b :: c :: ((_ :: _) as tl) =>
      string_of_list_ascii (rev (a :: b :: c :: ","%char :: groupPairs tl))
  | _ => ds
  end.

(** The fraction digits of [n] thousandths, trailing zeros dropped. *)
Definition fractionDigits (n : N) : string :=
  let d1 := digits (n / 100) in
  let d2 := digits ((n / 10) mod 10) in
  let d3 := digits (n mod 10) in
  if negb (n mod 10 =? 0)%N then cat [d1; d2; d3]
  else if negb ((n / 10) mod 10 =? 0)%N then cat [d1; d2]
  else d1.

(** [x.toLocaleString('en-IN')]: at most three fraction digits, rounded
    half away from zero, Indian grouping of the integer part. *)
Definition toLocaleString (x : Q) : string :=
  let m := Z.to_N (Js.round (Js.abs x * 1000)) in
  cat [ if x <? 0 then "-" else "";
        groupIndian (digits (m / 1000));
        if (m mod 1000 =? 0)%N then "" else cat ["."; fractionDigits (m mod 1000)] ].

(** [z.toLocaleString('en-IN')] for an integer [z]. *)
Definition intToLocaleString (z : Z) : string := toLocaleString (inject_Z z).

(** [(-z).toLocaleString('en-IN')] for an integer [z]: the negation of 0
    is the number -0, which is printed with its sign. *)
Definition negatedToLocaleString (z : Z) : string :=
  if (z =? 0)%Z then "-0" else intToLocaleString (- z).

(* ------------------------------------------------------------------ *)
(** ** checks/eightyCGap.js                                             *)
(* ------------------------------------------------------------------ *)

Definition check80c (salary : SalaryProfile) : Finding :=
  let fy := financial_year salary in
  let current80c :=
    Js.min (deduction_80c salary + deduction_80ccc salary + deduction_80ccd_1 salary)
           LIMIT_80C in
  let epf := epf_employee_contribution salary in
  let gap := Js.max (LIMIT_80C - current80c) 0 in
  if gap <=? 0 then
    createFinding "80c_gap" "Section 80C Gap" OPTIMIZED
      (cat ["80C fully utilized at ₹"; toLocaleString current80c])
      0
      "No action needed — 80C limit already maxed"
      "N/A"
      DEFINITE
      None
      [ ("epf_contribution", VNum epf);
        ("current_80c_total", VNum current80c);
        ("limit", VNum LIMIT_80C);
        ("gap", VNum 0) ]
  else
    let oldBreakdown := computeOldRegimeTaxableIncome salary noOverrides in
    let gti := gross_total_income oldBreakdown in
    let marginal := getMarginalRate gti "old" fy "below_60" in
    let taxSaved := Js.round (gap * marginal * (1 + CESS_RATE)) in
    createFinding "80c_gap" "Section 80C Gap" OPPORTUNITY
      (cat [ "₹"; toLocaleString gap; " gap in 80C limit. ";
             "EPF covers ₹"; toLocaleString epf; " of ₹";
             toFixed0 (LIMIT_80C / 1000); "K" ])
      taxSaved
      (cat [ "Invest ₹"; toLocaleString gap; " in ELSS mutual fund ";
             "(e.g., Mirae Asset ELSS, Axis ELSS) before March 31" ])
      (cat ["March 31 (for FY "; fy; " deduction)"])
      DEFINITE
      (Some (cat
        [ "Your EPF contribution of ₹"; toLocaleString epf; " covers only ";
          toFixed0 (epf / LIMIT_80C * 100); "% of the ₹";
          toLocaleString LIMIT_80C; " limit. ";
          "ELSS has the shortest lock-in (3 years) among 80C instruments ";
          "and offers equity market returns." ]))
      [ ("epf_contribution", VNum epf);
        ("current_80c_total", VNum current80c);
        ("limit", VNum LIMIT_80C);
        ("gap", VNum gap);
        ("marginal_rate", VNum marginal);
        ("tax_saved_component", VInt taxSaved);
        ("recommended_instrument", VStr "ELSS (3-year lock-in, equity growth)") ].

(* ------------------------------------------------------------------ *)
(** ** checks/regimeComparator.js                                       *)
(* ------------------------------------------------------------------ *)

(** The options of [checkRegime] and [check80d]; a property the caller
    leaves out is [None]. *)
Record CheckOpts : Type := mkCheckOpts {
  parentsSenior : option bool;
  selfSenior : option bool
}.

(** [flag || false]. *)
Definition orFalse (flag : option bool) : bool :=
  match flag with
  | Some b => b
  | None => false
  end.

Definition breakdownVal (b : OldRegimeBreakdown) : JsVal :=
  VObj
    [ ("gross_salary", VNum (ob_gross_salary b));
      ("hra_exemption", VNum (ob_hra_exemption b));
      ("lta_exemption", VNum (ob_lta_exemption b));
      ("other_exemptions", VNum (ob_other_exemptions b));
      ("net_salary", VNum (net_salary b));
      ("standard_deduction", VNum (ob_standard_deduction b));
      ("professional_tax", VNum (ob_professional_tax b));
      ("gross_total_income", VNum (gross_total_income b));
      ("deduction_80c", VNum (ob_deduction_80c b));
      ("deduction_80ccd_1b", VNum (ob_deduction_80ccd_1b b));
      ("deduction_80ccd_2", VNum (ob_deduction_80ccd_2 b));
      ("deduction_80d", VNum (ob_deduction_80d b));
      ("deduction_24b", VNum (ob_deduction_24b b));
      ("deduction_other", VNum (deduction_other b));
      ("total_vi_a", VNum (total_vi_a b));
      ("taxable_income", VNum (ob_taxable_income b)) ].

(** The age category [checkRegime] computes the old-regime tax with. *)
Definition regimeAgeCategory (opts : CheckOpts) : string :=
  if orFalse (selfSenior opts) then "senior" else "below_60".

(** The self limit of Section 80D chosen by [checkRegime] and [check80d]. *)
Definition selfLimit80d (opts : CheckOpts) : Q :=
  if orFalse (selfSenior opts) then LIMIT_80D_SELF_SENIOR else LIMIT_80D_SELF_BELOW_60.

Definition parentsLimit80d (opts : CheckOpts) : Q :=
  if orFalse (parentsSenior opts) then LIMIT_80D_PARENTS_SENIOR
  else LIMIT_80D_PARENTS_BELOW_60.

Definition checkRegime (salary : SalaryProfile) (opts : CheckOpts) : Finding :=
  let selfSenior := orFalse (selfSenior opts) in
  let ageCategory := regimeAgeCategory opts in
  let fy := financial_year salary in
  let newTaxable := computeNewRegimeTaxableIncome salary in
  let newTaxResult := calculateNewRegimeTax newTaxable fy in
  let newTax := total_tax newTaxResult in
  let optimalHra :=
    if andb (hra_received salary >? 0) (monthly_rent salary >? 0) then
      calculateHraExemption (basic_salary salary) (hra_received salary)
        (monthly_rent salary * 12) (is_metro salary)
    else 0 in
  let optimal80c := LIMIT_80C in
  let selfLimit := selfLimit80d opts in
  let parentsLimit := parentsLimit80d opts in
  let optimal80dTarget := if selfSenior then selfLimit + parentsLimit else parentsLimit in
  let optimal80d := Js.max (deduction_80d salary) optimal80dTarget in
  let optimalNps1b := LIMIT_80CCD_1B in
  let optimal24b := Js.min (deduction_24b salary) LIMIT_24B_SELF_OCCUPIED in
  let oldBreakdown :=
    computeOldRegimeTaxableIncome salary
      {| hraExemption := Some optimalHra;
         total80c := Some optimal80c;
         total80d := Some optimal80d;
         total80ccd1b := Some optimalNps1b;
         total24b := Some optimal24b |} in
  let oldTaxable := ob_taxable_income oldBreakdown in
  let oldTaxResult := calculateOldRegimeTax oldTaxable fy ageCategory in
  let oldTax := total_tax oldTaxResult in
  let savings := (newTax - oldTax)%Z in
  let recommended := if (0 <? savings)%Z then "old" else "new" in
  let current80c :=
    deduction_80c salary + deduction_80ccc salary + deduction_80ccd_1 salary in
  let gap80c := LIMIT_80C - current80c in
  let deductionsNeeded :=
    List.concat
      [ if optimalHra >? hra_exemption salary
        then [("hra_exemption", VNum optimalHra)] else [];
        if gap80c >? 0
        then [("section_80c", VNum optimal80c); ("section_80c_gap", VNum gap80c)]
        else [];
        if optimal80d >? deduction_80d salary
        then [("section_80d", VNum optimal80d)] else [];
        if optimalNps1b >? deduction_80ccd_1b salary
        then [("section_80ccd_1b", VNum optimalNps1b)] else [];
        if optimal24b >? 0
        then [("section_24b", VNum optimal24b)] else [] ] in
  if (0 <? savings)%Z then
    createFinding "regime_arbitrage" "Tax Regime Optimization" OPPORTUNITY
      (cat [ "Switching to old regime with full deductions saves ₹";
             intToLocaleString savings ])
      savings
      (cat [ "File ITR under old tax regime for FY "; fy; ". ";
             "Invest in ELSS/PPF for 80C, get parents' health insurance for 80D, ";
             "and open NPS for 80CCD(1B) before March 31" ])
      "July 31 (ITR filing) — but investments needed before March 31"
      DEFINITE
      (Some (cat
        [ "Your employer applied the new regime (default), resulting in tax of ";
          "₹"; intToLocaleString newTax;
          ". Under the old regime with optimized deductions ";
          "(HRA ₹"; toLocaleString optimalHra;
          " + 80C ₹"; toLocaleString optimal80c; " + ";
          "80D ₹"; toLocaleString optimal80d;
          " + NPS ₹"; toLocaleString optimalNps1b;
          if optimal24b >? 0
          then cat [" + Home Loan ₹"; toLocaleString optimal24b] else "";
          "), your tax drops to ₹"; intToLocaleString oldTax; "." ]))
      [ ("new_regime_tax", VInt newTax);
        ("new_regime_taxable", VNum newTaxable);
        ("old_regime_tax", VInt oldTax);
        ("old_regime_taxable", VNum oldTaxable);
        ("recommended_regime", VStr recommended);
        ("old_regime_breakdown", breakdownVal oldBreakdown);
        ("deductions_needed", VObj deductionsNeeded) ]
  else
    createFinding "regime_arbitrage" "Tax Regime Optimization" OPTIMIZED
      (cat [ "New regime is already optimal (saves ₹";
             negatedToLocaleString savings; " vs old)" ])
      0
      "No action needed — continue with new regime"
      "N/A"
      DEFINITE
      (Some (cat
        [ "New regime tax: ₹"; intToLocaleString newTax; ". ";
          "Old regime tax (even with optimized deductions): ₹";
          intToLocaleString oldTax; ". ";
          "New regime is better by ₹"; negatedToLocaleString savings; "." ]))
      [ ("new_regime_tax", VInt newTax);
        ("new_regime_taxable", VNum newTaxable);
        ("old_regime_tax", VInt oldTax);
        ("old_regime_taxable", VNum oldTaxable);
        ("recommended_regime", VStr recommended);
        ("old_regime_breakdown", breakdownVal oldBreakdown) ].

(* ------------------------------------------------------------------ *)
(** ** checks/eightyDCheck.js                                           *)
(* ------------------------------------------------------------------ *)

Definition check80d (salary : SalaryProfile) (opts : CheckOpts) : Finding :=
  let parentsSenior := orFalse (parentsSenior opts) in
  let fy := financial_year salary in
  let current80d := deduction_80d salary in
  let selfLimit := selfLimit80d opts in
  let parentsLimit := parentsLimit80d opts in
  let totalLimit := selfLimit + parentsLimit in
  if current80d >=? totalLimit then
    createFinding "80d_check" "Health Insurance (Section 80D)" OPTIMIZED
      (cat ["80D fully utilized at ₹"; toLocaleString current80d])
      0
      "No action needed"
      "N/A"
      DEFINITE
      None
      [ ("self_family_claimed", VNum current80d);
        ("self_family_limit", VNum selfLimit);
        ("parents_limit", VNum parentsLimit);
        ("total_limit", VNum totalLimit) ]
  else
    let additional80d := totalLimit - current80d in
    let isParents := current80d =? 0 in
    let recommendedPremium := if isParents then parentsLimit else additional80d in
    let oldBreakdown := computeOldRegimeTaxableIncome salary noOverrides in
    let gti := gross_total_income oldBreakdown in
    let marginal := getMarginalRate gti "old" fy "below_60" in
    let taxSaved := Js.round (recommendedPremium * marginal * (1 + CESS_RATE)) in
    let findingText :=
      if isParents then
        cat [ "Parents have no health insurance. ";
              "₹"; toLocaleString recommendedPremium; " policy = ₹";
              intToLocaleString taxSaved; " tax saving" ]
      else
        cat ["₹"; toLocaleString additional80d; " additional 80D deduction available"] in
    let actionText :=
      if isParents then
        cat [ "Buy a ₹5-10L family floater health insurance for parents ";
              "(annual premium ~₹20-25K). Claim under Section 80D" ]
      else
        cat [ "Increase health insurance coverage to claim additional ";
              "₹"; toLocaleString additional80d; " under 80D" ] in
    createFinding "80d_check" "Health Insurance (Section 80D)" OPPORTUNITY
      findingText
      taxSaved
      actionText
      (cat ["March 31 (for FY "; fy; " deduction)"])
      DEFINITE
      (Some (cat
        [ "Section 80D allows deduction for health insurance premiums: ";
          "up to ₹"; toLocaleString selfLimit; " for self/family and ";
          "₹"; toLocaleString parentsLimit; " for parents. ";
          "A family floater for parents costs ~₹25K/year and the effective ";
          "cost after tax saving is only ₹";
          toLocaleString (recommendedPremium - inject_Z taxSaved); "." ]))
      [ ("self_family_claimed", VNum current80d);
        ("self_family_limit", VNum selfLimit);
        ("parents_claimed", VNum 0);
        ("parents_limit", VNum parentsLimit);
        ("parents_senior", VBool parentsSenior);
        ("recommended_premium", VNum recommendedPremium);
        ("marginal_rate", VNum marginal);
        ("tax_saved_component", VInt taxSaved) ].

(* ------------------------------------------------------------------ *)
(** ** checks/hraOptimizer.js                                           *)
(* ------------------------------------------------------------------ *)

Definition checkHra (salary : SalaryProfile) : Finding :=
  if orb (hra_received salary <=? 0) (monthly_rent salary <=? 0) then
    createFinding "hra_optimizer" "HRA Exemption" NOT_APPLICABLE
      "No HRA received or no rent paid"
      0
      "N/A"
      "N/A"
      DEFINITE
      None
      [ ("hra_received", VNum (hra_received salary));
        ("monthly_rent", VNum (monthly_rent salary)) ]
  else
    let rentAnnual := monthly_rent salary * 12 in
    let optimalExemption :=
      calculateHraExemption (basic_salary salary) (hra_received salary)
        rentAnnual (is_metro salary) in
    let currentExemption := hra_exemption salary in
    let optionA := hra_received salary in
    let optionB := rentAnnual - 0.10 * basic_salary salary in
    let metroPct := if is_metro salary then 0.50 else 0.40 in
    let optionC := metroPct * basic_salary salary in
    let cityType := if is_metro salary then "metro" else "non-metro" in
    if optimalExemption <=? 0 then
      createFinding "hra_optimizer" "HRA Exemption" NOT_APPLICABLE
        "Rent is too low relative to basic salary for HRA benefit"
        0
        "N/A"
        "N/A"
        DEFINITE
        None
        [ ("rent_annual", VNum rentAnnual);
          ("hra_received", VNum (hra_received salary));
          ("optimal_exemption", VNum 0) ]
    else if andb (currentExemption >? 0) (currentExemption >=? optimalExemption) then
      createFinding "hra_optimizer" "HRA Exemption" OPTIMIZED
        (cat ["HRA exemption already claimed at ₹"; toLocaleString currentExemption])
        0
        "No action needed"
        "N/A"
        DEFINITE
        None
        [ ("rent_annual", VNum rentAnnual);
          ("hra_received", VNum (hra_received salary));
          ("current_exemption", VNum currentExemption);
          ("optimal_exemption", VNum optimalExemption) ]
    else
      createFinding "hra_optimizer" "HRA Exemption" OPPORTUNITY
        (cat [ "Paying ₹"; toLocaleString (monthly_rent salary);
               "/month rent but claiming ";
               "₹"; toLocaleString currentExemption; " HRA (";
               regime salary; " regime). ";
               "Old regime unlocks ₹"; toLocaleString optimalExemption;
               " exemption" ])
        0
        (cat [ "Collect rent receipts and landlord PAN. ";
               "HRA benefit is captured in regime switch recommendation" ])
        "Include in ITR filing by July 31"
        DEFINITE
        (Some (cat
          [ "HRA exemption = min of three amounts:"; newline;
            "  A) Actual HRA received = ₹"; toLocaleString optionA; newline;
            "  B) Rent - 10% of Basic = ₹"; toLocaleString optionB; newline;
            "  C) "; toFixed0 (metroPct * 100); "% of Basic ("; cityType;
            ") = ₹"; toLocaleString optionC; newline;
            "  Exempt amount = ₹"; toLocaleString optimalExemption ]))
        [ ("rent_annual", VNum rentAnnual);
          ("hra_received", VNum (hra_received salary));
          ("optimal_exemption", VNum optimalExemption);
          ("current_exemption", VNum currentExemption);
          ("is_metro", VBool (is_metro salary));
          ("option_a_hra_received", VNum optionA);
          ("option_b_rent_minus_basic", VNum optionB);
          ("option_c_percent_basic", VNum optionC);
          ("note", VStr "Savings included in regime arbitrage check") ].

(* ------------------------------------------------------------------ *)
(** ** checks/npsCheck.js                                               *)
(* ------------------------------------------------------------------ *)

Definition checkNps (salary : SalaryProfile) : Finding :=
  let fy := financial_year salary in
  let currentNps1b := deduction_80ccd_1b salary in
  let gap := Js.max (LIMIT_80CCD_1B - currentNps1b) 0 in
  if gap <=? 0 then
    createFinding "nps_check" "NPS Tax Benefit (80CCD(1B))" OPTIMIZED
      (cat ["NPS 80CCD(1B) fully utilized at ₹"; toLocaleString currentNps1b])
      0
      "No action needed"
      "N/A"
      DEFINITE
      None
      [ ("current_nps_1b", VNum currentNps1b);
        ("limit_1b", VNum LIMIT_80CCD_1B);
        ("gap", VNum 0) ]
  else
    let oldBreakdown := computeOldRegimeTaxableIncome salary noOverrides in
    let gti := gross_total_income oldBreakdown in
    let marginal := getMarginalRate gti "old" fy "below_60" in
    let taxSaved := Js.round (gap * marginal * (1 + CESS_RATE)) in
    createFinding "nps_check" "NPS Tax Benefit (80CCD(1B))" OPPORTUNITY
      (cat [ "₹"; toLocaleString gap; " NPS contribution saves ₹";
             intToLocaleString taxSaved; " in tax (additional to 80C)" ])
      taxSaved
      (cat [ "Open NPS Tier 1 account and invest ₹"; toLocaleString gap; ". ";
             "This is ABOVE the ₹1.5L 80C limit" ])
      (cat ["March 31 (for FY "; fy; " deduction)"])
      DEFINITE
      (Some (cat
        [ "Section 80CCD(1B) provides an additional ₹";
          toLocaleString LIMIT_80CCD_1B; " ";
          "deduction over the 80C limit. At your "; toFixed0 (marginal * 100);
          "% marginal rate, ";
          "this saves ₹"; intToLocaleString taxSaved;
          " immediately. The trade-off: NPS is ";
          "locked until age 60, but the tax saving is immediate." ]))
      [ ("current_nps_1b", VNum currentNps1b);
        ("limit_1b", VNum LIMIT_80CCD_1B);
        ("gap", VNum gap);
        ("marginal_rate", VNum marginal);
        ("tax_saved_component", VInt taxSaved);
        ("note", VStr "Locked until age 60. Tax saving is immediate, but money is illiquid") ].

(* ------------------------------------------------------------------ *)
(** ** checks/homeLoanCheck.js                                          *)
(* ------------------------------------------------------------------ *)

Definition checkHomeLoan (salary : SalaryProfile) : Finding :=
  let interestPaid := deduction_24b salary in
  if orb (interestPaid =? 0) (interestPaid <=? 0) then
    createFinding "home_loan_check" "Home Loan Interest (Section 24b)" NOT_APPLICABLE
      "No home loan interest declared"
      0
      "N/A"
      "N/A"
      DEFINITE
      None
      [ ("home_loan_interest", VNum 0) ]
  else
    let fy := financial_year salary in
    let capped := Js.min interestPaid LIMIT_24B_SELF_OCCUPIED in
    let oldBreakdown := computeOldRegimeTaxableIncome salary noOverrides in
    let gti := gross_total_income oldBreakdown in
    let marginal := getMarginalRate gti "old" fy "below_60" in
    let displaySaving := Js.round (capped * marginal * (1 + CESS_RATE)) in
    createFinding "home_loan_check" "Home Loan Interest (Section 24b)" OPPORTUNITY
      (cat [ "Your ₹"; toLocaleString capped; " home loan interest deduction ";
             "saves you ₹"; intToLocaleString displaySaving; " under old regime" ])
      0
      (cat [ "Ensure you have the home loan interest certificate from your bank. ";
             "This benefit is captured in the regime switch recommendation" ])
      (cat ["Include in ITR filing by July 31 (FY "; fy; ")"])
      DEFINITE
      (Some (cat
        [ "Section 24b allows deduction of home loan interest up to ";
          "₹"; toLocaleString LIMIT_24B_SELF_OCCUPIED;
          " per year for self-occupied property."; newline;
          "Your interest: ₹"; toLocaleString interestPaid;
          if interestPaid >? LIMIT_24B_SELF_OCCUPIED
          then cat [" (capped at ₹"; toLocaleString LIMIT_24B_SELF_OCCUPIED; ")"]
          else "";
          newline;
          "At "; toFixed0 (marginal * 100); "% marginal rate: saves ₹";
          intToLocaleString displaySaving; " in tax."; newline;
          "This deduction is only available under the old regime." ]))
      [ ("home_loan_interest", VNum interestPaid);
        ("capped_amount", VNum capped);
        ("limit", VNum LIMIT_24B_SELF_OCCUPIED);
        ("marginal_rate", VNum marginal);
        ("display_saving", VInt displaySaving);
        ("note", VStr "Savings included in regime arbitrage check") ].

(* ------------------------------------------------------------------ *)
(** ** checks/ltcgScanner.js                                            *)
(* ------------------------------------------------------------------ *)

Record LtcgHolding : Type := mkLtcgHolding {
  lt_name : string;
  lt_gain : Q;
  lt_months : Z;
  lt_cost : Q;
  lt_value : Q
}.

Record StcgHolding : Type := mkStcgHolding {
  st_name : string;
  st_gain : Q;
  st_months : Z;
  st_months_to_ltcg : Z;
  st_cost : Q;
  st_value : Q
}.

Record HoldingPeriodAlert : Type := mkHoldingPeriodAlert {
  al_security : string;
  al_months_held : Z;
  al_months_to_ltcg : Z;
  al_gain : Q;
  al_stcg_tax : Z;
  al_advice : string
}.

Record UnrealizedLoss : Type := mkUnrealizedLoss {
  ul_name : string;
  ul_loss : Q;
  ul_is_long_term : bool
}.

(** The first loop of [checkCapitalGains]: the three arrays it fills,
    each in the order of the holdings. *)
Fixpoint scanHoldings (asOf : Date) (hs : list Holding)
    : list LtcgHolding * list StcgHolding * list HoldingPeriodAlert :=
  match hs with
  | [] => ([], [], [])
  | h :: rest =>
      let '(ltcgHoldings, stcgHoldings, holdingPeriodAlerts) :=
        scanHoldings asOf rest in
      let months := holdingMonths h asOf in
      let gain := unrealized_gain h in
      let isLt := isLongTerm h asOf in
      if andb isLt (gain >? 0) then
        ( {| lt_name := security_name h;
             lt_gain := gain;
             lt_months := months;
             lt_cost := total_cost h;
             lt_value := current_value h |} :: ltcgHoldings,
          stcgHoldings, holdingPeriodAlerts )
      else if negb isLt then
        ( ltcgHoldings,
          {| st_name := security_name h;
             st_gain := gain;
             st_months := months;
             st_months_to_ltcg := if (months <? 13)%Z then (13 - months)%Z else 0%Z;
             st_cost := total_cost h;
             st_value := current_value h |} :: stcgHoldings,
          if andb (andb (10 <=? months)%Z (months <=? 12)%Z) (gain >? 0) then
            {| al_security := security_name h;
               al_months_held := months;
               al_months_to_ltcg := (13 - months)%Z;
               al_gain := gain;
               al_stcg_tax := Js.round (gain * STCG_RATE * (1 + CESS_RATE));
               al_advice :=
                 cat [ "Wait "; intToString (13 - months); " month(s) before selling to ";
                       "qualify for LTCG rate (12.5% vs 20%)" ] |}
            :: holdingPeriodAlerts
          else holdingPeriodAlerts )
      else (ltcgHoldings, stcgHoldings, holdingPeriodAlerts)
  end.

(** The second loop: the holdings with a negative gain. *)
Fixpoint scanLosses (asOf : Date) (hs : list Holding) : list UnrealizedLoss :=
  match hs with
  | [] => []
  | h :: rest =>
      if unrealized_gain h <? 0 then
        {| ul_name := security_name h;
           ul_loss := Js.abs (unrealized_gain h);
           ul_is_long_term := isLongTerm h asOf |} :: scanLosses asOf rest
      else scanLosses asOf rest
  end.

Definition alertVal (a : HoldingPeriodAlert) : JsVal :=
  VObj
    [ ("security", VStr (al_security a));
      ("months_held", VInt (al_months_held a));
      ("months_to_ltcg", VInt (al_months_to_ltcg a));
      ("gain", VNum (al_gain a));
      ("stcg_tax", VInt (al_stcg_tax a));
      ("advice", VStr (al_advice a)) ].

Definition lossVal (l : UnrealizedLoss) : JsVal :=
  VObj
    [ ("name", VStr (ul_name l));
      ("loss", VNum (ul_loss l));
      ("is_long_term", VBool (ul_is_long_term l)) ].

(** [array.reduce((sum, h) => sum + h.gain, 0)]. *)
Definition sumGains (gains : list Q) : Q :=
  fold_left (fun sum g => sum + g) gains 0.

(** The reference date when [opts.asOf] is absent: March 31 of this year
    in January-March, of the next year otherwise. *)
Definition defaultAsOf (today : Date) : Date :=
  if (getMonth today <? 3)%Z then mkDate (getFullYear today) 2 31
  else mkDate (getFullYear today + 1) 2 31.

Definition isEmpty {A : Type} (l : list A) : bool :=
  match l with
  | [] => true
  | _ :: _ => false
  end.

Definition checkCapitalGains (today : Date) (hs : Holdings) (optAsOf : option Date)
    : Finding :=
  let asOf :=
    match optAsOf with
    | Some d => d
    | None => defaultAsOf today
    end in
  if isEmpty (holdings hs) then
    createFinding "capital_gains" "Capital Gains Optimization" NOT_APPLICABLE
      "No investment holdings to analyze"
      0
      "N/A"
      "N/A"
      DEFINITE
      None
      []
  else
    let '(ltcgHoldings, stcgHoldings, holdingPeriodAlerts) :=
      scanHoldings asOf (holdings hs) in
    let totalUnrealizedLtcg := sumGains (map lt_gain ltcgHoldings) in
    let totalUnrealizedStcg :=
      sumGains (map st_gain (filter (fun h => st_gain h >? 0) stcgHoldings)) in
    let exemptionRemaining := Js.max (LTCG_EXEMPTION - realized_ltcg_this_fy hs) 0 in
    let harvestableLtcg := Js.min totalUnrealizedLtcg exemptionRemaining in
    let futureTaxSaved := Js.round (harvestableLtcg * LTCG_RATE * (1 + CESS_RATE)) in
    let holdingsToHarvest :=
      map lt_name (filter (fun h => lt_gain h >? 0) ltcgHoldings) in
    let unrealizedLosses := scanLosses asOf (holdings hs) in
    if andb (harvestableLtcg <=? 0) (isEmpty holdingPeriodAlerts) then
      createFinding "capital_gains" "Capital Gains Optimization" OPTIMIZED
        "No harvestable LTCG or holding period optimizations found"
        0
        "No action needed"
        "N/A"
        DEFINITE
        None
        [ ("unrealized_ltcg", VNum totalUnrealizedLtcg);
          ("unrealized_stcg", VNum totalUnrealizedStcg);
          ("ltcg_exemption_limit", VNum LTCG_EXEMPTION) ]
    else
      let action :=
        if negb (isEmpty holdingsToHarvest) then
          let harvestNames := String.concat ", " holdingsToHarvest in
          cat [ "Before March 31: Sell "; harvestNames; ". ";
                "Immediately repurchase. This resets cost basis and uses ";
                "your ₹"; toFixed0 (LTCG_EXEMPTION / 1000); "K annual LTCG exemption" ]
        else "Monitor holdings for LTCG harvesting opportunity" in
      let details :=
        List.concat
          [ [ ("unrealized_ltcg", VNum totalUnrealizedLtcg);
              ("unrealized_stcg", VNum totalUnrealizedStcg);
              ("realized_ltcg_this_fy", VNum (realized_ltcg_this_fy hs));
              ("ltcg_exemption_limit", VNum LTCG_EXEMPTION);
              ("exemption_used", VNum harvestableLtcg);
              ("exemption_remaining", VNum (exemptionRemaining - harvestableLtcg));
              ("future_tax_saved", VInt futureTaxSaved);
              ("holdings_to_harvest", VArr (map VStr holdingsToHarvest)) ];
            if negb (isEmpty holdingPeriodAlerts)
            then [("holding_period_alerts", VArr (map alertVal holdingPeriodAlerts))]
            else [];
            if negb (isEmpty unrealizedLosses)
            then [("unrealized_losses", VArr (map lossVal unrealizedLosses))]
            else [] ] in
      createFinding "capital_gains" "Capital Gains Optimization" OPPORTUNITY
        (cat [ "₹"; toLocaleString totalUnrealizedLtcg; " unrealized LTCG can be ";
               "harvested tax-free. Saves ₹"; intToLocaleString futureTaxSaved;
               " in future taxes" ])
        futureTaxSaved
        action
        "March 31 (end of financial year)"
        DEFINITE
        (Some (cat
          [ "You have ₹"; toLocaleString totalUnrealizedLtcg;
            " in unrealized long-term ";
            "capital gains, well under the ₹"; toLocaleString LTCG_EXEMPTION;
            " annual exemption. ";
            "By selling and immediately repurchasing (legal in India — no wash sale rule), ";
            "you reset your cost basis higher and avoid 12.5% tax on these gains in the future." ]))
        details.

(* ------------------------------------------------------------------ *)
(** ** checks/orchestrator.js                                           *)
(* ------------------------------------------------------------------ *)

(** The options of [runAllChecks].  The source reads [parentsSenior] and
    [cgAsOf]; [selfSenior] is a property a caller may pass along. *)
Record RunOpts : Type := mkRunOpts {
  opt_parentsSenior : option bool;
  opt_selfSenior : option bool;
  opt_cgAsOf : option Date
}.

(** [regimeResult.details.recommended_regime || 'new']. *)
Definition recommendedRegimeOf (regimeResult : Finding) : string :=
  match prop "recommended_regime" (details regimeResult) with
  | Some (VStr r) => if String.eqb r "" then "new" else r
  | _ => "new"
  end.

(** The text a suppressed finding is rewritten to. *)
Definition newRegimeFinding (oldSavings : Z) : string :=
  cat [ "Not applicable under new regime ";
        "(would save ₹"; intToLocaleString oldSavings; " under old regime)" ].

(** The body of the loop over [deductionChecks]: the three assignments
    to one finding. *)
Definition suppressUnderNewRegime (check : Finding) : Finding :=
  let oldSavings := savings check in
  {| check_id := check_id check;
     check_name := check_name check;
     status := NOT_APPLICABLE;
     finding :=
       if (0 <? oldSavings)%Z then newRegimeFinding oldSavings
       else finding check;
     savings := 0;
     action := action check;
     deadline := deadline check;
     confidence := confidence check;
     explanation := explanation check;
     details := details check |}.

(** [allChecks.sort((a, b) => b.savings - a.savings)]: the sort is stable,
    so a finding goes before the first one with savings not above its own
    among those that followed it. *)
Fixpoint insertBySavings (x : Finding) (sorted : list Finding) : list Finding :=
  match sorted with
  | [] => [x]
  | y :: rest =>
      if (savings y <=? savings x)%Z then x :: sorted
      else y :: insertBySavings x rest
  end.

Definition sortBySavings (l : list Finding) : list Finding :=
  fold_right insertBySavings [] l.

Definition generateSummary (salary : SalaryProfile) (checks : list Finding)
    (totalSavings : Z) (recommendedRegime : string) : string :=
  let opportunities :=
    filter (fun c => match status c with OPPORTUNITY => true | _ => false end) checks in
  let lines :=
    if (0 <? totalSavings)%Z then
      List.concat
        [ [ cat [ "TaxHawk found ₹"; intToLocaleString totalSavings;
                  " in potential tax savings ";
                  "for "; employee_name salary; " (FY "; financial_year salary; ")." ] ];
          if andb (String.eqb recommendedRegime "old") (String.eqb (regime salary) "new")
          then [ cat [ "The biggest opportunity: switching from the new tax regime ";
                       "(employer default) to the old regime with optimized deductions." ] ]
          else [];
          if negb (isEmpty opportunities) then
            cat [ newline; intToString (Z.of_nat (length opportunities));
                  " optimization(s) found:" ]
            :: map (fun opp => cat [ "  - "; check_name opp; ": ₹";
                                     intToLocaleString (savings opp) ])
                 (filter (fun opp => (0 <? savings opp)%Z) opportunities)
          else [] ]
    else
      [ cat [ "Your tax setup is already well-optimized for FY ";
              financial_year salary; ". ";
              "No significant savings opportunities found." ] ] in
  String.concat newline lines.

(** The options [runAllChecks] passes to [checkRegime] and [check80d]:
    the object literal [{ parentsSenior }]. *)
Definition forwardedOpts (opts : RunOpts) : CheckOpts :=
  {| parentsSenior := Some (orFalse (opt_parentsSenior opts));
     selfSenior := None |}.

(** [holdings], or [createHoldings({})] when it is omitted. *)
Definition holdingsOrEmpty (holdings : option Holdings) : Holdings :=
  match holdings with
  | Some h => h
  | None => emptyHoldings
  end.

(** [runAllChecks(salary, holdings, opts)]; [today] is the clock and an
    omitted [holdings] is [None].  The loop over [deductionChecks] assigns
    to the five findings that [allChecks] also holds, so [allChecks] is
    built here from the findings after the loop. *)
Definition runAllChecks (today : Date) (salary : SalaryProfile)
    (holdings : option Holdings) (opts : RunOpts) : TaxHawkResult :=
  let cgAsOf := opt_cgAsOf opts in
  let holdings := holdingsOrEmpty holdings in
  let checkOpts := forwardedOpts opts in
  let regimeResult := checkRegime salary checkOpts in
  let result80c := check80c salary in
  let result80d := check80d salary checkOpts in
  let resultHra := checkHra salary in
  let resultCg := checkCapitalGains today holdings cgAsOf in
  let resultNps := checkNps salary in
  let resultHomeLoan := checkHomeLoan salary in
  let recommendedRegime := recommendedRegimeOf regimeResult in
  let update :=
    if String.eqb recommendedRegime "new" then suppressUnderNewRegime
    else fun check => check in
  let allChecks :=
    [ regimeResult; update result80c; update result80d; update resultHra;
      resultCg; update resultNps; update resultHomeLoan ] in
  let totalSavings := (savings regimeResult + savings resultCg)%Z in
  let sorted := sortBySavings allChecks in
  let summary := generateSummary salary sorted totalSavings recommendedRegime in
  createTaxHawkResult (employee_name salary) (financial_year salary)
    (regime salary) recommendedRegime totalSavings sorted summary.

(** The finding of a report with a given [check_id]. *)
Definition findCheck (id : string) (checks : list Finding) : option Finding :=
  find (fun c => String.eqb (check_id c) id) checks.

(** The total before cess of a tax breakdown: tax after rebate plus surcharge. *)
Definition preCessTotal (r : TaxBreakdown) : Q :=
  tax_after_rebate r + inject_Z (surcharge r).

(** The finite thresholds of a surcharge table. *)
Fixpoint thresholds (slabs : list Slab) : list Q :=
  match slabs with
  | [] => []
  | (Fin u, _) :: rest => u :: thresholds rest
  | (Infinity, _) :: rest => thresholds rest
  end.

(** The sum of the savings of a list of findings. *)
Definition sumSavings (checks : list Finding) : Z :=
  fold_right (fun c acc => (savings c + acc)%Z) 0%Z checks.

(* ------------------------------------------------------------------ *)
(** ** Notions used in the statements                                   *)
(* ------------------------------------------------------------------ *)

(** The total before cess of the old-regime pipeline for a taxpayer
    below 60. *)
Definition oldTotal (fy : string) (x : Q) : Q :=
  preCessTotal (calculateOldRegimeTax x fy "below_60").

(** The seven findings of [runAllChecks] after the loop over
    [deductionChecks] and before the sort. *)
Definition allChecksOf (today : Date) (s : SalaryProfile) (h : option Holdings)
    (opts : RunOpts) : list Finding :=
  let update :=
    if String.eqb (recommendedRegimeOf (checkRegime s (forwardedOpts opts))) "new"
    then suppressUnderNewRegime else fun check => check in
  [ checkRegime s (forwardedOpts opts);
    update (check80c s);
    update (check80d s (forwardedOpts opts));
    update (checkHra s);
    checkCapitalGains today (holdingsOrEmpty h) (opt_cgAsOf opts);
    update (checkNps s);
    update (checkHomeLoan s) ].

(** The report [r] holds the finding [orig] of a deduction check in its
    suppressed form: not applicable, savings 0, and the text rewritten
    around the formatted savings exactly when these were above 0. *)
Definition SuppressedIn (r : TaxHawkResult) (orig : Finding) : Prop :=
  exists f,
    findCheck (check_id orig) (checks r) = Some f /\
    status f = NOT_APPLICABLE /\ savings f = 0%Z /\
    (finding f
     = ("Not applicable under new regime (would save ₹"
        ++ intToLocaleString (savings orig) ++ " under old regime)")%string
     <-> (0 < savings orig)%Z) /\
    ((savings orig <= 0)%Z -> finding f = finding orig).



(** The date [d2] is later than [d1] plus [n] months, day by day. *)
Definition laterThanMonths (n : Z) (d1 d2 : Date) : Prop :=
  let m1 := (getFullYear d1 * 12 + getMonth d1 + n)%Z in
  let m2 := (getFullYear d2 * 12 + getMonth d2)%Z in
  (m1 < m2)%Z \/ (m1 = m2 /\ getDate d1 < getDate d2)%Z.

(** The order of the report: the savings of [a] are not below those of [b]. *)
Definition bySavingsDesc (a b : Finding) : Prop := (savings b <= savings a)%Z.

(** The demo profile of [data/demoProfile.js]. *)
Definition priyaProfile : SalaryProfile :=
  {| financial_year := "2024-25"; employee_name := "Priya Sharma";
     pan := "ABCPS1234D"; employer_name := "TechVista Solutions Pvt Ltd";
     gross_salary := 1500000; basic_salary := 600000; hra_received := 300000;
     special_allowance := 600000; lta := 0; bonus := 0; other_salary := 0;
     hra_exemption := 0; lta_exemption := 0; other_exemptions := 0;
     standard_deduction := 75000; professional_tax := 2400;
     deduction_80c := 72000; deduction_80ccc := 0; deduction_80ccd_1 := 0;
     deduction_80ccd_1b := 0; deduction_80ccd_2 := 0; deduction_80d := 0;
     deduction_80e := 0; deduction_80g := 0; deduction_80tta := 0;
     deduction_24b := 0; other_deductions := 0;
     taxable_income := 1422600; tax_payable := 0; sp_cess := 0;
     total_tax_paid := 129501;
     regime := "new"; city := "mumbai"; monthly_rent := 25000;
     epf_employee_contribution := 72000 |}.

(** A low income for which the new regime wins: gross 6,00,000. *)
Definition lowIncomeProfile : SalaryProfile :=
  {| financial_year := "2024-25"; employee_name := "Low Income"; pan := "";
     employer_name := "";
     gross_salary := 600000; basic_salary := 300000; hra_received := 0;
     special_allowance := 0; lta := 0; bonus := 0; other_salary := 0;
     hra_exemption := 0; lta_exemption := 0; other_exemptions := 0;
     standard_deduction := 75000; professional_tax := 2400;
     deduction_80c := 0; deduction_80ccc := 0; deduction_80ccd_1 := 0;
     deduction_80ccd_1b := 0; deduction_80ccd_2 := 0; deduction_80d := 0;
     deduction_80e := 0; deduction_80g := 0; deduction_80tta := 0;
     deduction_24b := 0; other_deductions := 0;
     taxable_income := 0; tax_payable := 0; sp_cess := 0; total_tax_paid := 0;
     regime := "new"; city := "pune"; monthly_rent := 0;
     epf_employee_contribution := 0 |}.


(** A gross salary of 4,00,000 (old-regime gross total income 3,50,000,
    in the slab taxed at 5%) with 1,49,995 of the 80C limit used. *)
Definition smallGapProfile : SalaryProfile :=
  {| financial_year := "2024-25"; employee_name := "Small Gap"; pan := "";
     employer_name := "";
     gross_salary := 400000; basic_salary := 200000; hra_received := 0;
     special_allowance := 0; lta := 0; bonus := 0; other_salary := 0;
     hra_exemption := 0; lta_exemption := 0; other_exemptions := 0;
     standard_deduction := 75000; professional_tax := 0;
     deduction_80c := 149995; deduction_80ccc := 0; deduction_80ccd_1 := 0;
     deduction_80ccd_1b := 0; deduction_80ccd_2 := 0; deduction_80d := 0;
     deduction_80e := 0; deduction_80g := 0; deduction_80tta := 0;
     deduction_24b := 0; other_deductions := 0;
     taxable_income := 0; tax_payable := 0; sp_cess := 0; total_tax_paid := 0;
     regime := "new"; city := "pune"; monthly_rent := 0;
     epf_employee_contribution := 0 |}.


Definition fyEnd : Date := mkDate 2025 2 31.

(** An equity fund bought thirteen months before [fyEnd]. *)
Definition thirteenMonthHolding : Holding :=
  {| security_name := "Fund A"; security_type := "equity_mf";
     purchase_date := mkDate 2024 1 10;
     purchase_price := 100; quantity := 10; current_price := 137.4 |}.

(** An equity share bought on 1 March 2024. *)
Definition marchHolding : Holding :=
  {| security_name := "Share B"; security_type := "equity_share";
     purchase_date := mkDate 2024 2 1;
     purchase_price := 100; quantity := 10; current_price := 120 |}.

Definition noOpts : RunOpts :=
  {| opt_parentsSenior := None; opt_selfSenior := None; opt_cgAsOf := None |}.

(* ------------------------------------------------------------------ *)
(** ** Well-formed slab tables                                          *)
(* ------------------------------------------------------------------ *)

(** The limits of the table do not decrease from [prevLimit] on and every
    rate lies between 0 and [maxRate], up to the first open slab. *)
Fixpoint orderedSlabs (prevLimit maxRate : Q) (slabs : list Slab) : bool :=
  match slabs with
  | [] => true
  | (Fin u, r) :: rest =>
      (prevLimit <=? u) && (0 <=? r) && (r <=? maxRate)
      && orderedSlabs u maxRate rest
  | (Infinity, r) :: _ => (0 <=? r) && (r <=? maxRate)
  end.

(** The table has a slab whose upper limit is [Infinity]. *)
Fixpoint openEnded (slabs : list Slab) : bool :=
  match slabs with
  | [] => false
  | (Fin _, _) :: rest => openEnded rest
  | (Infinity, _) :: _ => true
  end.

(** The five income-tax tables of [taxUtils.js]. *)
Definition incomeTaxTables : list (list Slab) :=
  [ NEW_REGIME_SLABS_FY2024_25; NEW_REGIME_SLABS_FY2025_26;
    OLD_REGIME_SLABS_BELOW_60; OLD_REGIME_SLABS_SENIOR;
    OLD_REGIME_SLABS_SUPER_SENIOR ].

(** Tax plus surcharge on the slab table [taxSlabs] with the surcharge
    table [surchargeSlabs], for an income the rebate does not reach. *)
Definition tableTotal (surchargeSlabs taxSlabs : list Slab) (x : Q) : Q :=
  computeTaxOnSlabs x taxSlabs
  + inject_Z (getSurcharge x (computeTaxOnSlabs x taxSlabs) surchargeSlabs taxSlabs).

(* ------------------------------------------------------------------ *)
(** ** models.js: createSalaryProfile                                   *)
(* ------------------------------------------------------------------ *)

(** [x || d] for a number that may be absent: 0 is falsy. *)
Definition orNum (x : option Q) (d : Q) : Q :=
  match x with
  | Some v => if v =? 0 then d else v
  | None => d
  end.

(** [x || d] for a string that may be absent: the empty string is falsy. *)
Definition orStr (x : option string) (d : string) : string :=
  match x with
  | Some v => if String.eqb v "" then d else v
  | None => d
  end.

(** The raw object given to [createSalaryProfile]; a property it lacks is
    [None]. *)
Record SalaryData : Type := mkSalaryData {
  d_financial_year : option string;
  d_employee_name : option string;
  d_pan : option string;
  d_employer_name : option string;
  d_gross_salary : option Q;
  d_basic_salary : option Q;
  d_hra_received : option Q;
  d_special_allowance : option Q;
  d_lta : option Q;
  d_bonus : option Q;
  d_other_salary : option Q;
  d_hra_exemption : option Q;
  d_lta_exemption : option Q;
  d_other_exemptions : option Q;
  d_standard_deduction : option Q;
  d_professional_tax : option Q;
  d_deduction_80c : option Q;
  d_deduction_80ccc : option Q;
  d_deduction_80ccd_1 : option Q;
  d_deduction_80ccd_1b : option Q;
  d_deduction_80ccd_2 : option Q;
  d_deduction_80d : option Q;
  d_deduction_80e : option Q;
  d_deduction_80g : option Q;
  d_deduction_80tta : option Q;
  d_deduction_24b : option Q;
  d_other_deductions : option Q;
  d_taxable_income : option Q;
  d_tax_payable : option Q;
  d_cess : option Q;
  d_total_tax_paid : option Q;
  d_regime : option string;
  d_city : option string;
  d_monthly_rent : option Q;
  d_epf_employee_contribution : option Q
}.

Definition createSalaryProfile (data : SalaryData) : SalaryProfile :=
  {| financial_year := orStr (d_financial_year data) "2024-25";
     employee_name := orStr (d_employee_name data) "";
     pan := orStr (d_pan data) "";
     employer_name := orStr (d_employer_name data) "";
     gross_salary := orNum (d_gross_salary data) 0;
     basic_salary := orNum (d_basic_salary data) 0;
     hra_received := orNum (d_hra_received data) 0;
     special_allowance := orNum (d_special_allowance data) 0;
     lta := orNum (d_lta data) 0;
     bonus := orNum (d_bonus data) 0;
     other_salary := orNum (d_other_salary data) 0;
     hra_exemption := orNum (d_hra_exemption data) 0;
     lta_exemption := orNum (d_lta_exemption data) 0;
     other_exemptions := orNum (d_other_exemptions data) 0;
     standard_deduction := orNum (d_standard_deduction data) 0;
     professional_tax := orNum (d_professional_tax data) 0;
     deduction_80c := orNum (d_deduction_80c data) 0;
     deduction_80ccc := orNum (d_deduction_80ccc data) 0;
     deduction_80ccd_1 := orNum (d_deduction_80ccd_1 data) 0;
     deduction_80ccd_1b := orNum (d_deduction_80ccd_1b data) 0;
     deduction_80ccd_2 := orNum (d_deduction_80ccd_2 data) 0;
     deduction_80d := orNum (d_deduction_80d data) 0;
     deduction_80e := orNum (d_deduction_80e data) 0;
     deduction_80g := orNum (d_deduction_80g data) 0;
     deduction_80tta := orNum (d_deduction_80tta data) 0;
     deduction_24b := orNum (d_deduction_24b data) 0;
     other_deductions := orNum (d_other_deductions data) 0;
     taxable_income := orNum (d_taxable_income data) 0;
     tax_payable := orNum (d_tax_payable data) 0;
     sp_cess := orNum (d_cess data) 0;
     total_tax_paid := orNum (d_total_tax_paid data) 0;
     regime := orStr (d_regime data) "new";
     city := orStr (d_city data) "other";
     monthly_rent := orNum (d_monthly_rent data) 0;
     epf_employee_contribution := orNum (d_epf_employee_contribution data) 0 |}.

(* ------------------------------------------------------------------ *)
(** ** Products in double precision                                     *)
(* ------------------------------------------------------------------ *)

(** The estimator multiplies by decimal constants whose products fall on
    exact halves of a rupee (4.81% of 3,15,000 is 15,151.5); there the
    rounding of the product to a double decides what [Math.round] gives,
    so these products are taken in double precision. *)

(** The integer nearest to [q], a tie going to the even one. *)
Definition roundHalfEven (q : Q) : Z :=
  let f := Qfloor q in
  let r := q - inject_Z f in
  if r <? (1 # 2) then f
  else if (1 # 2) <? r then (f + 1)%Z
  else if Z.even f then f else (f + 1)%Z.

(** The exponent [e] of the last bit of the double nearest to [x > 0]:
    [2^52 <= x / 2^e < 2^53] for a normal number, [-1074] below. *)
Definition doubleExponent (x : Q) : Z :=
  let e0 := (Z.log2 (Qnum x) - Z.log2 (Zpos (Qden x)) - 53)%Z in
  let e := if x / 2 ^ e0 <? 2 ^ 53 then e0 else (e0 + 1)%Z in
  Z.max e (-1074).

(** The double nearest to [x > 0]: the nearest multiple of [2^e]. *)
Definition toDoublePos (x : Q) : Q :=
  let e := doubleExponent x in
  inject_Z (roundHalfEven (x / 2 ^ e)) * 2 ^ e.

(** The double nearest to [x] (round to nearest, ties to even); values
    beyond the largest double are outside the model. *)
Definition toDouble (x : Q) : Q :=
  let r := Qred x in
  if r =? 0 then 0
  else if r <? 0 then - toDoublePos (- r)
  else toDoublePos r.

(** [a * b] on doubles. *)
Definition mulDouble (a b : Q) : Q := toDouble (toDouble a * toDouble b).

(* ------------------------------------------------------------------ *)
(** ** ctcEstimator.js                                                  *)
(* ------------------------------------------------------------------ *)

Definition BASIC_RATIO : Q := 0.40.
Definition HRA_RATIO : Q := 0.50.
Definition EPF_RATIO : Q := 0.12.
Definition GRATUITY_RATIO : Q := 0.0481.

Definition DEFAULT_FY : string := "2024-25".
Definition DEFAULT_PROFESSIONAL_TAX : Q := 2400.
Definition DEFAULT_STANDARD_DEDUCTION_NEW : Q := 75000.

(** The answers of the questionnaire; an answer left out is [None]. *)
Record CtcAnswers : Type := mkCtcAnswers {
  ctc : Q;
  monthlyRent : option Q;
  ans_city : option string;
  homeLoanInterest : option Q;
  healthPremiumSelf : option Q;
  healthPremiumParents : option Q;
  parentsOver60 : option bool;
  extra80C : option Q;
  npsContribution : option Q;
  name : option string
}.

Definition estimateFromCTC (answers : CtcAnswers) : SalaryProfile :=
  let ctc := ctc answers in
  let basic := Js.round (mulDouble ctc BASIC_RATIO) in
  let hra := Js.round (mulDouble (inject_Z basic) HRA_RATIO) in
  let employerEpf := Js.round (mulDouble (inject_Z basic) EPF_RATIO) in
  let gratuity := Js.round (mulDouble (inject_Z basic) GRATUITY_RATIO) in
  let grossSalary := ctc - inject_Z employerEpf - inject_Z gratuity in
  let specialAllowance := grossSalary - inject_Z basic - inject_Z hra in
  let epfEmployee := Js.round (mulDouble (inject_Z basic) EPF_RATIO) in
  let total80c := Js.min (inject_Z epfEmployee + orNum (extra80C answers) 0) LIMIT_80C in
  let total80d :=
    orNum (healthPremiumSelf answers) 0 + orNum (healthPremiumParents answers) 0 in
  let city := toLowerCase (orStr (ans_city answers) "other") in
  createSalaryProfile
    {| d_financial_year := Some DEFAULT_FY;
       d_employee_name := Some (orStr (name answers) "");
       d_pan := None;
       d_employer_name := None;
       d_gross_salary := Some grossSalary;
       d_basic_salary := Some (inject_Z basic);
       d_hra_received := Some (inject_Z hra);
       d_special_allowance := Some specialAllowance;
       d_lta := None;
       d_bonus := None;
       d_other_salary := None;
       d_hra_exemption := Some 0;
       d_lta_exemption := Some 0;
       d_other_exemptions := Some 0;
       d_standard_deduction := Some DEFAULT_STANDARD_DEDUCTION_NEW;
       d_professional_tax := Some DEFAULT_PROFESSIONAL_TAX;
       d_deduction_80c := Some total80c;
       d_deduction_80ccc := None;
       d_deduction_80ccd_1 := None;
       d_deduction_80ccd_1b := Some (orNum (npsContribution answers) 0);
       d_deduction_80ccd_2 := None;
       d_deduction_80d := Some total80d;
       d_deduction_80e := None;
       d_deduction_80g := None;
       d_deduction_80tta := None;
       d_deduction_24b := Some (orNum (homeLoanInterest answers) 0);
       d_other_deductions := None;
       d_taxable_income := None;
       d_tax_payable := None;
       d_cess := None;
       d_total_tax_paid := None;
       d_regime := Some "new";
       d_city := Some city;
       d_monthly_rent := Some (orNum (monthlyRent answers) 0);
       d_epf_employee_contribution := Some (inject_Z epfEmployee) |}.

(** The object returned by [getEstimateBreakdown]. *)
Record EstimateBreakdown : Type := mkEstimateBreakdown {
  eb_ctc : Q;
  eb_basic : Z;
  eb_hra : Z;
  eb_specialAllowance : Q;
  eb_employerEpf : Z;
  eb_gratuity : Z;
  eb_grossSalary : Q;
  eb_epfEmployee : Z;
  eb_monthlyInHand : Z
}.

Definition getEstimateBreakdown (ctc : Q) : EstimateBreakdown :=
  let basic := Js.round (mulDouble ctc BASIC_RATIO) in
  let hra := Js.round (mulDouble (inject_Z basic) HRA_RATIO) in
  let employerEpf := Js.round (mulDouble (inject_Z basic) EPF_RATIO) in
  let gratuity := Js.round (mulDouble (inject_Z basic) GRATUITY_RATIO) in
  let grossSalary := ctc - inject_Z employerEpf - inject_Z gratuity in
  let specialAllowance := grossSalary - inject_Z basic - inject_Z hra in
  let epfEmployee := Js.round (mulDouble (inject_Z basic) EPF_RATIO) in
  {| eb_ctc := ctc;
     eb_basic := basic;
     eb_hra := hra;
     eb_specialAllowance := specialAllowance;
     eb_employerEpf := employerEpf;
     eb_gratuity := gratuity;
     eb_grossSalary := grossSalary;
     eb_epfEmployee := epfEmployee;
     eb_monthlyInHand :=
       Js.round ((grossSalary - inject_Z epfEmployee - DEFAULT_PROFESSIONAL_TAX) / 12) |}.

(** The call of [App.jsx] after the questionnaire:
    [runAllChecks(estimateFromCTC(ans), null, { parentsSenior: ans.parentsOver60 || false })]. *)
Definition handleComplete (today : Date) (ans : CtcAnswers) : TaxHawkResult :=
  runAllChecks today (estimateFromCTC ans) None
    {| opt_parentsSenior := Some (orFalse (parentsOver60 ans));
       opt_selfSenior := None; opt_cgAsOf := None |}.

(* ------------------------------------------------------------------ *)
(** ** ltcgEstimator.js                                                 *)
(* ------------------------------------------------------------------ *)

(** [RANGE_MAP]; [skip] maps to [null].  A key naming a property that the
    object inherits from [Object.prototype] is outside this model. *)
Definition RANGE_MAP : list (string * option Q) :=
  [ ("under_50k", Some 35000);
    ("50k_to_125k", Some 87500);
    ("over_125k", Some 175000);
    ("skip", None) ].

Record LtcgAnswers : Type := mkLtcgAnswers {
  hasInvestments : option bool;
  ltcgRange : option string
}.

(** [new Date('2023-01-01')] is midnight UTC of 1 January 2023; through
    the local-time getters it is that day in a time zone at or east of
    Greenwich and 31 December 2022 west of it. *)
Definition newDate_2023_01_01 (westOfGreenwich : bool) : Date :=
  if westOfGreenwich then mkDate 2022 11 31 else mkDate 2023 0 1.

(** [estimatedGain == null] holds for an absent key and for [skip]. *)
Definition estimateLTCG (westOfGreenwich : bool) (answers : LtcgAnswers)
    : option Holdings :=
  if negb (orFalse (hasInvestments answers)) then None
  else
    let estimatedGain :=
      match prop (match ltcgRange answers with
                  | Some key => key
                  | None => "undefined"
                  end) RANGE_MAP with
      | Some (Some gain) => Some gain
      | _ => None
      end in
    match estimatedGain with
    | None => None
    | Some gain =>
        Some {| holdings :=
                  [ {| security_name := "Your stock/MF portfolio (estimated)";
                       security_type := "equity_mf";
                       purchase_date := newDate_2023_01_01 westOfGreenwich;
                       purchase_price := 0;
                       quantity := 1;
                       current_price := gain |} ];
                realized_stcg_this_fy := orNum (Some 0) 0;
                realized_ltcg_this_fy := orNum (Some 0) 0 |}
    end.

(* ------------------------------------------------------------------ *)
(** ** utils/calendarGenerator.js                                       *)
(* ------------------------------------------------------------------ *)

(** [new Date(year, monthIndex, day)] for a day of that month, read
    through the local-time getters: a year from 0 to 99 stands for
    1900 + year. *)
Definition newDate (year monthIndex day : Z) : Date :=
  mkDate (if andb (0 <=? year)%Z (year <=? 99)%Z then (1900 + year)%Z else year)
         monthIndex day.

(** The string of the given bytes. *)
Definition bytes (l : list nat) : string :=
  fold_right (fun n s => String (ascii_of_nat n) s) EmptyString l.

(** The characters that [\s] matches, in UTF-8: tab, line feed, vertical
    tab, form feed, carriage return, space, U+00A0, U+1680, U+2000 to
    U+200A, U+2028, U+2029, U+202F, U+205F, U+3000 and U+FEFF. *)
Definition WHITE_SPACE : list string :=
  map bytes
    [ [9]; [10]; [11]; [12]; [13]; [32]; [194; 160]; [225; 154; 128];
      [226; 128; 128]; [226; 128; 129]; [226; 128; 130]; [226; 128; 131];
      [226; 128; 132]; [226; 128; 133]; [226; 128; 134]; [226; 128; 135];
      [226; 128; 136]; [226; 128; 137]; [226; 128; 138];
      [226; 128; 168]; [226; 128; 169]; [226; 128; 175]; [226; 129; 159];
      [227; 128; 128]; [239; 187; 191] ]%nat.

Fixpoint startsWith (p s : string) : bool :=
  match p with
  | EmptyString => true
  | String c p' =>
      match s with
      | String d s' => if Ascii.eqb c d then startsWith p' s' else false
      | EmptyString => false
      end
  end.

(** A letter of the pattern matches both of its cases: with the flag [i]
    and without the flag [u] no other character folds to an ASCII letter. *)
Fixpoint matchIgnoreCase (word s : string) : option string :=
  match word with
  | EmptyString => Some s
  | String c word' =>
      match s with
      | String d s' =>
          if Ascii.eqb (lowerAscii d) c then matchIgnoreCase word' s' else None
      | EmptyString => None
      end
  end.

(** [\s*31] at the head of [s]; [skip] counts the bytes still to pass of
    a white-space character already recognized.  The digit 3 is no white
    space, so the greedy star never has to give a character back. *)
Fixpoint spacesThen31 (s : string) (skip : nat) : bool :=
  match s with
  | EmptyString => false
  | String _ rest =>
      match skip with
      | S k => spacesThen31 rest k
      | O =>
          if startsWith "31" s then true
          else
            match find (fun w => startsWith w s) WHITE_SPACE with
            | Some w => spacesThen31 rest (String.length w - 1)
            | None => false
            end
      end
  end.

(** [/word\s*31/i.test(s)] for a lower-case ASCII [word]. *)
Fixpoint testWord31 (word s : string) : bool :=
  orb (match matchIgnoreCase word s with
       | Some rest => spacesThen31 rest 0
       | None => false
       end)
      (match s with
       | String _ rest => testWord31 word rest
       | EmptyString => false
       end).

(** [parseDeadline(deadline, now)]; [now] is the reference date, given or
    read from the clock. *)
Definition parseDeadline (deadline : string) (now : Date) : option Date :=
  if orb (String.eqb deadline "") (String.eqb deadline "N/A") then None
  else
    let year := getFullYear now in
    let month := getMonth now in
    if testWord31 "march" deadline then
      Some (if (month <? 3)%Z then newDate year 2 31 else newDate (year + 1) 2 31)
    else if testWord31 "july" deadline then
      Some (if (month <? 7)%Z then newDate year 6 31 else newDate (year + 1) 6 31)
    else None.

(* ------------------------------------------------------------------ *)
(** ** components/FindingCard.jsx                                       *)
(* ------------------------------------------------------------------ *)

(** The [target] date that [getUrgencyColor] derives from a deadline
    before it counts the days left; [now] is the clock. *)
Definition urgencyTarget (deadline : string) (now : Date) : option Date :=
  if orb (String.eqb deadline "") (String.eqb deadline "N/A") then None
  else
    if testWord31 "march" deadline then
      Some (if (getMonth now <? 3)%Z then newDate (getFullYear now) 2 31
            else newDate (getFullYear now + 1) 2 31)
    else if testWord31 "july" deadline then
      Some (if (getMonth now <? 6)%Z then newDate (getFullYear now) 6 31
            else newDate (getFullYear now + 1) 6 31)
    else None.

(** [DEDUCTION_CHECK_IDS], the checks the card labels as part of the
    regime switch. *)
Definition DEDUCTION_CHECK_IDS : list string :=
  [ "80c_gap"; "80d_check"; "hra_optimizer"; "nps_check"; "home_loan" ].

(** [isComponent] of [FindingCard]. *)
Definition isComponent (check : Finding) (recommendedRegime : string) : bool :=
  andb (includes DEDUCTION_CHECK_IDS (check_id check))
       (String.eqb recommendedRegime "old").

(** The month of the reminder that the calendar export derives from the
    deadline of a finding, if any. *)
Definition reminderMonth (f : Finding) (now : Date) : option Z :=
  option_map getMonth (parseDeadline (deadline f) now).

(* ------------------------------------------------------------------ *)
(** ** components/AdjustPanel.jsx and App.jsx: adjusting the estimate    *)
(* ------------------------------------------------------------------ *)

(** The object [{ basic, hra, epf, gross, special }] that the panel hands
    to [onApply]. *)
Record Corrected : Type := mkCorrected {
  c_basic : Q;
  c_hra : Q;
  c_epf : Q;
  c_gross : Q;
  c_special : Q
}.

(** The values of [AdjustPanel] for the fields [basic], [hra] and [epf]
    as they stand and the CTC of the answers. *)
Definition adjustPanelValues (ctc basic hra epf : Q) : Corrected :=
  let employerEpf := epf in
  let gratuity := Js.round (mulDouble basic 0.0481) in
  let gross := ctc - employerEpf - inject_Z gratuity in
  let special := Js.max (gross - basic - hra) 0 in
  {| c_basic := basic; c_hra := hra; c_epf := epf; c_gross := gross;
     c_special := special |}.

(** [answers?.field || 0] and [answers?.city || 'other']. *)
Definition answerNum (answers : option CtcAnswers) (field : CtcAnswers -> option Q) : Q :=
  match answers with
  | Some a => orNum (field a) 0
  | None => 0
  end.

Definition answerCity (answers : option CtcAnswers) : string :=
  match answers with
  | Some a => orStr (ans_city a) "other"
  | None => "other"
  end.

(** The profile that [handleAdjust] of [App.jsx] builds from the
    corrected values and the answers kept from the questionnaire. *)
Definition handleAdjustProfile (answers : option CtcAnswers) (corrected : Corrected)
    : SalaryProfile :=
  createSalaryProfile
    {| d_financial_year := Some "2024-25";
       d_employee_name := Some "";
       d_pan := None;
       d_employer_name := None;
       d_gross_salary := Some (c_gross corrected);
       d_basic_salary := Some (c_basic corrected);
       d_hra_received := Some (c_hra corrected);
       d_special_allowance := Some (c_special corrected);
       d_lta := None;
       d_bonus := None;
       d_other_salary := None;
       d_hra_exemption := None;
       d_lta_exemption := None;
       d_other_exemptions := None;
       d_standard_deduction := Some 75000;
       d_professional_tax := Some 2400;
       d_deduction_80c :=
         Some (Js.min (c_epf corrected + answerNum answers extra80C) 150000);
       d_deduction_80ccc := None;
       d_deduction_80ccd_1 := None;
       d_deduction_80ccd_1b := Some (answerNum answers npsContribution);
       d_deduction_80ccd_2 := None;
       d_deduction_80d :=
         Some (answerNum answers healthPremiumSelf
               + answerNum answers healthPremiumParents);
       d_deduction_80e := None;
       d_deduction_80g := None;
       d_deduction_80tta := None;
       d_deduction_24b := Some (answerNum answers homeLoanInterest);
       d_other_deductions := None;
       d_taxable_income := None;
       d_tax_payable := None;
       d_cess := None;
       d_total_tax_paid := None;
       d_regime := Some "new";
       d_city := Some (toLowerCase (answerCity answers));
       d_monthly_rent := Some (answerNum answers monthlyRent);
       d_epf_employee_contribution := Some (c_epf corrected) |}.

(** Two profiles with the same strings, but for the name, and equal
    numbers. *)
Definition sameProfileButName (p q : SalaryProfile) : Prop :=
  financial_year p = financial_year q /\ pan p = pan q /\
  employer_name p = employer_name q /\ regime p = regime q /\ city p = city q /\
  Forall (fun field : SalaryProfile -> Q => field p == field q)
    [ gross_salary; basic_salary; hra_received; special_allowance; lta; bonus;
      other_salary; hra_exemption; lta_exemption; other_exemptions;
      standard_deduction; professional_tax; deduction_80c; deduction_80ccc;
      deduction_80ccd_1; deduction_80ccd_1b; deduction_80ccd_2; deduction_80d;
      deduction_80e; deduction_80g; deduction_80tta; deduction_24b;
      other_deductions; taxable_income; tax_payable; sp_cess; total_tax_paid;
      monthly_rent; epf_employee_contribution ].

(* ================================================================== *)
(** * Properties                                                        *)
(* ================================================================== *)

(** ** Facts about the number primitives *)

Section NumberFacts.

Lemma le_true_iff (a b : Q) : (a <=? b) = true <-> a <= b.
Proof. apply Qle_bool_iff. Qed.

Lemma le_false_iff (a b : Q) : (a <=? b) = false <-> b < a.
Proof.
  unfold Js.le. split; intro H.
  - apply Qnot_le_lt. intro L. apply Qle_bool_iff in L. congruence.
  - destruct (Qle_bool a b) eqn:E; [|reflexivity].
    apply Qle_bool_iff in E. lra.
Qed.

Lemma lt_true_iff (a b : Q) : (a <? b) = true <-> a < b.
Proof.
  unfold Js.lt. rewrite Bool.negb_true_iff. apply le_false_iff.
Qed.

Lemma lt_false_iff (a b : Q) : (a <? b) = false <-> b <= a.
Proof.
  unfold Js.lt. rewrite Bool.negb_false_iff. apply le_true_iff.
Qed.

Lemma eq_true_iff (a b : Q) : (a =? b) = true <-> a == b.
Proof. apply Qeq_bool_iff. Qed.

Lemma eq_false_iff (a b : Q) : (a =? b) = false <-> ~ a == b.
Proof.
  unfold Js.eq. split; intro H.
  - now apply Qeq_bool_neq.
  - destruct (Qeq_bool a b) eqn:E; [|reflexivity].
    apply Qeq_bool_iff in E. contradiction.
Qed.

Lemma round_upper (x : Q) : inject_Z (Js.round x) <= x + (1 # 2).
Proof. apply Qfloor_le. Qed.

Lemma round_lower (x : Q) : x - (1 # 2) < inject_Z (Js.round x).
Proof.
  unfold Js.round. pose proof (Qlt_floor (x + (1 # 2))) as H.
  rewrite inject_Z_plus in H. change (inject_Z 1) with 1 in H. lra.
Qed.

Lemma round_mono (x y : Q) : x <= y -> (Js.round x <= Js.round y)%Z.
Proof. intro H. apply Qfloor_resp_le. lra. Qed.

Lemma round_nonneg (x : Q) : 0 <= x -> (0 <= Js.round x)%Z.
Proof.
  intro H. change 0%Z with (Js.round 0). now apply round_mono.
Qed.

Lemma round_comp (x y : Q) : x == y -> Js.round x = Js.round y.
Proof. intro H. apply Qfloor_comp. lra. Qed.

Lemma round_inject (z : Z) : Js.round (inject_Z z) = z.
Proof.
  unfold Js.round.
  pose proof (Qfloor_le (inject_Z z + (1 # 2))) as U.
  pose proof (Qlt_floor (inject_Z z + (1 # 2))) as L.
  set (f := Qfloor (inject_Z z + (1 # 2))) in *.
  rewrite inject_Z_plus in L. change (inject_Z 1) with 1 in L.
  assert (A : inject_Z f < inject_Z (z + 1)).
  { rewrite inject_Z_plus. change (inject_Z 1) with 1. lra. }
  assert (B : inject_Z (z + -1) < inject_Z f).
  { rewrite inject_Z_plus. change (inject_Z (-1)) with (-1 # 1). lra. }
  rewrite <- Zlt_Qlt in A, B. lia.
Qed.

Lemma min_le_l (a b : Q) : Js.min a b <= a.
Proof.
  unfold Js.min. destruct (a <=? b) eqn:E.
  - lra.
  - apply le_false_iff in E. lra.
Qed.

Lemma min_le_r (a b : Q) : Js.min a b <= b.
Proof.
  unfold Js.min. destruct (a <=? b) eqn:E.
  - now apply le_true_iff in E.
  - lra.
Qed.

Lemma min_glb (a b c : Q) : c <= a -> c <= b -> c <= Js.min a b.
Proof. unfold Js.min. destruct (a <=? b); auto. Qed.

Lemma max_ge_l (a b : Q) : a <= Js.max a b.
Proof.
  unfold Js.max. destruct (a <=? b) eqn:E.
  - now apply le_true_iff in E.
  - lra.
Qed.

Lemma max_ge_r (a b : Q) : b <= Js.max a b.
Proof.
  unfold Js.max. destruct (a <=? b) eqn:E.
  - lra.
  - apply le_false_iff in E. lra.
Qed.

Lemma max_lub (a b c : Q) : a <= c -> b <= c -> Js.max a b <= c.
Proof. unfold Js.max. destruct (a <=? b); auto. Qed.

End NumberFacts.

(* ------------------------------------------------------------------ *)
(** ** Tax arithmetic                                                   *)
(* ------------------------------------------------------------------ *)

(** The regression values of the test suite of [taxUtils.js]. *)
Example old_regime_at_thresholds :
  map (fun x => let r := calculateOldRegimeTax x "2024-25" "below_60" in
                (base_tax r, surcharge r, cess r, total_tax r))
      [5000000; 7500000; 10000000; 10100000]
  = [ (1312500, 0, 52500, 1365000);
      (2062500, 206250, 90750, 2359500);
      (2812500, 281250, 123750, 3217500);
      (2842500, 351250, 127750, 3321500) ]%Z.
Proof. vm_compute. reflexivity. Qed.

Example new_regime_marginal_relief :
  let r := calculateNewRegimeTax 5052780 "2024-25" in
  (base_tax r, surcharge r, cess r, total_tax r)
  = (1205834, 36946, 49711, 1292491)%Z.
Proof. vm_compute. reflexivity. Qed.

(** C7. Scenario S5: at a taxable income of 51,00,000 under the old regime
    (FY 2024-25, below 60) the base tax is 13,42,500, the surcharge is the
    marginal-relief value 70,000 and not the raw 10% (1,34,250), the cess
    is 56,500 and the total tax is 14,69,000. *)
Theorem s5_surcharge_marginal_relief :
  let r := calculateOldRegimeTax 5100000 "2024-25" "below_60" in
  base_tax r = 1342500%Z /\
  surcharge r = 70000%Z /\
  Js.round (computeTaxOnSlabs 5100000 OLD_REGIME_SLABS_BELOW_60 * 0.10) = 134250%Z /\
  cess r = 56500%Z /\
  total_tax r = 1469000%Z.
Proof. vm_compute. repeat split. Qed.

(** X2.  The cess is 4% of the tax, within the rounding to a whole rupee. *)
Theorem cess_rate (t : Q) :
  applyCess 0 = 0%Z /\
  inject_Z (applyCess t) <= CESS_RATE * t + (1 # 2) /\
  CESS_RATE * t - (1 # 2) < inject_Z (applyCess t).
Proof.
  unfold applyCess. split; [reflexivity|].
  pose proof (round_upper (t * CESS_RATE)).
  pose proof (round_lower (t * CESS_RATE)).
  split; lra.
Qed.

(* ------------------------------------------------------------------ *)
(** ** HRA exemption                                                    *)
(* ------------------------------------------------------------------ *)

(** C6, as amended.  For non-negative basic, HRA received and annual
    rent, the exemption is never negative and never exceeds A (the HRA
    received) or C (50% or 40% of basic); it never exceeds
    B = rent - 10% of basic when B is not negative, and it is 0 when B is
    negative. *)
Theorem hra_exemption_bounds (basic hraReceived rent : Q) (isMetro : bool) :
  0 <= basic -> 0 <= hraReceived -> 0 <= rent ->
  let e := calculateHraExemption basic hraReceived rent isMetro in
  let B := rent - HRA_RENT_MINUS_BASIC_PERCENT * basic in
  let C := (if isMetro then HRA_METRO_PERCENT else HRA_NON_METRO_PERCENT) * basic in
  0 <= e /\ e <= hraReceived /\ e <= C /\
  (0 <= B -> e <= B) /\ (B < 0 -> e == 0).
Proof.
  intros Hb Hh Hr e B C. unfold e, calculateHraExemption. fold B. fold C.
  assert (HC : 0 <= C).
  { unfold C, HRA_METRO_PERCENT, HRA_NON_METRO_PERCENT. destruct isMetro; lra. }
  pose proof (max_ge_r (Js.min (Js.min hraReceived B) C) 0) as H0.
  pose proof (min_le_l (Js.min hraReceived B) C) as H1.
  pose proof (min_le_r (Js.min hraReceived B) C) as H2.
  pose proof (min_le_l hraReceived B) as H3.
  pose proof (min_le_r hraReceived B) as H4.
  repeat split.
  - exact H0.
  - apply max_lub; lra.
  - apply max_lub; lra.
  - intro HB. apply max_lub; lra.
  - intro HB. unfold Js.max.
    destruct (Js.min (Js.min hraReceived B) C <=? 0) eqn:E.
    + reflexivity.
    + apply le_false_iff in E. lra.
Qed.

(** The bounds at basic 6,00,000, HRA 3,00,000, rent 3,00,000, metro. *)
Lemma hra_exemption_bounds_witness :
  0 <= 600000 /\ 0 <= 300000 /\ 0 <= 300000 /\
  let e := calculateHraExemption 600000 300000 300000 true in
  let B := 300000 - HRA_RENT_MINUS_BASIC_PERCENT * 600000 in
  let C := HRA_METRO_PERCENT * 600000 in
  0 <= e /\ e <= 300000 /\ e <= C /\
  (0 <= B -> e <= B) /\ (B < 0 -> e == 0).
Proof.
  assert (P : 0 <= 600000) by (vm_compute; discriminate).
  assert (R : 0 <= 300000) by (vm_compute; discriminate).
  split; [exact P|]. split; [exact R|]. split; [exact R|].
  exact (hra_exemption_bounds 600000 300000 300000 true P R R).
Defined.

(** C6 as stated fails: with no rent paid, B is negative and the
    exemption, 0, exceeds it. *)
Lemma hra_exemption_exceeds_option_b :
  0 <= 600000 /\ 0 <= 300000 /\ 0 <= 0 /\
  calculateHraExemption 600000 300000 0 true == 0 /\
  0 - HRA_RENT_MINUS_BASIC_PERCENT * 600000
    < calculateHraExemption 600000 300000 0 true.
Proof. vm_compute. repeat split; discriminate. Qed.

(* ------------------------------------------------------------------ *)
(** ** Redemption planner                                               *)
(* ------------------------------------------------------------------ *)

Lemma min_plus_max_sub (l e : Q) : Js.max (l - e) 0 + Js.min l e == l.
Proof.
  unfold Js.max, Js.min.
  destruct (l - e <=? 0) eqn:A; destruct (l <=? e) eqn:B;
    try apply le_true_iff in A; try apply le_false_iff in A;
    try apply le_true_iff in B; try apply le_false_iff in B; lra.
Qed.

Lemma remaining_after_fy1 (l e : Q) : l - Js.min l e == Js.max (l - e) 0.
Proof. pose proof (min_plus_max_sub l e). lra. Qed.

(** Scenario S4: 3,00,000 planned with the full exemption in both years. *)
Example s4_redemption :
  let r := computeRedemptionTax (Some 300000) (mkRedemptionOpts None None) in
  (tax (one_fy r), tax_fy1 (split_fy r), tax_fy2 (split_fy r),
   split_total_tax (split_fy r), split_savings r, split_beneficial r)
  = (22750, 0, 6500, 6500, 16250, true)%Z.
Proof. vm_compute. reflexivity. Qed.

(** C8.  Redemption planner exemption law.  For a planned gain above 0 and
    exemption options in which next year's exemption is not negative: the
    taxable part and the exemption used of the one-year scenario add up to
    the planned gain; the split is flagged beneficial exactly when its
    total tax is below the one-year tax; and the split savings are
    [max (one-year tax - split total, 0)], the difference itself never
    being negative. *)
Theorem redemption_exemption_law (planned : Q) (opts : RedemptionOpts) :
  0 < planned ->
  0 <= exemption_next_fy (computeRedemptionTax (Some planned) opts) ->
  let r := computeRedemptionTax (Some planned) opts in
  planned_ltcg r = planned /\
  taxable (one_fy r) + exemption_used (one_fy r) == planned /\
  (split_beneficial r = true <->
   (split_total_tax (split_fy r) < tax (one_fy r))%Z) /\
  split_savings r = Z.max (tax (one_fy r) - split_total_tax (split_fy r)) 0 /\
  split_savings r = (tax (one_fy r) - split_total_tax (split_fy r))%Z.
Proof.
  intros Hp Hn r.
  assert (L : Js.max (orElse (Some planned) 0) 0 = planned).
  { unfold Js.max. cbn [orElse].
    destruct (planned <=? 0) eqn:E; [|reflexivity].
    apply le_true_iff in E. lra. }
  unfold r, computeRedemptionTax in *. cbv zeta in *. rewrite L in *.
  cbn [planned_ltcg one_fy split_fy taxable exemption_used split_beneficial
       split_savings tax split_total_tax exemption_next_fy] in *.
  split; [reflexivity|].
  split; [apply min_plus_max_sub|].
  split; [rewrite Z.ltb_lt; lia|].
  split; [|reflexivity].
  rewrite Z.max_l; [reflexivity|].
  rewrite Z.add_0_l.
  set (e1 := orElse (exemptionRemaining opts) LTCG_EXEMPTION) in *.
  set (e2 := orElse (exemptionNextFy opts) LTCG_EXEMPTION) in *.
  assert (M : Js.max (planned - Js.min planned e1 - e2) 0
              <= Js.max (planned - e1) 0).
  { pose proof (remaining_after_fy1 planned e1) as R.
    pose proof (max_ge_r (planned - e1) 0).
    apply max_lub; lra. }
  assert (T : (Js.round (Js.max (planned - Js.min planned e1 - e2) 0
                         * (LTCG_RATE * (1 + CESS_RATE)))
               <= Js.round (Js.max (planned - e1) 0
                            * (LTCG_RATE * (1 + CESS_RATE))))%Z).
  { apply round_mono. unfold LTCG_RATE, CESS_RATE. nra. }
  lia.
Qed.

(** The law at 3,00,000 planned with the default exemptions: 22,750 in
    one year against 6,500 when split, 16,250 saved. *)
Lemma redemption_exemption_law_witness :
  0 < 300000 /\
  let r := computeRedemptionTax (Some 300000) (mkRedemptionOpts None None) in
  0 <= exemption_next_fy r /\
  taxable (one_fy r) + exemption_used (one_fy r) == 300000 /\
  split_beneficial r = true /\
  split_savings r = Z.max (22750 - 6500) 0.
Proof.
  assert (P : 0 < 300000) by reflexivity.
  assert (N : 0 <= exemption_next_fy
                     (computeRedemptionTax (Some 300000) (mkRedemptionOpts None None)))
    by (vm_compute; discriminate).
  destruct (redemption_exemption_law 300000 (mkRedemptionOpts None None) P N)
    as (_ & S & B & V & _).
  split; [exact P|]. split; [exact N|]. split; [exact S|].
  split; [apply B; reflexivity | exact V].
Defined.

(* ------------------------------------------------------------------ *)
(** ** Financial years outside the tables                               *)
(* ------------------------------------------------------------------ *)

Lemma rebateInfo_unknown_fy (regime fy : string) :
  fy <> "2024-25" -> fy <> "2025-26" -> rebateInfo regime fy = None.
Proof.
  intros H1 H2. unfold rebateInfo, REBATE_87A. cbn [prop].
  assert (E1 : String.eqb "2024-25" fy = false)
    by (apply String.eqb_neq; congruence).
  assert (E2 : String.eqb "2025-26" fy = false)
    by (apply String.eqb_neq; congruence).
  rewrite E1, E2. reflexivity.
Qed.

Lemma apply87aRebate_unknown_fy (tax income : Q) (regime fy : string) :
  fy <> "2024-25" -> fy <> "2025-26" ->
  apply87aRebate tax income regime fy = tax.
Proof.
  intros H1 H2. unfold apply87aRebate.
  now rewrite rebateInfo_unknown_fy.
Qed.

Lemma apply87aRebate_above (tax income : Q) (regime fy : string) (info : RebateInfo) :
  rebateInfo regime fy = Some info -> income_limit info < income ->
  apply87aRebate tax income regime fy = tax.
Proof.
  intros E H. unfold apply87aRebate. rewrite E.
  apply le_false_iff in H. now rewrite H.
Qed.

Lemma newRegimeSlabs_unknown_fy (fy : string) :
  fy <> "2025-26" -> newRegimeSlabs fy = NEW_REGIME_SLABS_FY2024_25.
Proof.
  intro H. unfold newRegimeSlabs.
  assert (E : String.eqb fy "2025-26" = false) by now apply String.eqb_neq.
  now rewrite E.
Qed.

Lemma round_self_sub (x : Q) : Js.round (x - x) = 0%Z.
Proof. rewrite (round_comp _ 0); [reflexivity | lra]. Qed.

(** C4, as amended.  For a financial year outside the tables the new
    regime uses the FY 2024-25 slabs and the old regime its usual slabs, so
    the base tax is that of 2024-25, but no 87A rebate is applied: the
    rebate component is 0 and the tax after rebate is the slab tax.  The
    breakdown equals the one for 2024-25 whenever the taxable income is
    above the 2024-25 rebate ceiling (7,00,000 new, 5,00,000 old). *)
Theorem unknown_fy_uses_2024_25_slabs_without_rebate
    (income : Q) (fy ageCategory : string) :
  fy <> "2024-25" -> fy <> "2025-26" ->
  let n := calculateNewRegimeTax income fy in
  let n0 := calculateNewRegimeTax income "2024-25" in
  let o := calculateOldRegimeTax income fy ageCategory in
  let o0 := calculateOldRegimeTax income "2024-25" ageCategory in
  (base_tax n = base_tax n0 /\ rebate_87a n = 0%Z /\
   tax_after_rebate n = computeTaxOnSlabs income NEW_REGIME_SLABS_FY2024_25 /\
   (700000 < income -> n = n0)) /\
  (base_tax o = base_tax o0 /\ rebate_87a o = 0%Z /\
   tax_after_rebate o = computeTaxOnSlabs income (oldRegimeSlabs ageCategory) /\
   (500000 < income -> o = o0)).
Proof.
  intros H1 H2 n n0 o o0.
  unfold n, n0, o, o0, calculateNewRegimeTax, calculateOldRegimeTax. cbv zeta.
  rewrite (newRegimeSlabs_unknown_fy fy H2).
  rewrite !(apply87aRebate_unknown_fy _ _ _ fy H1 H2).
  change (newRegimeSlabs "2024-25") with NEW_REGIME_SLABS_FY2024_25.
  cbn [base_tax rebate_87a tax_after_rebate].
  rewrite !round_self_sub.
  repeat split.
  - intro Hi.
    rewrite (apply87aRebate_above _ income "new" "2024-25"
               (mkRebateInfo 700000 25000) eq_refl Hi).
    rewrite round_self_sub. reflexivity.
  - intro Hi.
    rewrite (apply87aRebate_above _ income "old" "2024-25"
               (mkRebateInfo 500000 12500) eq_refl Hi).
    rewrite round_self_sub. reflexivity.
Qed.

(** The fallback at a taxable income of 8,00,000 for the year 2023-24. *)
Lemma unknown_fy_uses_2024_25_slabs_without_rebate_witness :
  "2023-24" <> "2024-25" /\ "2023-24" <> "2025-26" /\
  let n := calculateNewRegimeTax 800000 "2023-24" in
  let n0 := calculateNewRegimeTax 800000 "2024-25" in
  let o := calculateOldRegimeTax 800000 "2023-24" "below_60" in
  let o0 := calculateOldRegimeTax 800000 "2024-25" "below_60" in
  (base_tax n = base_tax n0 /\ rebate_87a n = 0%Z /\
   tax_after_rebate n = computeTaxOnSlabs 800000 NEW_REGIME_SLABS_FY2024_25 /\
   (700000 < 800000 -> n = n0)) /\
  (base_tax o = base_tax o0 /\ rebate_87a o = 0%Z /\
   tax_after_rebate o = computeTaxOnSlabs 800000 (oldRegimeSlabs "below_60") /\
   (500000 < 800000 -> o = o0)).
Proof.
  assert (A : "2023-24" <> "2024-25") by discriminate.
  assert (B : "2023-24" <> "2025-26") by discriminate.
  split; [exact A|]. split; [exact B|].
  exact (unknown_fy_uses_2024_25_slabs_without_rebate 800000 "2023-24" "below_60" A B).
Defined.

(** C4 as stated fails below the rebate ceiling: for 2023-24 no rebate is
    applied, for 2024-25 it wipes the tax out. *)
Lemma unknown_fy_gets_no_rebate :
  "2023-24" <> "2024-25" /\ "2023-24" <> "2025-26" /\
  rebate_87a (calculateNewRegimeTax 600000 "2023-24") = 0%Z /\
  rebate_87a (calculateNewRegimeTax 600000 "2024-25") = 15000%Z /\
  total_tax (calculateNewRegimeTax 600000 "2023-24") = 15600%Z /\
  total_tax (calculateNewRegimeTax 600000 "2024-25") = 0%Z /\
  total_tax (calculateOldRegimeTax 400000 "2023-24" "below_60") = 7800%Z /\
  total_tax (calculateOldRegimeTax 400000 "2024-25" "below_60") = 0%Z.
Proof. vm_compute. repeat split; discriminate. Qed.

(* ------------------------------------------------------------------ *)
(** ** Section 87A rebate                                               *)
(* ------------------------------------------------------------------ *)

(** The entries of the 87A table. *)
Lemma rebateInfo_cases (regime fy : string) (info : RebateInfo) :
  rebateInfo regime fy = Some info ->
  (fy = "2024-25" /\ regime = "old" /\ info = mkRebateInfo 500000 12500) \/
  (fy = "2024-25" /\ regime = "new" /\ info = mkRebateInfo 700000 25000) \/
  (fy = "2025-26" /\ regime = "old" /\ info = mkRebateInfo 500000 12500) \/
  (fy = "2025-26" /\ regime = "new" /\ info = mkRebateInfo 1200000 60000).
Proof.
  unfold rebateInfo, REBATE_87A. cbn [prop].
  destruct (String.eqb "2024-25" fy) eqn:F1.
  - apply String.eqb_eq in F1. subst fy. cbn [prop].
    destruct (String.eqb "old" regime) eqn:R1.
    + apply String.eqb_eq in R1. subst regime. intro H. injection H as <-. auto.
    + destruct (String.eqb "new" regime) eqn:R2; [|discriminate].
      apply String.eqb_eq in R2. subst regime. intro H. injection H as <-. auto.
  - destruct (String.eqb "2025-26" fy) eqn:F2; [|discriminate].
    apply String.eqb_eq in F2. subst fy. cbn [prop].
    destruct (String.eqb "old" regime) eqn:R1.
    + apply String.eqb_eq in R1. subst regime. intro H. injection H as <-. auto 6.
    + destruct (String.eqb "new" regime) eqn:R2; [|discriminate].
      apply String.eqb_eq in R2. subst regime. intro H. injection H as <-. auto 6.
Qed.

Lemma oldRegimeSlabs_cases (ageCategory : string) :
  oldRegimeSlabs ageCategory = OLD_REGIME_SLABS_SUPER_SENIOR \/
  oldRegimeSlabs ageCategory = OLD_REGIME_SLABS_SENIOR \/
  oldRegimeSlabs ageCategory = OLD_REGIME_SLABS_BELOW_60.
Proof.
  unfold oldRegimeSlabs.
  destruct (String.eqb ageCategory "super_senior"); auto.
  destruct (String.eqb ageCategory "senior"); auto.
Qed.

(** [getMarginalRate] selects the slabs the two tax pipelines use. *)
Lemma marginalSlabs_old (fy ageCategory : string) :
  marginalSlabs "old" fy ageCategory = oldRegimeSlabs ageCategory.
Proof. reflexivity. Qed.

Lemma marginalSlabs_new (fy ageCategory : string) :
  marginalSlabs "new" fy ageCategory = newRegimeSlabs fy.
Proof. reflexivity. Qed.

(** C5.  For every (financial year, regime) with an 87A entry and the
    slabs of that regime (for the old regime, of any age category): at the
    ceiling the rebate [min(tax, max_rebate)] is subtracted in full, and
    one rupee above the ceiling the tax after rebate is higher than at the
    ceiling by at least that whole rebate. *)
Theorem rebate_cliff (regime fy ageCategory : string) (info : RebateInfo) :
  rebateInfo regime fy = Some info ->
  let slabs := marginalSlabs regime fy ageCategory in
  let ceiling := income_limit info in
  let taxAtCeiling := computeTaxOnSlabs ceiling slabs in
  let rebateAtCeiling := Js.min taxAtCeiling (max_rebate info) in
  let afterAtCeiling := apply87aRebate taxAtCeiling ceiling regime fy in
  let afterAbove :=
    apply87aRebate (computeTaxOnSlabs (ceiling + 1) slabs) (ceiling + 1) regime fy in
  afterAtCeiling == taxAtCeiling - rebateAtCeiling /\
  afterAtCeiling + rebateAtCeiling <= afterAbove.
Proof.
  intros H. apply rebateInfo_cases in H.
  destruct H as [(-> & -> & ->) | [(-> & -> & ->) | [(-> & -> & ->) | (-> & -> & ->)]]];
    cbv zeta; rewrite ?marginalSlabs_old, ?marginalSlabs_new;
    try (destruct (oldRegimeSlabs_cases ageCategory) as [-> | [-> | ->]]);
    (split; [apply Qeq_bool_iff; vm_compute; reflexivity
            | apply Qle_bool_iff; vm_compute; reflexivity]).
Qed.

(** The cliff of the new regime in FY 2025-26: 60,000 at 12,00,001. *)
Lemma rebate_cliff_witness :
  let info := mkRebateInfo 1200000 60000 in
  rebateInfo "new" "2025-26" = Some info /\
  let slabs := marginalSlabs "new" "2025-26" "below_60" in
  let ceiling := income_limit info in
  let taxAtCeiling := computeTaxOnSlabs ceiling slabs in
  let rebateAtCeiling := Js.min taxAtCeiling (max_rebate info) in
  let afterAtCeiling := apply87aRebate taxAtCeiling ceiling "new" "2025-26" in
  let afterAbove :=
    apply87aRebate (computeTaxOnSlabs (ceiling + 1) slabs) (ceiling + 1)
      "new" "2025-26" in
  afterAtCeiling == taxAtCeiling - rebateAtCeiling /\
  afterAtCeiling + rebateAtCeiling <= afterAbove.
Proof.
  split; [reflexivity|].
  exact (rebate_cliff "new" "2025-26" "below_60" (mkRebateInfo 1200000 60000) eq_refl).
Defined.

(* ------------------------------------------------------------------ *)
(** ** Surcharge and marginal relief                                    *)
(* ------------------------------------------------------------------ *)


(** Decide the comparisons of the goal that linear arithmetic settles. *)
Ltac decide_le :=
  repeat match goal with
  | |- context [Js.le ?a ?b] =>
      first [ rewrite (proj2 (le_true_iff a b)) by lra
            | rewrite (proj2 (le_false_iff a b)) by lra ]
  end.

Lemma tax_old_below_60_top (x : Q) :
  1000000 < x ->
  computeTaxOnSlabs x OLD_REGIME_SLABS_BELOW_60 == 112500 + (x - 1000000) * 0.30.
Proof.
  intro H. unfold computeTaxOnSlabs, OLD_REGIME_SLABS_BELOW_60.
  cbn [taxOnSlabsFrom minLimit]. unfold Js.min. decide_le. lra.
Qed.

Lemma apply87aRebate_old_above (tax income : Q) (fy : string) :
  500000 < income -> apply87aRebate tax income "old" fy = tax.
Proof.
  intro H. destruct (rebateInfo "old" fy) as [info|] eqn:E.
  - apply (apply87aRebate_above _ _ _ _ info E).
    apply rebateInfo_cases in E.
    destruct E as [(_ & _ & ->) | [(_ & D & _) | [(_ & _ & ->) | (_ & D & _)]]];
      try discriminate D; exact H.
  - unfold apply87aRebate. now rewrite E.
Qed.

(** Marginal relief, for any tables: when the base tax itself is within
    the cap, tax plus surcharge exceeds the cap by at most the rounding
    of the surcharge. *)
Lemma getSurcharge_capped (x b : Q) (surchargeSlabs taxSlabs : list Slab)
    (rate prevThreshold prevRate : Q) :
  surchargeSlab x surchargeSlabs 0 0 0 = (rate, prevThreshold, prevRate) ->
  let t := computeTaxOnSlabs prevThreshold taxSlabs in
  let maxTotal := t + t * prevRate + (x - prevThreshold) in
  b <= maxTotal ->
  b + inject_Z (getSurcharge x b surchargeSlabs taxSlabs) <= maxTotal + (1 # 2).
Proof.
  intros E t maxTotal Hb. unfold getSurcharge. rewrite E.
  fold t. fold maxTotal.
  destruct (rate =? 0).
  - change (inject_Z 0) with 0. lra.
  - destruct (b + b * rate >? maxTotal) eqn:R.
    + unfold Js.max.
      destruct (maxTotal - b <=? 0) eqn:M.
      * change (inject_Z (Js.round 0)) with 0. lra.
      * pose proof (round_upper (maxTotal - b)). lra.
    + apply lt_false_iff in R.
      pose proof (round_upper (b * rate)). lra.
Qed.

Lemma oldTotal_unfold (fy : string) (x : Q) :
  500000 < x ->
  oldTotal fy x =
  computeTaxOnSlabs x OLD_REGIME_SLABS_BELOW_60
  + inject_Z (getSurcharge x (computeTaxOnSlabs x OLD_REGIME_SLABS_BELOW_60)
                SURCHARGE_SLABS_OLD OLD_REGIME_SLABS_BELOW_60).
Proof.
  intro H. unfold oldTotal, preCessTotal, calculateOldRegimeTax.
  cbn [tax_after_rebate surcharge].
  change (oldRegimeSlabs "below_60") with OLD_REGIME_SLABS_BELOW_60.
  now rewrite !apply87aRebate_old_above.
Qed.

Lemma oldTotal_at_thresholds (fy : string) :
  oldTotal fy 5000000 == 1312500 /\ oldTotal fy 10000000 == 3093750 /\
  oldTotal fy 20000000 == 6684375 /\ oldTotal fy 50000000 == 18515625.
Proof.
  rewrite !oldTotal_unfold by (vm_compute; reflexivity).
  repeat split; vm_compute; reflexivity.
Qed.

Ltac slab_bound E :=
  match goal with
  | H : _ < ?x |- _ =>
      pose proof (tax_old_below_60_top x ltac:(lra)) as B;
      rewrite oldTotal_unfold by lra;
      set (b := computeTaxOnSlabs x OLD_REGIME_SLABS_BELOW_60) in *;
      pose proof (getSurcharge_capped x b SURCHARGE_SLABS_OLD
                    OLD_REGIME_SLABS_BELOW_60 _ _ _ E) as G;
      cbv zeta in G
  end.

Lemma oldTotal_slab_10 (fy : string) (x : Q) :
  5000000 < x -> x <= 10000000 ->
  oldTotal fy x <= 1312500 + (x - 5000000) + (1 # 2).
Proof.
  intros L U.
  assert (E : surchargeSlab x SURCHARGE_SLABS_OLD 0 0 0 = (0.10, 5000000, 0.00)).
  { unfold SURCHARGE_SLABS_OLD. cbn [surchargeSlab]. decide_le. reflexivity. }
  slab_bound E.
  assert (T : computeTaxOnSlabs 5000000 OLD_REGIME_SLABS_BELOW_60 == 1312500)
    by (vm_compute; reflexivity).
  rewrite T in G. lra.
Qed.

Lemma oldTotal_slab_15 (fy : string) (x : Q) :
  10000000 < x -> x <= 20000000 ->
  oldTotal fy x <= 3093750 + (x - 10000000) + (1 # 2).
Proof.
  intros L U.
  assert (E : surchargeSlab x SURCHARGE_SLABS_OLD 0 0 0 = (0.15, 10000000, 0.10)).
  { unfold SURCHARGE_SLABS_OLD. cbn [surchargeSlab]. decide_le. reflexivity. }
  slab_bound E.
  assert (T : computeTaxOnSlabs 10000000 OLD_REGIME_SLABS_BELOW_60 == 2812500)
    by (vm_compute; reflexivity).
  rewrite T in G. lra.
Qed.

Lemma oldTotal_slab_25 (fy : string) (x : Q) :
  20000000 < x -> x <= 50000000 ->
  oldTotal fy x <= 6684375 + (x - 20000000) + (1 # 2).
Proof.
  intros L U.
  assert (E : surchargeSlab x SURCHARGE_SLABS_OLD 0 0 0 = (0.25, 20000000, 0.15)).
  { unfold SURCHARGE_SLABS_OLD. cbn [surchargeSlab]. decide_le. reflexivity. }
  slab_bound E.
  assert (T : computeTaxOnSlabs 20000000 OLD_REGIME_SLABS_BELOW_60 == 5812500)
    by (vm_compute; reflexivity).
  rewrite T in G. lra.
Qed.

Lemma oldTotal_slab_37 (fy : string) (x : Q) :
  50000000 < x ->
  oldTotal fy x <= 18515625 + (x - 50000000) + (1 # 2).
Proof.
  intros L.
  assert (E : surchargeSlab x SURCHARGE_SLABS_OLD 0 0 0 = (0.37, 50000000, 0.25)).
  { unfold SURCHARGE_SLABS_OLD. cbn [surchargeSlab]. decide_le. reflexivity. }
  slab_bound E.
  assert (T : computeTaxOnSlabs 50000000 OLD_REGIME_SLABS_BELOW_60 == 14812500)
    by (vm_compute; reflexivity).
  rewrite T in G. lra.
Qed.

(** X1.  Marginal relief up to rounding.  For every threshold [T] of the
    old surcharge table and every [delta > 0], the total before cess at
    [T + delta] is at most the total at [T] plus [delta] plus half a rupee,
    the rounding of the surcharge. *)
Theorem marginal_relief_old_regime (fy : string) (T delta : Q) :
  In T (thresholds SURCHARGE_SLABS_OLD) -> 0 < delta ->
  preCessTotal (calculateOldRegimeTax (T + delta) fy "below_60")
  <= preCessTotal (calculateOldRegimeTax T fy "below_60") + delta + (1 # 2).
Proof.
  intros HT Hd. fold (oldTotal fy (T + delta)). fold (oldTotal fy T).
  destruct (oldTotal_at_thresholds fy) as (V1 & V2 & V3 & V4).
  set (x := T + delta).
  assert (C : x <= 10000000 \/ (10000000 < x /\ x <= 20000000) \/
              (20000000 < x /\ x <= 50000000) \/ 50000000 < x).
  { destruct (Qlt_le_dec 10000000 x); [|lra].
    destruct (Qlt_le_dec 20000000 x); [|lra].
    destruct (Qlt_le_dec 50000000 x); lra. }
  cbn [thresholds SURCHARGE_SLABS_OLD In] in HT.
  destruct HT as [<- | [<- | [<- | [<- | []]]]];
    destruct C as [C | [[C1 C2] | [[C1 C2] | C]]]; subst x;
    try (exfalso; lra);
    match goal with
    | |- oldTotal fy ?y <= _ =>
        first
          [ pose proof (oldTotal_slab_10 fy y ltac:(lra) ltac:(lra)) as S
          | pose proof (oldTotal_slab_15 fy y ltac:(lra) ltac:(lra)) as S
          | pose proof (oldTotal_slab_25 fy y ltac:(lra) ltac:(lra)) as S
          | pose proof (oldTotal_slab_37 fy y ltac:(lra)) as S ];
        lra
    end.
Qed.

(** The bound one lakh above the first threshold. *)
Lemma marginal_relief_old_regime_witness :
  In 5000000 (thresholds SURCHARGE_SLABS_OLD) /\ 0 < 100000 /\
  preCessTotal (calculateOldRegimeTax (5000000 + 100000) "2024-25" "below_60")
  <= preCessTotal (calculateOldRegimeTax 5000000 "2024-25" "below_60")
     + 100000 + (1 # 2).
Proof.
  assert (A : In 5000000 (thresholds SURCHARGE_SLABS_OLD)) by (left; reflexivity).
  assert (B : 0 < 100000) by reflexivity.
  split; [exact A|]. split; [exact B|].
  exact (marginal_relief_old_regime "2024-25" 5000000 100000 A B).
Defined.

(** C2, at an input where the code breaks it.  One rupee above the first
    threshold the capped surcharge 0.7 is rounded up to 1: the total before
    cess is 13,12,501.3, above the total at the threshold, 13,12,500, plus
    the one rupee, the bound that the comment of [getSurcharge] promises. *)
Theorem marginal_relief_exceeded_by_rounding :
  In 5000000 (thresholds SURCHARGE_SLABS_OLD) /\ 0 < 1 /\
  surcharge (calculateOldRegimeTax (5000000 + 1) "2024-25" "below_60") = 1%Z /\
  preCessTotal (calculateOldRegimeTax 5000000 "2024-25" "below_60") == 1312500 /\
  preCessTotal (calculateOldRegimeTax (5000000 + 1) "2024-25" "below_60")
    == 1312501.3 /\
  preCessTotal (calculateOldRegimeTax 5000000 "2024-25" "below_60") + 1
    < preCessTotal (calculateOldRegimeTax (5000000 + 1) "2024-25" "below_60").
Proof.
  split; [left; reflexivity|]. vm_compute. repeat split.
Qed.

(* ------------------------------------------------------------------ *)
(** ** Holdings                                                         *)
(* ------------------------------------------------------------------ *)

(** The months counted by [holdingMonths] ignore the days: a share bought
    on 1 March 2024 counts twelve months on 31 March 2025 and is not yet
    long-term, although that day is later than twelve months after the
    purchase; on 1 April 2025 it is. *)
Example long_term_ignores_days :
  holdingMonths marchHolding fyEnd = 12%Z /\
  isLongTerm marchHolding fyEnd = false /\
  laterThanMonths 12 (purchase_date marchHolding) fyEnd /\
  isLongTerm marchHolding (mkDate 2025 3 1) = true.
Proof.
  repeat split. right. split; reflexivity.
Qed.

(** X4.  Long-term classification by calendar months.  A holding is
    long-term at a reference date exactly when the reference month is more
    than [n] months after the month of purchase, [n] being 12 for
    equity_share, equity_mf and elss and 24 for every other type; the days
    of the month play no part.  So a long-term holding has been held for
    more than [n] months day by day, it stays long-term at every later
    month, and at the default reference date, 31 March closing the
    financial year, an equity holding is long-term exactly when it was
    bought in February of the year before or earlier. *)
Theorem long_term_by_calendar_months (h : Holding) (asOf today : Date) :
  (0 <= getMonth (purchase_date h) <= 11)%Z ->
  let pd := purchase_date h in
  let n := if includes ["equity_share"; "equity_mf"; "elss"] (security_type h)
           then 12%Z else 24%Z in
  (isLongTerm h asOf = true <->
   (getFullYear pd * 12 + getMonth pd + n
    < getFullYear asOf * 12 + getMonth asOf)%Z) /\
  (forall day,
     isLongTerm h (mkDate (getFullYear asOf) (getMonth asOf) day)
     = isLongTerm h asOf) /\
  (isLongTerm h asOf = true -> laterThanMonths n pd asOf) /\
  (forall later,
     isLongTerm h asOf = true ->
     (getFullYear asOf * 12 + getMonth asOf
      <= getFullYear later * 12 + getMonth later)%Z ->
     isLongTerm h later = true) /\
  (In (security_type h) ["equity_share"; "equity_mf"; "elss"] ->
   (isLongTerm h (defaultAsOf today) = true <->
    (getFullYear pd < getFullYear (defaultAsOf today) - 1 \/
     (getFullYear pd = getFullYear (defaultAsOf today) - 1 /\
      getMonth pd <= 1))%Z)).
Proof.
  intros M pd n.
  assert (L : forall d, isLongTerm h d = true <->
                (getFullYear pd * 12 + getMonth pd + n
                 < getFullYear d * 12 + getMonth d)%Z).
  { intro d. unfold isLongTerm, holdingMonths, n. fold pd. cbv zeta.
    destruct (includes _ (security_type h)); rewrite Z.ltb_lt; lia. }
  split; [apply L|].
  split; [intro day; unfold isLongTerm, holdingMonths; reflexivity|].
  split; [intro T; left; apply L; exact T|].
  split; [intros later T Hl; apply L; apply L in T; lia|].
  intro E.
  assert (N : n = 12%Z).
  { unfold n. cbn [In] in E.
    destruct E as [<- | [<- | [<- | []]]]; reflexivity. }
  rewrite L, N. fold pd in M.
  unfold defaultAsOf.
  destruct (getMonth today <? 3)%Z; cbn [getFullYear getMonth]; lia.
Qed.

(** The classification of an equity fund bought in February 2024. *)
Lemma long_term_by_calendar_months_witness :
  (0 <= getMonth (purchase_date thirteenMonthHolding) <= 11)%Z /\
  isLongTerm thirteenMonthHolding fyEnd = true /\
  laterThanMonths 12 (purchase_date thirteenMonthHolding) fyEnd /\
  isLongTerm thirteenMonthHolding (defaultAsOf fyEnd) = true.
Proof.
  assert (M : (0 <= getMonth (purchase_date thirteenMonthHolding) <= 11)%Z)
    by (vm_compute; split; discriminate).
  destruct (long_term_by_calendar_months thirteenMonthHolding fyEnd fyEnd M)
    as (L & _ & D & _ & F).
  assert (T : isLongTerm thirteenMonthHolding fyEnd = true) by reflexivity.
  split; [exact M|]. split; [exact T|]. split; [exact (D T)|].
  apply F; [right; left; reflexivity|].
  right. split; [reflexivity | vm_compute; discriminate].
Defined.

(* ------------------------------------------------------------------ *)
(** ** The seven checks                                                 *)
(* ------------------------------------------------------------------ *)


Lemma marginalRate_nonneg (x : Q) (regime fy ageCategory : string) :
  0 <= getMarginalRate x regime fy ageCategory.
Proof.
  unfold getMarginalRate, marginalSlabs.
  destruct (String.eqb regime "new");
    [destruct (String.eqb fy "2025-26")
    | destruct (String.eqb ageCategory "super_senior");
      [|destruct (String.eqb ageCategory "senior")]];
    cbv [NEW_REGIME_SLABS_FY2025_26 NEW_REGIME_SLABS_FY2024_25
         OLD_REGIME_SLABS_SUPER_SENIOR OLD_REGIME_SLABS_SENIOR
         OLD_REGIME_SLABS_BELOW_60 marginalRateFrom leLimit];
    repeat match goal with
    | |- context [Js.le ?a ?b] => destruct (Js.le a b)
    end; vm_compute; discriminate.
Qed.

(** Savings estimated as [round(amount * marginal * (1 + CESS_RATE))]. *)
Lemma estimate_nonneg (amount marginal : Q) :
  0 <= amount -> 0 <= marginal ->
  (0 <= Js.round (amount * marginal * (1 + CESS_RATE)))%Z.
Proof.
  intros Ha Hm. apply round_nonneg. unfold CESS_RATE.
  assert (0 <= amount * marginal) by nra. nra.
Qed.

(** Split a finding on the tests of the function that builds it. *)
Ltac split_finding :=
  cbv zeta;
  repeat match goal with
  | |- context [if ?c then createFinding _ _ _ _ _ _ _ _ _ _ else _] =>
      destruct c eqn:?
  end;
  cbn [check_id status savings finding createFinding].

Lemma check80c_id (s : SalaryProfile) : check_id (check80c s) = "80c_gap".
Proof. unfold check80c. split_finding; reflexivity. Qed.

Lemma check80d_id (s : SalaryProfile) (o : CheckOpts) :
  check_id (check80d s o) = "80d_check".
Proof. unfold check80d. split_finding; reflexivity. Qed.

Lemma checkHra_id (s : SalaryProfile) : check_id (checkHra s) = "hra_optimizer".
Proof. unfold checkHra. split_finding; reflexivity. Qed.

Lemma checkNps_id (s : SalaryProfile) : check_id (checkNps s) = "nps_check".
Proof. unfold checkNps. split_finding; reflexivity. Qed.

Lemma checkHomeLoan_id (s : SalaryProfile) :
  check_id (checkHomeLoan s) = "home_loan_check".
Proof. unfold checkHomeLoan. split_finding; reflexivity. Qed.

Lemma checkRegime_id (s : SalaryProfile) (o : CheckOpts) :
  check_id (checkRegime s o) = "regime_arbitrage".
Proof. unfold checkRegime. split_finding; reflexivity. Qed.

Lemma checkCapitalGains_id (today : Date) (hs : Holdings) (asOf : option Date) :
  check_id (checkCapitalGains today hs asOf) = "capital_gains".
Proof.
  unfold checkCapitalGains. cbv zeta.
  destruct (scanHoldings _ _) as [[lt st] al].
  split_finding; reflexivity.
Qed.

Lemma check80c_savings (s : SalaryProfile) :
  (0 <= savings (check80c s))%Z /\
  (status (check80c s) <> OPPORTUNITY -> savings (check80c s) = 0%Z).
Proof.
  unfold check80c. split_finding.
  - split; [lia | reflexivity].
  - split; [|congruence].
    apply estimate_nonneg; [apply max_ge_r | apply marginalRate_nonneg].
Qed.

Lemma check80d_savings (s : SalaryProfile) (o : CheckOpts) :
  (0 <= savings (check80d s o))%Z /\
  (status (check80d s o) <> OPPORTUNITY -> savings (check80d s o) = 0%Z).
Proof.
  unfold check80d. split_finding.
  - split; [lia | reflexivity].
  - split; [|congruence].
    match goal with H : (_ <=? _) = false |- _ => apply le_false_iff in H end.
    apply estimate_nonneg; [|apply marginalRate_nonneg].
    assert (0 <= parentsLimit80d o).
    { unfold parentsLimit80d, LIMIT_80D_PARENTS_SENIOR, LIMIT_80D_PARENTS_BELOW_60.
      destruct (orFalse _); lra. }
    destruct (deduction_80d s =? 0); lra.
Qed.

Lemma checkNps_savings (s : SalaryProfile) :
  (0 <= savings (checkNps s))%Z /\
  (status (checkNps s) <> OPPORTUNITY -> savings (checkNps s) = 0%Z).
Proof.
  unfold checkNps. split_finding.
  - split; [lia | reflexivity].
  - split; [|congruence].
    apply estimate_nonneg; [apply max_ge_r | apply marginalRate_nonneg].
Qed.

Lemma checkHra_savings (s : SalaryProfile) : savings (checkHra s) = 0%Z.
Proof. unfold checkHra. split_finding; reflexivity. Qed.

Lemma checkHomeLoan_savings (s : SalaryProfile) : savings (checkHomeLoan s) = 0%Z.
Proof. unfold checkHomeLoan. split_finding; reflexivity. Qed.

Lemma checkRegime_cases (s : SalaryProfile) (o : CheckOpts) :
  let f := checkRegime s o in
  (status f = OPPORTUNITY /\ (0 < savings f)%Z /\
   prop "recommended_regime" (details f) = Some (VStr "old")) \/
  (status f = OPTIMIZED /\ savings f = 0%Z /\
   prop "recommended_regime" (details f) = Some (VStr "new")).
Proof.
  unfold checkRegime. cbv zeta.
  match goal with
  | |- context [if (0 <? ?d)%Z then createFinding _ _ _ _ _ _ _ _ _ _ else _] =>
      destruct (0 <? d)%Z eqn:E
  end.
  - left. apply Z.ltb_lt in E. repeat split. exact E.
  - right. repeat split.
Qed.

Lemma sumGains_from_nonneg (gains : list Q) (acc : Q) :
  0 <= acc -> Forall (fun g => 0 <= g) gains ->
  0 <= fold_left (fun sum g => sum + g) gains acc.
Proof.
  revert acc. induction gains as [|g gains IH]; intros acc Ha Hg; simpl.
  - exact Ha.
  - inversion Hg; subst. apply IH; [lra | assumption].
Qed.

Lemma scanHoldings_gains_nonneg (asOf : Date) (hs : list Holding) :
  Forall (fun g => 0 <= g) (map lt_gain (fst (fst (scanHoldings asOf hs)))).
Proof.
  induction hs as [|h rest IH]; simpl.
  - constructor.
  - destruct (scanHoldings asOf rest) as [[lt st] al]. simpl in IH.
    destruct (isLongTerm h asOf); simpl.
    + destruct (unrealized_gain h >? 0) eqn:G; simpl.
      * constructor; [|exact IH]. apply lt_true_iff in G. lra.
      * exact IH.
    + exact IH.
Qed.

Lemma checkCapitalGains_savings (today : Date) (hs : Holdings) (asOf : option Date) :
  (0 <= savings (checkCapitalGains today hs asOf))%Z /\
  (status (checkCapitalGains today hs asOf) <> OPPORTUNITY ->
   savings (checkCapitalGains today hs asOf) = 0%Z).
Proof.
  unfold checkCapitalGains. cbv zeta.
  set (d := match asOf with Some d => d | None => defaultAsOf today end).
  pose proof (scanHoldings_gains_nonneg d (holdings hs)) as G.
  destruct (scanHoldings d (holdings hs)) as [[lt st] al]. simpl in G.
  split_finding.
  - split; [lia | reflexivity].
  - split; [lia | reflexivity].
  - split; [|congruence].
    apply round_nonneg. unfold LTCG_RATE, CESS_RATE.
    assert (0 <= Js.min (sumGains (map lt_gain lt))
                   (Js.max (LTCG_EXEMPTION - realized_ltcg_this_fy hs) 0)).
    { apply min_glb; [|apply max_ge_r].
      apply sumGains_from_nonneg; [lra | exact G]. }
    nra.
Qed.

(** *** Savings of an opportunity *)

(** Scenario S1 without holdings: the findings of the demo profile. *)
Example s1_findings :
  ( savings (checkRegime priyaProfile (mkCheckOpts None None)),
    savings (check80c priyaProfile),
    savings (check80d priyaProfile (mkCheckOpts None None)),
    savings (checkNps priyaProfile),
    savings (checkHra priyaProfile),
    status (checkHra priyaProfile),
    status (checkHomeLoan priyaProfile) )
  = (16120%Z, 24336%Z, 7800%Z, 15600%Z, 0%Z, OPPORTUNITY, NOT_APPLICABLE).
Proof. vm_compute. reflexivity. Qed.




(** An estimate that rounds to 0: with 5 rupees of the 80C limit left at a
    marginal rate of 5% the check reports an Opportunity of 0.26 rupees,
    rounded to 0. *)
Example opportunity_estimate_rounds_to_zero :
  status (check80c smallGapProfile) = OPPORTUNITY /\
  prop "gap" (details (check80c smallGapProfile)) = Some (VNum 5) /\
  prop "marginal_rate" (details (check80c smallGapProfile)) = Some (VNum 0.05) /\
  savings (check80c smallGapProfile) = 0%Z.
Proof. vm_compute. repeat split. Qed.



(* ------------------------------------------------------------------ *)
(** ** The orchestrator                                                 *)
(* ------------------------------------------------------------------ *)

(** *** The stable sort by savings *)


Lemma In_insertBySavings (x y : Finding) (l : list Finding) :
  In y (insertBySavings x l) <-> y = x \/ In y l.
Proof.
  induction l as [|z l IH]; simpl.
  - intuition auto.
  - destruct (savings z <=? savings x)%Z; simpl; [intuition auto|].
    rewrite IH. intuition auto.
Qed.

Lemma In_sortBySavings (y : Finding) (l : list Finding) :
  In y (sortBySavings l) <-> In y l.
Proof.
  induction l as [|x l IH]; simpl.
  - reflexivity.
  - rewrite In_insertBySavings, IH. intuition auto.
Qed.

Lemma findCheck_insertBySavings (id : string) (x : Finding) (l : list Finding) :
  (check_id x = id -> forall y, In y l -> check_id y <> id) ->
  findCheck id (insertBySavings x l) = findCheck id (x :: l).
Proof.
  unfold findCheck. induction l as [|z l IH]; intro U; simpl.
  - reflexivity.
  - destruct (savings z <=? savings x)%Z; simpl; [reflexivity|].
    rewrite IH by (intros E y Hy; apply U; simpl; auto). simpl.
    destruct (String.eqb (check_id x) id) eqn:X; [|reflexivity].
    apply String.eqb_eq in X.
    destruct (String.eqb (check_id z) id) eqn:Z; [|reflexivity].
    apply String.eqb_eq in Z. exfalso. apply (U X z); simpl; auto.
Qed.

Lemma findCheck_sortBySavings (id : string) (l : list Finding) :
  NoDup (map check_id l) ->
  findCheck id (sortBySavings l) = findCheck id l.
Proof.
  induction l as [|x l IH]; intro N.
  - reflexivity.
  - inversion N as [|? ? Hx Hl]; subst.
    change (sortBySavings (x :: l)) with (insertBySavings x (sortBySavings l)).
    rewrite findCheck_insertBySavings.
    + unfold findCheck in *. cbn [find]. now rewrite (IH Hl).
    + intros E y Hy C. apply Hx. apply (proj1 (In_sortBySavings _ _)) in Hy.
      rewrite E, <- C. now apply in_map.
Qed.

Lemma sumSavings_insertBySavings (x : Finding) (l : list Finding) :
  sumSavings (insertBySavings x l) = (savings x + sumSavings l)%Z.
Proof.
  induction l as [|z l IH]; simpl.
  - reflexivity.
  - destruct (savings z <=? savings x)%Z; simpl; [reflexivity|].
    rewrite IH. lia.
Qed.

Lemma sumSavings_sortBySavings (l : list Finding) :
  sumSavings (sortBySavings l) = sumSavings l.
Proof.
  induction l as [|x l IH]; simpl.
  - reflexivity.
  - now rewrite sumSavings_insertBySavings, IH.
Qed.

Lemma length_insertBySavings (x : Finding) (l : list Finding) :
  length (insertBySavings x l) = S (length l).
Proof.
  induction l as [|z l IH]; simpl.
  - reflexivity.
  - destruct (savings z <=? savings x)%Z; simpl; [reflexivity|]. now rewrite IH.
Qed.

Lemma length_sortBySavings (l : list Finding) :
  length (sortBySavings l) = length l.
Proof.
  induction l as [|x l IH]; simpl.
  - reflexivity.
  - now rewrite length_insertBySavings, IH.
Qed.

Lemma runAllChecks_checks (today : Date) (s : SalaryProfile) (h : option Holdings)
    (opts : RunOpts) :
  checks (runAllChecks today s h opts) = sortBySavings (allChecksOf today s h opts).
Proof. reflexivity. Qed.

Lemma allChecksOf_ids (today : Date) (s : SalaryProfile) (h : option Holdings)
    (opts : RunOpts) :
  map check_id (allChecksOf today s h opts) =
  [ "regime_arbitrage"; "80c_gap"; "80d_check"; "hra_optimizer";
    "capital_gains"; "nps_check"; "home_loan_check" ].
Proof.
  unfold allChecksOf. cbv zeta.
  destruct (String.eqb _ "new"); cbn [map suppressUnderNewRegime check_id];
    now rewrite checkRegime_id, check80c_id, check80d_id, checkHra_id,
      checkCapitalGains_id, checkNps_id, checkHomeLoan_id.
Qed.

Lemma allChecksOf_NoDup (today : Date) (s : SalaryProfile) (h : option Holdings)
    (opts : RunOpts) :
  NoDup (map check_id (allChecksOf today s h opts)).
Proof.
  rewrite allChecksOf_ids.
  repeat (constructor; [cbn [In]; intuition discriminate|]). constructor.
Qed.

Lemma insertBySavings_sorted (x : Finding) (l : list Finding) :
  StronglySorted bySavingsDesc l ->
  StronglySorted bySavingsDesc (insertBySavings x l).
Proof.
  induction 1 as [|y l S IH F]; simpl.
  - repeat constructor.
  - destruct (savings y <=? savings x)%Z eqn:E.
    + apply Z.leb_le in E. constructor.
      * now constructor.
      * constructor; [exact E|].
        rewrite Forall_forall in *. intros z Hz.
        specialize (F z Hz). unfold bySavingsDesc in *. lia.
    + apply Z.leb_gt in E. constructor; [exact IH|].
      rewrite Forall_forall in *. intros z Hz.
      apply In_insertBySavings in Hz. destruct Hz as [-> | Hz].
      * unfold bySavingsDesc. lia.
      * now apply F.
Qed.

Lemma insertBySavings_perm (x : Finding) (l : list Finding) :
  Permutation (insertBySavings x l) (x :: l).
Proof.
  induction l as [|y l IH]; simpl.
  - reflexivity.
  - destruct (savings y <=? savings x)%Z; [reflexivity|].
    rewrite IH. apply perm_swap.
Qed.

(** X3.  The findings of the report are those of the checks, in an order
    in which the savings never increase. *)
Theorem checks_sorted_by_savings (today : Date) (s : SalaryProfile)
    (h : option Holdings) (opts : RunOpts) :
  let r := runAllChecks today s h opts in
  StronglySorted bySavingsDesc (checks r) /\
  Permutation (checks r) (allChecksOf today s h opts).
Proof.
  intro r. unfold r. rewrite runAllChecks_checks.
  generalize (allChecksOf today s h opts). intro l. split.
  - induction l as [|x l IH]; simpl; [constructor|].
    now apply insertBySavings_sorted.
  - induction l as [|x l IH]; simpl; [constructor|].
    rewrite insertBySavings_perm. now constructor.
Qed.

(** Looking a finding up in the report is looking it up before the sort. *)
Lemma findCheck_report (id : string) (today : Date) (s : SalaryProfile)
    (h : option Holdings) (opts : RunOpts) :
  findCheck id (checks (runAllChecks today s h opts)) =
  findCheck id (allChecksOf today s h opts).
Proof.
  rewrite runAllChecks_checks. apply findCheck_sortBySavings, allChecksOf_NoDup.
Qed.

Lemma findCheck_hit (id : string) (x : Finding) (l : list Finding) :
  check_id x = id -> findCheck id (x :: l) = Some x.
Proof.
  intro E. unfold findCheck. simpl. rewrite E, String.eqb_refl. reflexivity.
Qed.

Lemma findCheck_miss (id : string) (x : Finding) (l : list Finding) :
  check_id x <> id -> findCheck id (x :: l) = findCheck id l.
Proof.
  intro E. unfold findCheck. simpl.
  apply String.eqb_neq in E. now rewrite E.
Qed.

Lemma recommendedRegimeOf_checkRegime (s : SalaryProfile) (o : CheckOpts) :
  (recommendedRegimeOf (checkRegime s o) = "old" /\ (0 < savings (checkRegime s o))%Z /\
   prop "recommended_regime" (details (checkRegime s o)) = Some (VStr "old")) \/
  (recommendedRegimeOf (checkRegime s o) = "new" /\ savings (checkRegime s o) = 0%Z /\
   prop "recommended_regime" (details (checkRegime s o)) = Some (VStr "new")).
Proof.
  unfold recommendedRegimeOf.
  destruct (checkRegime_cases s o) as [(_ & P & R) | (_ & P & R)]; rewrite R; auto.
Qed.

Lemma suppress_id (f : Finding) : check_id (suppressUnderNewRegime f) = check_id f.
Proof. reflexivity. Qed.

(** Walk down the seven findings to the one with a given identifier. *)
Ltac find_check :=
  repeat first
    [ rewrite findCheck_hit
        by (rewrite ?suppress_id, ?checkRegime_id, ?check80c_id, ?check80d_id,
              ?checkHra_id, ?checkCapitalGains_id, ?checkNps_id, ?checkHomeLoan_id;
            reflexivity)
    | rewrite findCheck_miss
        by (rewrite ?suppress_id, ?checkRegime_id, ?check80c_id, ?check80d_id,
              ?checkHra_id, ?checkCapitalGains_id, ?checkNps_id, ?checkHomeLoan_id;
            discriminate) ].

(** *** Total savings *)

(** Scenario S3: for the low income the new regime wins, the deduction
    checks are suppressed and nothing is saved. *)
Example s3_new_regime_wins :
  let r := runAllChecks fyEnd lowIncomeProfile None noOpts in
  (recommended_regime r, total_savings r,
   map (fun c => (check_id c, status c, savings c)) (checks r))
  = ("new", 0%Z,
     [ ("regime_arbitrage", OPTIMIZED, 0%Z);
       ("80c_gap", NOT_APPLICABLE, 0%Z);
       ("80d_check", NOT_APPLICABLE, 0%Z);
       ("hra_optimizer", NOT_APPLICABLE, 0%Z);
       ("capital_gains", NOT_APPLICABLE, 0%Z);
       ("nps_check", NOT_APPLICABLE, 0%Z);
       ("home_loan_check", NOT_APPLICABLE, 0%Z) ]).
Proof. vm_compute. reflexivity. Qed.

(** C1.  The report of [runAllChecks] holds seven findings, among them the
    regime_arbitrage and the capital_gains finding, and its total savings
    are exactly the sum of the savings of these two.  When the recommended
    regime is old, the total is at most the sum of the savings of all seven
    findings; when it is new, the total is the savings of capital_gains. *)
Theorem total_savings_no_double_counting (today : Date) (s : SalaryProfile)
    (h : option Holdings) (opts : RunOpts) :
  let r := runAllChecks today s h opts in
  exists regimeF cgF,
    findCheck "regime_arbitrage" (checks r) = Some regimeF /\
    findCheck "capital_gains" (checks r) = Some cgF /\
    length (checks r) = 7%nat /\
    total_savings r = (savings regimeF + savings cgF)%Z /\
    (recommended_regime r = "old" -> (total_savings r <= sumSavings (checks r))%Z) /\
    (recommended_regime r = "new" -> total_savings r = savings cgF).
Proof.
  intro r.
  exists (checkRegime s (forwardedOpts opts)),
         (checkCapitalGains today (holdingsOrEmpty h) (opt_cgAsOf opts)).
  unfold r. rewrite !findCheck_report, runAllChecks_checks.
  rewrite length_sortBySavings, sumSavings_sortBySavings.
  change (recommended_regime (runAllChecks today s h opts))
    with (recommendedRegimeOf (checkRegime s (forwardedOpts opts))).
  change (total_savings (runAllChecks today s h opts))
    with (savings (checkRegime s (forwardedOpts opts))
          + savings (checkCapitalGains today (holdingsOrEmpty h) (opt_cgAsOf opts)))%Z.
  unfold allChecksOf. cbv zeta.
  destruct (recommendedRegimeOf_checkRegime s (forwardedOpts opts))
    as [(R & P & _) | (R & P & _)]; rewrite R;
    cbn [String.eqb Ascii.eqb Bool.eqb andb].
  - repeat split; try (find_check; reflexivity); [|discriminate].
    intros _. cbn [sumSavings fold_right].
    pose proof (proj1 (check80c_savings s)).
    pose proof (proj1 (check80d_savings s (forwardedOpts opts))).
    pose proof (proj1 (checkNps_savings s)).
    rewrite checkHra_savings, checkHomeLoan_savings. lia.
  - repeat split; try (find_check; reflexivity); [discriminate|].
    intros _. lia.
Qed.

(** The narrative of a check never has the form of the suppressed one. *)
Ltac distinct_text :=
  split_finding; unfold newRegimeFinding, cat;
  repeat match goal with
  | |- context [if ?c then _ else _] => destruct c
  end;
  cbn [String.concat String.append]; discriminate.

Lemma check80c_finding_distinct (s : SalaryProfile) (k : Z) :
  finding (check80c s) <> newRegimeFinding k.
Proof. unfold check80c. distinct_text. Qed.

Lemma check80d_finding_distinct (s : SalaryProfile) (o : CheckOpts) (k : Z) :
  finding (check80d s o) <> newRegimeFinding k.
Proof. unfold check80d. distinct_text. Qed.

Lemma checkHra_finding_distinct (s : SalaryProfile) (k : Z) :
  finding (checkHra s) <> newRegimeFinding k.
Proof. unfold checkHra. distinct_text. Qed.

Lemma checkNps_finding_distinct (s : SalaryProfile) (k : Z) :
  finding (checkNps s) <> newRegimeFinding k.
Proof. unfold checkNps. distinct_text. Qed.

Lemma checkHomeLoan_finding_distinct (s : SalaryProfile) (k : Z) :
  finding (checkHomeLoan s) <> newRegimeFinding k.
Proof. unfold checkHomeLoan. distinct_text. Qed.

(** *** Regime interdependency *)

(** The rewritten text, as one string around the formatted amount. *)
Lemma newRegimeFinding_text (k : Z) :
  newRegimeFinding k
  = ("Not applicable under new regime (would save ₹"
     ++ intToLocaleString k ++ " under old regime)")%string.
Proof. reflexivity. Qed.

Lemma suppress_spec (r : TaxHawkResult) (orig : Finding) :
  findCheck (check_id orig) (checks r) = Some (suppressUnderNewRegime orig) ->
  (forall k, finding orig <> newRegimeFinding k) ->
  SuppressedIn r orig.
Proof.
  intros F D. exists (suppressUnderNewRegime orig).
  split; [exact F|].
  cbn [suppressUnderNewRegime status savings finding].
  split; [reflexivity|]. split; [reflexivity|].
  rewrite <- newRegimeFinding_text.
  destruct (0 <? savings orig)%Z eqn:E.
  - apply Z.ltb_lt in E. repeat split; auto. lia.
  - apply Z.ltb_ge in E. repeat split; auto.
    + intro H. exfalso. exact (D _ H).
    + lia.
Qed.

(** C3.  When the regime_arbitrage finding of the report recommends the
    new regime, that finding and the capital_gains finding are the ones the
    checks returned, unchanged, and each of the five deduction checks
    (80c_gap, 80d_check, hra_optimizer, nps_check, home_loan_check) is in
    the report with status not_applicable and savings 0; its text is
    "Not applicable under new regime (would save ₹X under old regime)",
    X being the savings the check computed in the en-IN format, exactly
    when these savings were above 0, and the text of the check otherwise. *)
Theorem new_regime_suppresses_deduction_checks (today : Date) (s : SalaryProfile)
    (h : option Holdings) (opts : RunOpts) (regimeF : Finding) :
  let r := runAllChecks today s h opts in
  findCheck "regime_arbitrage" (checks r) = Some regimeF ->
  prop "recommended_regime" (details regimeF) = Some (VStr "new") ->
  regimeF = checkRegime s (forwardedOpts opts) /\
  findCheck "capital_gains" (checks r)
    = Some (checkCapitalGains today (holdingsOrEmpty h) (opt_cgAsOf opts)) /\
  map check_id
    [ check80c s; check80d s (forwardedOpts opts); checkHra s; checkNps s;
      checkHomeLoan s ]
    = [ "80c_gap"; "80d_check"; "hra_optimizer"; "nps_check"; "home_loan_check" ] /\
  Forall (SuppressedIn r)
    [ check80c s; check80d s (forwardedOpts opts); checkHra s; checkNps s;
      checkHomeLoan s ].
Proof.
  intros r. unfold r. rewrite !findCheck_report.
  cbn [map]. rewrite check80c_id, check80d_id, checkHra_id, checkNps_id,
    checkHomeLoan_id.
  unfold allChecksOf. cbv zeta.
  intros F. rewrite findCheck_hit in F by apply checkRegime_id.
  injection F as <-. intro N.
  destruct (recommendedRegimeOf_checkRegime s (forwardedOpts opts))
    as [(_ & _ & R) | (R & _ & _)]; [rewrite R in N; discriminate|].
  rewrite R. cbn [String.eqb Ascii.eqb Bool.eqb andb].
  split; [reflexivity|].
  split; [find_check; reflexivity|].
  split; [reflexivity|].
  repeat (constructor;
          [apply suppress_spec;
           [rewrite findCheck_report; unfold allChecksOf; cbv zeta;
            rewrite R; cbn [String.eqb Ascii.eqb Bool.eqb andb];
            find_check; reflexivity
           | first [ apply check80c_finding_distinct
                   | apply check80d_finding_distinct
                   | apply checkHra_finding_distinct
                   | apply checkNps_finding_distinct
                   | apply checkHomeLoan_finding_distinct ] ]|]).
  constructor.
Qed.

(** The suppression for the low income of scenario S3. *)
Lemma new_regime_suppresses_deduction_checks_witness :
  let r := runAllChecks fyEnd lowIncomeProfile None noOpts in
  let regimeF := checkRegime lowIncomeProfile (forwardedOpts noOpts) in
  findCheck "regime_arbitrage" (checks r) = Some regimeF /\
  prop "recommended_regime" (details regimeF) = Some (VStr "new") /\
  regimeF = checkRegime lowIncomeProfile (forwardedOpts noOpts) /\
  findCheck "capital_gains" (checks r)
    = Some (checkCapitalGains fyEnd (holdingsOrEmpty None) (opt_cgAsOf noOpts)) /\
  map check_id
    [ check80c lowIncomeProfile; check80d lowIncomeProfile (forwardedOpts noOpts);
      checkHra lowIncomeProfile; checkNps lowIncomeProfile;
      checkHomeLoan lowIncomeProfile ]
    = [ "80c_gap"; "80d_check"; "hra_optimizer"; "nps_check"; "home_loan_check" ] /\
  Forall (SuppressedIn r)
    [ check80c lowIncomeProfile; check80d lowIncomeProfile (forwardedOpts noOpts);
      checkHra lowIncomeProfile; checkNps lowIncomeProfile;
      checkHomeLoan lowIncomeProfile ].
Proof.
  assert (A : findCheck "regime_arbitrage"
                (checks (runAllChecks fyEnd lowIncomeProfile None noOpts))
              = Some (checkRegime lowIncomeProfile (forwardedOpts noOpts)))
    by (vm_compute; reflexivity).
  assert (B : prop "recommended_regime"
                (details (checkRegime lowIncomeProfile (forwardedOpts noOpts)))
              = Some (VStr "new"))
    by (vm_compute; reflexivity).
  split; [exact A|]. split; [exact B|].
  exact (new_regime_suppresses_deduction_checks fyEnd lowIncomeProfile None noOpts
           _ A B).
Defined.

(** Scenario S3 in words.  The three deduction checks that had computed
    savings carry the rewritten text with the amount they would save, the
    two that had none keep their own; on the tie of the two regimes at a
    tax of 0 the regime finding formats the negated difference, -0. *)
Example s3_suppressed_texts :
  let r := runAllChecks fyEnd lowIncomeProfile None noOpts in
  map (fun c => (check_id c, finding c)) (checks r)
  = [ ("regime_arbitrage", "New regime is already optimal (saves ₹-0 vs old)");
      ("80c_gap",
       "Not applicable under new regime (would save ₹31,200 under old regime)");
      ("80d_check",
       "Not applicable under new regime (would save ₹5,200 under old regime)");
      ("hra_optimizer", "No HRA received or no rent paid");
      ("capital_gains", "No investment holdings to analyze");
      ("nps_check",
       "Not applicable under new regime (would save ₹10,400 under old regime)");
      ("home_loan_check", "No home loan interest declared") ].
Proof. vm_compute. reflexivity. Qed.

(** *** The options the orchestrator reads *)

(** C10.  Two runs on the same clock, profile and holdings whose options
    differ only in [selfSenior] return the same report: [runAllChecks]
    forwards [parentsSenior] alone, so [checkRegime] computes with the age
    category below_60 and [checkRegime] and [check80d] with the self limit
    of a taxpayer below 60. *)
Theorem self_senior_is_ignored (today : Date) (s : SalaryProfile)
    (h : option Holdings) (parents self1 self2 : option bool) (asOf : option Date) :
  let o1 := mkRunOpts parents self1 asOf in
  let o2 := mkRunOpts parents self2 asOf in
  runAllChecks today s h o1 = runAllChecks today s h o2 /\
  forwardedOpts o1 = forwardedOpts o2 /\
  selfSenior (forwardedOpts o1) = None /\
  regimeAgeCategory (forwardedOpts o1) = "below_60" /\
  selfLimit80d (forwardedOpts o1) = LIMIT_80D_SELF_BELOW_60 /\
  findCheck "regime_arbitrage" (checks (runAllChecks today s h o1))
    = Some (checkRegime s (forwardedOpts o1)).
Proof.
  intros o1 o2. repeat split.
  rewrite findCheck_report. unfold allChecksOf. cbv zeta.
  find_check. reflexivity.
Qed.
(* ================================================================== *)
(** * Further properties of the engine                                  *)
(* ================================================================== *)

(* ------------------------------------------------------------------ *)
(** ** Progressive slabs                                                *)
(* ------------------------------------------------------------------ *)

Lemma scale_between (r R d : Q) :
  0 <= r -> r <= R -> 0 <= d -> 0 <= d * r /\ d * r <= R * d.
Proof. intros. split; nra. Qed.

(** The tax accumulated so far is carried along unchanged. *)
Lemma taxOnSlabsFrom_acc (z : Q) (slabs : list Slab) (t p : Q) :
  taxOnSlabsFrom z slabs t p == t + taxOnSlabsFrom z slabs 0 p.
Proof.
  revert t p. induction slabs as [|[ul r] rest IH]; intros t p; cbn [taxOnSlabsFrom].
  - lra.
  - destruct (z <=? p); [lra|]. cbv zeta. destruct ul as [u|].
    + rewrite (IH (t + _)), (IH (0 + _)). lra.
    + lra.
Qed.

Lemma taxOnSlabsFrom_below (z : Q) (slabs : list Slab) (p : Q) :
  z <= p -> taxOnSlabsFrom z slabs 0 p == 0.
Proof.
  intro H. destruct slabs as [|[ul r] rest]; cbn [taxOnSlabsFrom]; [lra|].
  apply le_true_iff in H. rewrite H. lra.
Qed.

Lemma taxOnSlabsFrom_fin (z u r : Q) (rest : list Slab) (p : Q) :
  p < z ->
  taxOnSlabsFrom z ((Fin u, r) :: rest) 0 p
  == (Js.min z u - p) * r + taxOnSlabsFrom z rest 0 u.
Proof.
  intro H. cbn [taxOnSlabsFrom minLimit].
  apply le_false_iff in H. rewrite H. cbv zeta.
  rewrite taxOnSlabsFrom_acc. lra.
Qed.

Lemma taxOnSlabsFrom_open (z r : Q) (rest : list Slab) (p : Q) :
  p < z -> taxOnSlabsFrom z ((Infinity, r) :: rest) 0 p == (z - p) * r.
Proof.
  intro H. cbn [taxOnSlabsFrom minLimit].
  apply le_false_iff in H. rewrite H. cbv zeta. lra.
Qed.

Lemma min_cases (a b : Q) :
  (a <= b /\ Js.min a b = a) \/ (b < a /\ Js.min a b = b).
Proof.
  unfold Js.min. destruct (a <=? b) eqn:E.
  - left. apply le_true_iff in E. auto.
  - right. apply le_false_iff in E. auto.
Qed.

Lemma orderedSlabs_fin (p R u r : Q) (rest : list Slab) :
  orderedSlabs p R ((Fin u, r) :: rest) = true ->
  p <= u /\ 0 <= r /\ r <= R /\ orderedSlabs u R rest = true.
Proof.
  cbn [orderedSlabs]. rewrite !Bool.andb_true_iff, !le_true_iff. tauto.
Qed.

Lemma orderedSlabs_open (p R r : Q) (rest : list Slab) :
  orderedSlabs p R ((Infinity, r) :: rest) = true -> 0 <= r /\ r <= R.
Proof.
  cbn [orderedSlabs]. rewrite !Bool.andb_true_iff, !le_true_iff. tauto.
Qed.

(** From any previous limit on: the tax of an ordered table is never
    negative, grows with the income, and by at most the highest rate per
    rupee. *)
Lemma taxOnSlabsFrom_growth (R : Q) (slabs : list Slab) :
  0 <= R ->
  forall p x y,
    orderedSlabs p R slabs = true -> x <= y ->
    0 <= taxOnSlabsFrom y slabs 0 p - taxOnSlabsFrom x slabs 0 p /\
    taxOnSlabsFrom y slabs 0 p - taxOnSlabsFrom x slabs 0 p <= R * (y - x).
Proof.
  intro HR. induction slabs as [|[[u|] r] rest IH]; intros p x y O L.
  - cbn [taxOnSlabsFrom]. split; [lra | nra].
  - apply orderedSlabs_fin in O. destruct O as (Hu & Hr0 & HrR & O).
    destruct (Qlt_le_dec p y) as [Py|Py].
    2:{ rewrite !taxOnSlabsFrom_below by lra. split; [lra | nra]. }
    rewrite (taxOnSlabsFrom_fin y) by exact Py.
    destruct (Qlt_le_dec u y) as [Uy|Uy].
    + (* y is above the slab *)
      pose proof (IH u u y O ltac:(lra)) as [A1 A2].
      rewrite (taxOnSlabsFrom_below u rest u) in A1, A2 by lra.
      destruct (min_cases y u) as [[M1 M2]|[M1 M2]]; [lra|]. rewrite M2.
      destruct (Qlt_le_dec p x) as [Px|Px].
      * rewrite (taxOnSlabsFrom_fin x) by exact Px.
        destruct (min_cases x u) as [[N1 N2]|[N1 N2]]; rewrite N2.
        -- rewrite (taxOnSlabsFrom_below x rest u) by lra.
           destruct (scale_between r R (u - x) Hr0 HrR ltac:(lra)). split; lra.
        -- pose proof (IH u x y O L) as [B1 B2]. split; lra.
      * rewrite (taxOnSlabsFrom_below x) by lra.
        destruct (scale_between r R (u - p) Hr0 HrR ltac:(lra)).
        assert (R * (u - p) <= R * (u - x)) by nra.
        split; lra.
    + (* y is inside the slab *)
      rewrite (taxOnSlabsFrom_below y rest u) by lra.
      destruct (min_cases y u) as [[M1 M2]|[M1 M2]]; [|lra]. rewrite M2.
      destruct (Qlt_le_dec p x) as [Px|Px].
      * rewrite (taxOnSlabsFrom_fin x) by exact Px.
        rewrite (taxOnSlabsFrom_below x rest u) by lra.
        destruct (min_cases x u) as [[N1 N2]|[N1 N2]]; [|lra]. rewrite N2.
        destruct (scale_between r R (y - x) Hr0 HrR ltac:(lra)). split; lra.
      * rewrite (taxOnSlabsFrom_below x) by lra.
        destruct (scale_between r R (y - p) Hr0 HrR ltac:(lra)).
        assert (R * (y - p) <= R * (y - x)) by nra.
        split; lra.
  - apply orderedSlabs_open in O. destruct O as (Hr0 & HrR).
    destruct (Qlt_le_dec p y) as [Py|Py].
    2:{ rewrite !taxOnSlabsFrom_below by lra. split; [lra | nra]. }
    rewrite (taxOnSlabsFrom_open y) by exact Py.
    destruct (Qlt_le_dec p x) as [Px|Px].
    + rewrite (taxOnSlabsFrom_open x) by exact Px.
      destruct (scale_between r R (y - x) Hr0 HrR ltac:(lra)). split; lra.
    + rewrite (taxOnSlabsFrom_below x) by lra.
      destruct (scale_between r R (y - p) Hr0 HrR ltac:(lra)).
      assert (R * (y - p) <= R * (y - x)) by nra.
      split; lra.
Qed.

Lemma incomeTaxTables_ordered (slabs : list Slab) :
  In slabs incomeTaxTables ->
  orderedSlabs 0 0.30 slabs = true /\ openEnded slabs = true.
Proof.
  cbn [incomeTaxTables In].
  intros [<- | [<- | [<- | [<- | [<- | []]]]]]; split; vm_compute; reflexivity.
Qed.

Lemma taxOnSlabs_bounds (slabs : list Slab) (maxRate x y : Q) :
  orderedSlabs 0 maxRate slabs = true -> 0 <= maxRate -> x <= y ->
  0 <= computeTaxOnSlabs x slabs /\
  computeTaxOnSlabs x slabs <= computeTaxOnSlabs y slabs /\
  computeTaxOnSlabs y slabs - computeTaxOnSlabs x slabs <= maxRate * (y - x).
Proof.
  intros O HR L. unfold computeTaxOnSlabs.
  pose proof (taxOnSlabsFrom_growth maxRate slabs HR 0 x y O L) as [A B].
  destruct (Qlt_le_dec 0 x) as [P|P].
  - pose proof (taxOnSlabsFrom_growth maxRate slabs HR 0 0 x O ltac:(lra)) as [C _].
    rewrite (taxOnSlabsFrom_below 0 slabs 0) in C by lra.
    repeat split; lra.
  - pose proof (taxOnSlabsFrom_below x slabs 0 P). repeat split; lra.
Qed.

(** X5.  Slab monotonicity.  For a table whose limits do not decrease and
    whose rates lie between 0 and [maxRate], the slab tax is never
    negative, never decreases when the income grows, and grows by at most
    [maxRate] per rupee.  The five income-tax tables are such tables, with
    a highest rate of 30%. *)
Theorem slab_tax_monotone (slabs : list Slab) (maxRate x y : Q) :
  orderedSlabs 0 maxRate slabs = true -> 0 <= maxRate -> x <= y ->
  0 <= computeTaxOnSlabs x slabs /\
  computeTaxOnSlabs x slabs <= computeTaxOnSlabs y slabs /\
  computeTaxOnSlabs y slabs - computeTaxOnSlabs x slabs <= maxRate * (y - x).
Proof. exact (taxOnSlabs_bounds slabs maxRate x y). Qed.

(** The property for the old-regime table below 60, between 4,00,000 and
    12,00,000. *)
Lemma slab_tax_monotone_witness :
  orderedSlabs 0 0.30 OLD_REGIME_SLABS_BELOW_60 = true /\ 0 <= 0.30 /\
  400000 <= 1200000 /\
  0 <= computeTaxOnSlabs 400000 OLD_REGIME_SLABS_BELOW_60 /\
  computeTaxOnSlabs 400000 OLD_REGIME_SLABS_BELOW_60
    <= computeTaxOnSlabs 1200000 OLD_REGIME_SLABS_BELOW_60 /\
  computeTaxOnSlabs 1200000 OLD_REGIME_SLABS_BELOW_60
    - computeTaxOnSlabs 400000 OLD_REGIME_SLABS_BELOW_60
    <= 0.30 * (1200000 - 400000).
Proof.
  assert (A : orderedSlabs 0 0.30 OLD_REGIME_SLABS_BELOW_60 = true) by reflexivity.
  assert (B : 0 <= 0.30) by (vm_compute; discriminate).
  assert (C : 400000 <= 1200000) by (vm_compute; discriminate).
  split; [exact A|]. split; [exact B|]. split; [exact C|].
  exact (slab_tax_monotone OLD_REGIME_SLABS_BELOW_60 0.30 400000 1200000 A B C).
Defined.

(* ------------------------------------------------------------------ *)
(** ** The marginal rate                                                *)
(* ------------------------------------------------------------------ *)

(** No finite limit of the table lies strictly between [x] and [y]. *)
Lemma same_slab_cons (x y u : Q) (r : Q) (rest : list Slab) :
  Forall (fun l => l <= x \/ y <= l) (thresholds ((Fin u, r) :: rest)) ->
  (u <= x \/ y <= u) /\ Forall (fun l => l <= x \/ y <= l) (thresholds rest).
Proof. cbn [thresholds]. intro H. inversion H; subst. auto. Qed.

Lemma marginalRateFrom_slope (R : Q) (slabs : list Slab) :
  forall p x y rate,
    orderedSlabs p R slabs = true -> openEnded slabs = true ->
    p <= x -> x <= y ->
    Forall (fun l => l <= x \/ y <= l) (thresholds slabs) ->
    taxOnSlabsFrom y slabs 0 p - taxOnSlabsFrom x slabs 0 p
    == marginalRateFrom y slabs rate * (y - x).
Proof.
  induction slabs as [|[[u|] r] rest IH]; intros p x y rate O E Px L S.
  - discriminate E.
  - apply orderedSlabs_fin in O. destruct O as (Hu & _ & _ & O).
    cbn [openEnded] in E. apply same_slab_cons in S. destruct S as [Su S].
    cbn [marginalRateFrom leLimit].
    destruct (Qlt_le_dec u y) as [Uy|Uy].
    + (* the income is above this slab: so is the lower one *)
      assert (Ux : u <= x) by lra.
      rewrite (proj2 (le_false_iff y u)) by exact Uy.
      rewrite (taxOnSlabsFrom_fin y) by lra.
      destruct (min_cases y u) as [[M1 M2]|[M1 M2]]; [lra|]. rewrite M2.
      rewrite <- (IH u x y r O E Ux L S).
      destruct (Qlt_le_dec p x) as [Q|Q].
      * rewrite (taxOnSlabsFrom_fin x) by exact Q.
        destruct (min_cases x u) as [[N1 N2]|[N1 N2]]; rewrite N2.
        -- assert (X : x - p == u - p) by lra. rewrite X. lra.
        -- lra.
      * rewrite (taxOnSlabsFrom_below x _ p) by lra.
        rewrite (taxOnSlabsFrom_below x rest u) by lra.
        assert (X : u - p == 0) by lra. rewrite X. lra.
    + rewrite (proj2 (le_true_iff y u)) by exact Uy.
      destruct (Qlt_le_dec p y) as [Py|Py].
      * rewrite (taxOnSlabsFrom_fin y) by exact Py.
        rewrite (taxOnSlabsFrom_below y rest u) by lra.
        destruct (min_cases y u) as [[M1 M2]|[M1 M2]]; [|lra]. rewrite M2.
        destruct (Qlt_le_dec p x) as [Q|Q].
        -- rewrite (taxOnSlabsFrom_fin x) by exact Q.
           rewrite (taxOnSlabsFrom_below x rest u) by lra.
           destruct (min_cases x u) as [[N1 N2]|[N1 N2]]; [|lra]. rewrite N2. lra.
        -- rewrite (taxOnSlabsFrom_below x _ p) by lra.
           assert (X : y - p == y - x) by lra. rewrite X. lra.
      * rewrite !taxOnSlabsFrom_below by lra.
        assert (X : y - x == 0) by lra. rewrite X. lra.
  - cbn [marginalRateFrom leLimit].
    destruct (Qlt_le_dec p y) as [Py|Py].
    + rewrite (taxOnSlabsFrom_open y) by exact Py.
      destruct (Qlt_le_dec p x) as [Q|Q].
      * rewrite (taxOnSlabsFrom_open x) by exact Q. lra.
      * rewrite (taxOnSlabsFrom_below x _ p) by lra.
        assert (X : y - p == y - x) by lra. rewrite X. lra.
    + rewrite !taxOnSlabsFrom_below by lra.
      assert (X : y - x == 0) by lra. rewrite X. lra.
Qed.

Lemma marginalSlabs_cases (regime fy ageCategory : string) :
  In (marginalSlabs regime fy ageCategory) incomeTaxTables.
Proof.
  unfold marginalSlabs, incomeTaxTables. cbn [In].
  destruct (String.eqb regime "new");
    [destruct (String.eqb fy "2025-26")
    | destruct (String.eqb ageCategory "super_senior");
      [|destruct (String.eqb ageCategory "senior")]]; auto 6.
Qed.

(** X6.  The marginal rate is the tax saved per rupee.  For a deduction
    [d] that does not take the income [x] across a limit of the table that
    [getMarginalRate] selects, the slab tax falls by exactly [d] times the
    marginal rate at [x]. *)
Theorem marginal_rate_is_tax_saved_per_rupee
    (regime fy ageCategory : string) (x d : Q) :
  let slabs := marginalSlabs regime fy ageCategory in
  0 <= d -> 0 <= x - d ->
  Forall (fun limit => limit <= x - d \/ x <= limit) (thresholds slabs) ->
  computeTaxOnSlabs x slabs - computeTaxOnSlabs (x - d) slabs
  == getMarginalRate x regime fy ageCategory * d.
Proof.
  intros slabs Hd Hx S. unfold computeTaxOnSlabs, getMarginalRate. fold slabs.
  destruct (incomeTaxTables_ordered slabs (marginalSlabs_cases _ _ _)) as [O E].
  rewrite (marginalRateFrom_slope 0.30 slabs 0 (x - d) x 0 O E Hx ltac:(lra) S).
  lra.
Qed.

(** A deduction of 1,50,000 at an old-regime income of 12,07,600. *)
Lemma marginal_rate_is_tax_saved_per_rupee_witness :
  let slabs := marginalSlabs "old" "2024-25" "below_60" in
  0 <= 150000 /\ 0 <= 1207600 - 150000 /\
  Forall (fun limit => limit <= 1207600 - 150000 \/ 1207600 <= limit)
    (thresholds slabs) /\
  computeTaxOnSlabs 1207600 slabs - computeTaxOnSlabs (1207600 - 150000) slabs
  == getMarginalRate 1207600 "old" "2024-25" "below_60" * 150000.
Proof.
  assert (A : 0 <= 150000) by (vm_compute; discriminate).
  assert (B : 0 <= 1207600 - 150000) by (vm_compute; discriminate).
  assert (C : Forall (fun limit => limit <= 1207600 - 150000 \/ 1207600 <= limit)
                (thresholds (marginalSlabs "old" "2024-25" "below_60"))).
  { repeat (apply Forall_cons; [left; vm_compute; discriminate|]).
    apply Forall_nil. }
  split; [exact A|]. split; [exact B|]. split; [exact C|].
  exact (marginal_rate_is_tax_saved_per_rupee "old" "2024-25" "below_60"
           1207600 150000 A B C).
Defined.

Lemma marginalRateFrom_range (R : Q) (slabs : list Slab) :
  forall p x rate,
    orderedSlabs p R slabs = true -> 0 <= rate -> rate <= R ->
    0 <= marginalRateFrom x slabs rate /\ marginalRateFrom x slabs rate <= R.
Proof.
  induction slabs as [|[[u|] r] rest IH]; intros p x rate O R0 R1;
    cbn [marginalRateFrom leLimit].
  - auto.
  - apply orderedSlabs_fin in O. destruct O as (_ & A & B & O).
    destruct (x <=? u); [auto|]. exact (IH u x r O A B).
  - apply orderedSlabs_open in O. exact O.
Qed.

Lemma marginalRate_range (x : Q) (regime fy ageCategory : string) :
  0 <= getMarginalRate x regime fy ageCategory /\
  getMarginalRate x regime fy ageCategory <= 0.30.
Proof.
  unfold getMarginalRate.
  destruct (incomeTaxTables_ordered _ (marginalSlabs_cases regime fy ageCategory))
    as [O _].
  apply (marginalRateFrom_range 0.30 _ 0 x 0 O); lra.
Qed.

(* ------------------------------------------------------------------ *)
(** ** Rebate and surcharge over all incomes                            *)
(* ------------------------------------------------------------------ *)

Lemma apply87aRebate_nonneg (tax income : Q) (regime fy : string) :
  0 <= tax -> 0 <= apply87aRebate tax income regime fy.
Proof.
  intro H. unfold apply87aRebate.
  destruct (rebateInfo regime fy) as [info|]; [|exact H].
  destruct (income <=? income_limit info); [|exact H].
  pose proof (min_le_l tax (max_rebate info)).
  assert (Z : (0 <= Js.round (tax - Js.min tax (max_rebate info)))%Z)
    by (apply round_nonneg; lra).
  rewrite Zle_Qle in Z. exact Z.
Qed.

(** At or below the ceiling a tax within the maximum rebate is wiped out. *)
Lemma apply87aRebate_wipes (tax income : Q) (regime fy : string) (info : RebateInfo) :
  rebateInfo regime fy = Some info -> income <= income_limit info ->
  tax <= max_rebate info ->
  apply87aRebate tax income regime fy = inject_Z 0.
Proof.
  intros E L M. unfold apply87aRebate. rewrite E.
  rewrite (proj2 (le_true_iff _ _) L).
  unfold Js.min. rewrite (proj2 (le_true_iff _ _) M).
  now rewrite round_self_sub.
Qed.

Lemma surchargeSlab_first (x : Q) (slabs : list Slab) :
  In slabs [SURCHARGE_SLABS_OLD; SURCHARGE_SLABS_NEW] -> x <= 5000000 ->
  surchargeSlab x slabs 0 0 0 = (0.00, 0, 0).
Proof.
  intros [<- | [<- | []]] H; cbn [surchargeSlab SURCHARGE_SLABS_OLD SURCHARGE_SLABS_NEW];
    now rewrite (proj2 (le_true_iff _ _) H).
Qed.

Lemma getSurcharge_first (x b : Q) (slabs taxSlabs : list Slab) :
  In slabs [SURCHARGE_SLABS_OLD; SURCHARGE_SLABS_NEW] -> x <= 5000000 ->
  getSurcharge x b slabs taxSlabs = 0%Z.
Proof.
  intros I H. unfold getSurcharge. now rewrite (surchargeSlab_first x slabs I H).
Qed.

(** The rate of the surcharge slab of an income. *)
Lemma surchargeSlab_rate (x : Q) (slabs : list Slab) (cap : Q) :
  (slabs = SURCHARGE_SLABS_OLD /\ cap = 0.37) \/
  (slabs = SURCHARGE_SLABS_NEW /\ cap = 0.25) ->
  0 <= fst (fst (surchargeSlab x slabs 0 0 0)) /\
  fst (fst (surchargeSlab x slabs 0 0 0)) <= cap.
Proof.
  intros [[-> ->] | [-> ->]];
    cbn [surchargeSlab SURCHARGE_SLABS_OLD SURCHARGE_SLABS_NEW];
    repeat match goal with
    | |- context [Js.le ?a ?b] => destruct (Js.le a b)
    end; cbn [fst]; split; vm_compute; discriminate.
Qed.

(** The surcharge is never negative and never above the raw one. *)
Lemma getSurcharge_le_raw (x b : Q) (slabs taxSlabs : list Slab) :
  0 <= b -> 0 <= fst (fst (surchargeSlab x slabs 0 0 0)) ->
  (0 <= getSurcharge x b slabs taxSlabs)%Z /\
  (getSurcharge x b slabs taxSlabs
   <= Js.round (b * fst (fst (surchargeSlab x slabs 0 0 0))))%Z.
Proof.
  intros Hb. unfold getSurcharge.
  destruct (surchargeSlab x slabs 0 0 0) as [[rate pt] pr]. cbn [fst]. intro Hr.
  assert (P : 0 <= b * rate) by nra.
  destruct (rate =? 0).
  - split; [lia | now apply round_nonneg].
  - match goal with
    | |- context [if ?c then _ else _] => destruct c eqn:R
    end.
    + apply lt_true_iff in R. split.
      * apply round_nonneg. apply max_ge_r.
      * apply round_mono. apply max_lub; lra.
    + split; [now apply round_nonneg | lia].
Qed.

Lemma newRegimeSlabs_cases (fy : string) :
  newRegimeSlabs fy = NEW_REGIME_SLABS_FY2025_26 \/
  newRegimeSlabs fy = NEW_REGIME_SLABS_FY2024_25.
Proof. unfold newRegimeSlabs. destruct (String.eqb fy "2025-26"); auto. Qed.

Lemma newRegimeSlabs_table (fy : string) : In (newRegimeSlabs fy) incomeTaxTables.
Proof.
  unfold incomeTaxTables. cbn [In].
  destruct (newRegimeSlabs_cases fy) as [-> | ->]; auto.
Qed.

Lemma oldRegimeSlabs_table (ageCategory : string) :
  In (oldRegimeSlabs ageCategory) incomeTaxTables.
Proof.
  unfold incomeTaxTables. cbn [In].
  destruct (oldRegimeSlabs_cases ageCategory) as [-> | [-> | ->]]; auto 6.
Qed.

Lemma table_tax_nonneg (slabs : list Slab) (x : Q) :
  In slabs incomeTaxTables -> 0 <= computeTaxOnSlabs x slabs.
Proof.
  intro I. destruct (incomeTaxTables_ordered slabs I) as [O _].
  apply (taxOnSlabs_bounds slabs 0.30 x x O); lra.
Qed.

Lemma table_tax_mono (slabs : list Slab) (x y : Q) :
  In slabs incomeTaxTables -> x <= y ->
  computeTaxOnSlabs x slabs <= computeTaxOnSlabs y slabs.
Proof.
  intros I L. destruct (incomeTaxTables_ordered slabs I) as [O _].
  apply (taxOnSlabs_bounds slabs 0.30 x y O); lra.
Qed.

(** X7.  Surcharge caps.  Under either regime the surcharge is never
    negative, is 0 up to a taxable income of 50,00,000, and never exceeds
    the rounded top rate of its table applied to the tax after rebate:
    25% under the new regime, 37% under the old one. *)
Theorem surcharge_caps (x : Q) (fy ageCategory : string) :
  let n := calculateNewRegimeTax x fy in
  let o := calculateOldRegimeTax x fy ageCategory in
  (0 <= surcharge n <= Js.round (tax_after_rebate n * 0.25))%Z /\
  (0 <= surcharge o <= Js.round (tax_after_rebate o * 0.37))%Z /\
  (x <= 5000000 -> surcharge n = 0%Z /\ surcharge o = 0%Z).
Proof.
  intros n o. unfold n, o, calculateNewRegimeTax, calculateOldRegimeTax.
  cbn [surcharge tax_after_rebate].
  set (bn := apply87aRebate (computeTaxOnSlabs x (newRegimeSlabs fy)) x "new" fy).
  set (bo := apply87aRebate (computeTaxOnSlabs x (oldRegimeSlabs ageCategory)) x "old" fy).
  assert (Bn : 0 <= bn)
    by (apply apply87aRebate_nonneg, table_tax_nonneg, newRegimeSlabs_table).
  assert (Bo : 0 <= bo)
    by (apply apply87aRebate_nonneg, table_tax_nonneg, oldRegimeSlabs_table).
  destruct (surchargeSlab_rate x SURCHARGE_SLABS_NEW 0.25) as [N0 N1]; [auto|].
  destruct (surchargeSlab_rate x SURCHARGE_SLABS_OLD 0.37) as [O0 O1]; [auto|].
  destruct (getSurcharge_le_raw x bn SURCHARGE_SLABS_NEW (newRegimeSlabs fy) Bn N0)
    as [N2 N3].
  destruct (getSurcharge_le_raw x bo SURCHARGE_SLABS_OLD (oldRegimeSlabs ageCategory)
              Bo O0) as [O2 O3].
  assert (N4 : (Js.round (bn * fst (fst (surchargeSlab x SURCHARGE_SLABS_NEW 0 0 0)))
                <= Js.round (bn * 0.25))%Z) by (apply round_mono; nra).
  assert (O4 : (Js.round (bo * fst (fst (surchargeSlab x SURCHARGE_SLABS_OLD 0 0 0)))
                <= Js.round (bo * 0.37))%Z) by (apply round_mono; nra).
  repeat split; try lia.
  - apply getSurcharge_first; [right; left; reflexivity | assumption].
  - apply getSurcharge_first; [left; reflexivity | assumption].
Qed.

(** X8.  No tax up to the rebate ceiling.  For a financial year with an
    87A entry, a taxable income at or below the ceiling of the regime
    (new: 7,00,000 in FY 2024-25 and 12,00,000 in FY 2025-26; old:
    5,00,000, for every age category) pays no tax at all: the rebate wipes
    the slab tax out and the total tax is 0. *)
Theorem no_tax_up_to_rebate_ceiling (income : Q) (fy ageCategory : string) :
  (forall info, rebateInfo "new" fy = Some info -> income <= income_limit info ->
     let r := calculateNewRegimeTax income fy in
     tax_after_rebate r == 0 /\ surcharge r = 0%Z /\ cess r = 0%Z /\
     total_tax r = 0%Z) /\
  (forall info, rebateInfo "old" fy = Some info -> income <= income_limit info ->
     let r := calculateOldRegimeTax income fy ageCategory in
     tax_after_rebate r == 0 /\ surcharge r = 0%Z /\ cess r = 0%Z /\
     total_tax r = 0%Z).
Proof.
  split; intros info E L r; unfold r, calculateNewRegimeTax, calculateOldRegimeTax;
    cbn [tax_after_rebate surcharge cess total_tax].
  - assert (M : computeTaxOnSlabs income (newRegimeSlabs fy) <= max_rebate info).
    { pose proof (table_tax_mono (newRegimeSlabs fy) income (income_limit info)
                    (newRegimeSlabs_table fy) L) as T.
      apply rebateInfo_cases in E.
      destruct E as [(_ & D & _) | [(-> & _ & ->) | [(_ & D & _) | (-> & _ & ->)]]];
        try discriminate D;
        (eapply Qle_trans; [exact T | vm_compute; discriminate]). }
    assert (I5 : income <= 5000000).
    { apply rebateInfo_cases in E.
      destruct E as [(_ & _ & ->) | [(_ & _ & ->) | [(_ & _ & ->) | (_ & _ & ->)]]];
        cbn [income_limit] in L; lra. }
    rewrite !(apply87aRebate_wipes _ income "new" fy info E L M).
    rewrite getSurcharge_first by (auto; right; left; reflexivity).
    repeat split; reflexivity.
  - assert (M : computeTaxOnSlabs income (oldRegimeSlabs ageCategory) <= max_rebate info).
    { pose proof (table_tax_mono (oldRegimeSlabs ageCategory) income (income_limit info)
                    (oldRegimeSlabs_table ageCategory) L) as T.
      apply rebateInfo_cases in E.
      destruct E as [(_ & _ & ->) | [(_ & D & _) | [(_ & _ & ->) | (_ & D & _)]]];
        try discriminate D;
        destruct (oldRegimeSlabs_cases ageCategory) as [W | [W | W]];
        rewrite W in *;
        (eapply Qle_trans; [exact T | vm_compute; discriminate]). }
    assert (I5 : income <= 5000000).
    { apply rebateInfo_cases in E.
      destruct E as [(_ & _ & ->) | [(_ & _ & ->) | [(_ & _ & ->) | (_ & _ & ->)]]];
        cbn [income_limit] in L; lra. }
    rewrite !(apply87aRebate_wipes _ income "old" fy info E L M).
    rewrite getSurcharge_first by (auto; left; reflexivity).
    repeat split; reflexivity.
Qed.

(* ------------------------------------------------------------------ *)
(** ** Marginal relief for every table                                  *)
(* ------------------------------------------------------------------ *)

Lemma apply87aRebate_beyond (tax income : Q) (regime fy : string) :
  1200000 < income -> apply87aRebate tax income regime fy = tax.
Proof.
  intro H. destruct (rebateInfo regime fy) as [info|] eqn:E.
  - apply (apply87aRebate_above _ _ _ _ info E).
    apply rebateInfo_cases in E.
    destruct E as [(_ & _ & ->) | [(_ & _ & ->) | [(_ & _ & ->) | (_ & _ & ->)]]];
      cbn [income_limit]; lra.
  - unfold apply87aRebate. now rewrite E.
Qed.

Lemma preCessTotal_new_beyond (x : Q) (fy : string) :
  1200000 < x ->
  preCessTotal (calculateNewRegimeTax x fy)
  = tableTotal SURCHARGE_SLABS_NEW (newRegimeSlabs fy) x.
Proof.
  intro H. unfold preCessTotal, calculateNewRegimeTax, tableTotal.
  cbn [tax_after_rebate surcharge]. now rewrite !apply87aRebate_beyond.
Qed.

Lemma preCessTotal_old_beyond (x : Q) (fy ageCategory : string) :
  1200000 < x ->
  preCessTotal (calculateOldRegimeTax x fy ageCategory)
  = tableTotal SURCHARGE_SLABS_OLD (oldRegimeSlabs ageCategory) x.
Proof.
  intro H. unfold preCessTotal, calculateOldRegimeTax, tableTotal.
  cbn [tax_after_rebate surcharge]. now rewrite !apply87aRebate_beyond.
Qed.

Lemma surchargeSlab_old_cases (x : Q) :
  5000000 < x ->
  (x <= 10000000 /\
   surchargeSlab x SURCHARGE_SLABS_OLD 0 0 0 = (0.10, 5000000, 0.00)) \/
  (10000000 < x /\ x <= 20000000 /\
   surchargeSlab x SURCHARGE_SLABS_OLD 0 0 0 = (0.15, 10000000, 0.10)) \/
  (20000000 < x /\ x <= 50000000 /\
   surchargeSlab x SURCHARGE_SLABS_OLD 0 0 0 = (0.25, 20000000, 0.15)) \/
  (50000000 < x /\
   surchargeSlab x SURCHARGE_SLABS_OLD 0 0 0 = (0.37, 50000000, 0.25)).
Proof.
  intro H. unfold SURCHARGE_SLABS_OLD. cbn [surchargeSlab].
  destruct (Qlt_le_dec 10000000 x); [|left; split; [lra | decide_le; reflexivity]].
  destruct (Qlt_le_dec 20000000 x);
    [|right; left; repeat split; try lra; decide_le; reflexivity].
  destruct (Qlt_le_dec 50000000 x);
    [|right; right; left; repeat split; try lra; decide_le; reflexivity].
  right; right; right. split; [lra | decide_le; reflexivity].
Qed.

Lemma surchargeSlab_new_cases (x : Q) :
  5000000 < x ->
  (x <= 10000000 /\
   surchargeSlab x SURCHARGE_SLABS_NEW 0 0 0 = (0.10, 5000000, 0.00)) \/
  (10000000 < x /\ x <= 20000000 /\
   surchargeSlab x SURCHARGE_SLABS_NEW 0 0 0 = (0.15, 10000000, 0.10)) \/
  (20000000 < x /\ x <= 50000000 /\
   surchargeSlab x SURCHARGE_SLABS_NEW 0 0 0 = (0.25, 20000000, 0.15)) \/
  (50000000 < x /\
   surchargeSlab x SURCHARGE_SLABS_NEW 0 0 0 = (0.25, 50000000, 0.25)).
Proof.
  intro H. unfold SURCHARGE_SLABS_NEW. cbn [surchargeSlab].
  destruct (Qlt_le_dec 10000000 x); [|left; split; [lra | decide_le; reflexivity]].
  destruct (Qlt_le_dec 20000000 x);
    [|right; left; repeat split; try lra; decide_le; reflexivity].
  destruct (Qlt_le_dec 50000000 x);
    [|right; right; left; repeat split; try lra; decide_le; reflexivity].
  right; right; right. split; [lra | decide_le; reflexivity].
Qed.

(** Above the lower threshold of its surcharge slab, tax plus surcharge is
    at most the total at that threshold (at the rate of the slab below)
    plus the income above it, up to the rounding of the surcharge. *)
Lemma tableTotal_capped (surchargeSlabs taxSlabs : list Slab) (x rate pt pr : Q) :
  In taxSlabs incomeTaxTables ->
  surchargeSlab x surchargeSlabs 0 0 0 = (rate, pt, pr) ->
  pt <= x -> 0 <= pr ->
  tableTotal surchargeSlabs taxSlabs x
  <= computeTaxOnSlabs pt taxSlabs + computeTaxOnSlabs pt taxSlabs * pr
     + (x - pt) + (1 # 2).
Proof.
  intros I E L P. unfold tableTotal.
  apply (getSurcharge_capped x _ surchargeSlabs taxSlabs rate pt pr E).
  destruct (incomeTaxTables_ordered taxSlabs I) as [O _].
  destruct (taxOnSlabs_bounds taxSlabs 0.30 pt x O ltac:(lra) L) as (A & _ & C).
  assert (0 <= computeTaxOnSlabs pt taxSlabs * pr) by (apply Qmult_le_0_compat; lra).
  lra.
Qed.

Ltac relief_case I E :=
  match goal with
  | |- tableTotal ?S ?slabs (?T + ?d) <= _ =>
      match type of E with
      | _ = (?rate, ?pt, ?pr) =>
          let G := fresh "G" in
          let C := fresh "C" in
          pose proof (tableTotal_capped S slabs (T + d) rate pt pr I E
                        ltac:(lra) ltac:(vm_compute; discriminate)) as G;
          assert (C : computeTaxOnSlabs pt slabs + computeTaxOnSlabs pt slabs * pr - pt
                      <= tableTotal S slabs T - T)
            by (vm_compute; discriminate);
          lra
      end
  end.

(** X9.  Marginal relief up to rounding, for every regime, financial year
    and age category: for every threshold [T] of the regime's surcharge
    table and every [delta > 0], tax after rebate plus surcharge at
    [T + delta] is at most the same total at [T] plus [delta] plus half a
    rupee. *)
Theorem marginal_relief_every_table (fy ageCategory : string) (T delta : Q) :
  0 < delta ->
  (In T (thresholds SURCHARGE_SLABS_NEW) ->
   preCessTotal (calculateNewRegimeTax (T + delta) fy)
   <= preCessTotal (calculateNewRegimeTax T fy) + delta + (1 # 2)) /\
  (In T (thresholds SURCHARGE_SLABS_OLD) ->
   preCessTotal (calculateOldRegimeTax (T + delta) fy ageCategory)
   <= preCessTotal (calculateOldRegimeTax T fy ageCategory) + delta + (1 # 2)).
Proof.
  intro Hd. split; intro HT.
  - cbn [thresholds SURCHARGE_SLABS_NEW In] in HT.
    assert (B : 5000000 <= T) by (destruct HT as [<- | [<- | [<- | [<- | []]]]]; lra).
    rewrite !preCessTotal_new_beyond by lra.
    pose proof (newRegimeSlabs_table fy) as I.
    destruct (surchargeSlab_new_cases (T + delta) ltac:(lra))
      as [[U E] | [(L & U & E) | [(L & U & E) | [L E]]]];
      destruct (newRegimeSlabs_cases fy) as [W | W]; rewrite W in *;
      destruct HT as [<- | [<- | [<- | [<- | []]]]];
      try (exfalso; lra); relief_case I E.
  - cbn [thresholds SURCHARGE_SLABS_OLD In] in HT.
    assert (B : 5000000 <= T) by (destruct HT as [<- | [<- | [<- | [<- | []]]]]; lra).
    rewrite !preCessTotal_old_beyond by lra.
    pose proof (oldRegimeSlabs_table ageCategory) as I.
    destruct (surchargeSlab_old_cases (T + delta) ltac:(lra))
      as [[U E] | [(L & U & E) | [(L & U & E) | [L E]]]];
      destruct (oldRegimeSlabs_cases ageCategory) as [W | [W | W]]; rewrite W in *;
      destruct HT as [<- | [<- | [<- | [<- | []]]]];
      try (exfalso; lra); relief_case I E.
Qed.

(** The bound for a senior citizen one lakh above one crore, and under the
    new regime of FY 2025-26. *)
Lemma marginal_relief_every_table_witness :
  0 < 100000 /\
  preCessTotal (calculateNewRegimeTax (10000000 + 100000) "2025-26")
  <= preCessTotal (calculateNewRegimeTax 10000000 "2025-26") + 100000 + (1 # 2) /\
  preCessTotal (calculateOldRegimeTax (10000000 + 100000) "2024-25" "senior")
  <= preCessTotal (calculateOldRegimeTax 10000000 "2024-25" "senior")
     + 100000 + (1 # 2).
Proof.
  assert (H : 0 < 100000) by reflexivity.
  split; [exact H|].
  destruct (marginal_relief_every_table "2025-26" "senior" 10000000 100000 H)
    as [N _].
  destruct (marginal_relief_every_table "2024-25" "senior" 10000000 100000 H)
    as [_ O].
  split; [apply N | apply O]; cbn [thresholds SURCHARGE_SLABS_NEW SURCHARGE_SLABS_OLD In];
    right; left; reflexivity.
Defined.

(* ------------------------------------------------------------------ *)
(** ** Monotonicity of the tax                                          *)
(* ------------------------------------------------------------------ *)

(** At or below a rebate ceiling the slab tax of the regime is within the
    maximum rebate. *)
Lemma rebate_covers_new (fy : string) (info : RebateInfo) (income : Q) :
  rebateInfo "new" fy = Some info -> income <= income_limit info ->
  computeTaxOnSlabs income (newRegimeSlabs fy) <= max_rebate info.
Proof.
  intros E L.
  pose proof (table_tax_mono (newRegimeSlabs fy) income (income_limit info)
                (newRegimeSlabs_table fy) L) as T.
  apply rebateInfo_cases in E.
  destruct E as [(_ & D & _) | [(-> & _ & ->) | [(_ & D & _) | (-> & _ & ->)]]];
    try discriminate D;
    (eapply Qle_trans; [exact T | vm_compute; discriminate]).
Qed.

Lemma rebate_covers_old (fy ageCategory : string) (info : RebateInfo) (income : Q) :
  rebateInfo "old" fy = Some info -> income <= income_limit info ->
  computeTaxOnSlabs income (oldRegimeSlabs ageCategory) <= max_rebate info.
Proof.
  intros E L.
  pose proof (table_tax_mono (oldRegimeSlabs ageCategory) income (income_limit info)
                (oldRegimeSlabs_table ageCategory) L) as T.
  apply rebateInfo_cases in E.
  destruct E as [(_ & _ & ->) | [(_ & D & _) | [(_ & _ & ->) | (_ & D & _)]]];
    try discriminate D;
    destruct (oldRegimeSlabs_cases ageCategory) as [W | [W | W]];
    rewrite W in *;
    (eapply Qle_trans; [exact T | vm_compute; discriminate]).
Qed.

(** The tax after rebate never falls when the income rises, for a table
    whose tax at the ceiling is within the maximum rebate. *)
Lemma apply87aRebate_mono (slabs : list Slab) (regime fy : string) (x y : Q) :
  In slabs incomeTaxTables ->
  (forall info z, rebateInfo regime fy = Some info -> z <= income_limit info ->
     computeTaxOnSlabs z slabs <= max_rebate info) ->
  x <= y ->
  apply87aRebate (computeTaxOnSlabs x slabs) x regime fy
  <= apply87aRebate (computeTaxOnSlabs y slabs) y regime fy.
Proof.
  intros I C L.
  pose proof (table_tax_mono slabs x y I L) as M.
  pose proof (table_tax_nonneg slabs y I) as P.
  destruct (rebateInfo regime fy) as [info|] eqn:E.
  - destruct (Qlt_le_dec (income_limit info) x) as [A|A].
    + rewrite !(apply87aRebate_above _ _ _ _ info E) by lra. exact M.
    + rewrite (apply87aRebate_wipes _ x regime fy info E A (C info x eq_refl A)).
      apply apply87aRebate_nonneg, P.
  - unfold apply87aRebate. rewrite E. exact M.
Qed.

(** The surcharge is the rounding of a value [v] that is within the raw
    surcharge and within the room left under the cap. *)
Lemma getSurcharge_as_round (x b : Q) (surchargeSlabs taxSlabs : list Slab)
    (rate pt pr : Q) :
  surchargeSlab x surchargeSlabs 0 0 0 = (rate, pt, pr) ->
  0 <= b * rate ->
  let t := computeTaxOnSlabs pt taxSlabs in
  exists v, getSurcharge x b surchargeSlabs taxSlabs = Js.round v /\
            0 <= v /\ v <= b * rate /\
            (v <= t + t * pr + (x - pt) - b \/ v == 0).
Proof.
  intros E P t. unfold getSurcharge. rewrite E. fold t.
  destruct (rate =? 0).
  - exists 0. repeat split; try lra; right; reflexivity.
  - match goal with
    | |- context [if ?c then _ else _] => destruct c eqn:R
    end.
    + apply lt_true_iff in R.
      exists (Js.max (t + t * pr + (x - pt) - b) 0). repeat split.
      * apply max_ge_r.
      * apply max_lub; lra.
      * unfold Js.max.
        match goal with
        | |- context [if ?c then _ else _] => destruct c eqn:M
        end; [right; reflexivity | left; lra].
    + apply lt_false_iff in R. exists (b * rate). repeat split; try lra; left; lra.
Qed.

Lemma getSurcharge_at_least (y b v : Q) (surchargeSlabs taxSlabs : list Slab)
    (rate pt pr : Q) :
  surchargeSlab y surchargeSlabs 0 0 0 = (rate, pt, pr) ->
  (rate =? 0) = false ->
  let t := computeTaxOnSlabs pt taxSlabs in
  v <= b * rate -> v <= t + t * pr + (y - pt) - b ->
  (Js.round v <= getSurcharge y b surchargeSlabs taxSlabs)%Z.
Proof.
  intros E Z t A B. unfold getSurcharge. rewrite E, Z. fold t.
  match goal with
  | |- context [if ?c then _ else _] => destruct c
  end; apply round_mono; [|exact A].
  eapply Qle_trans; [exact B | apply max_ge_l].
Qed.

(** One step of the monotonicity of the surcharge: [x] and [y] lie in the
    same surcharge slab, or [y] lies in a higher one. *)
Lemma getSurcharge_mono_step (surchargeSlabs taxSlabs : list Slab) (x y : Q)
    (rx ptx prx ry pty pry : Q) :
  In taxSlabs incomeTaxTables ->
  surchargeSlab x surchargeSlabs 0 0 0 = (rx, ptx, prx) ->
  surchargeSlab y surchargeSlabs 0 0 0 = (ry, pty, pry) ->
  x <= y -> (ry =? 0) = false -> 0 <= rx -> rx <= ry -> 0 <= pry -> pty <= y ->
  ((ptx == pty /\ prx == pry) \/ (x <= pty /\ rx <= pry)) ->
  (getSurcharge x (computeTaxOnSlabs x taxSlabs) surchargeSlabs taxSlabs
   <= getSurcharge y (computeTaxOnSlabs y taxSlabs) surchargeSlabs taxSlabs)%Z.
Proof.
  intros I Ex Ey L Z R0 R1 P0 Py C.
  destruct (incomeTaxTables_ordered taxSlabs I) as [O _].
  assert (H30 : 0 <= 0.30) by (vm_compute; discriminate).
  destruct (taxOnSlabs_bounds taxSlabs 0.30 x y O H30 L) as (Bx & Mxy & Sxy).
  destruct (taxOnSlabs_bounds taxSlabs 0.30 pty y O H30 Py) as (Bp & Mpy & Spy).
  set (bx := computeTaxOnSlabs x taxSlabs) in *.
  set (by_ := computeTaxOnSlabs y taxSlabs) in *.
  assert (Q0 : 0 <= bx * rx) by (apply Qmult_le_0_compat; lra).
  destruct (getSurcharge_as_round x bx surchargeSlabs taxSlabs rx ptx prx Ex Q0)
    as (v & -> & V0 & V1 & V2).
  assert (Q1 : bx * rx <= by_ * ry).
  { apply Qle_trans with (by_ * rx).
    - apply Qmult_le_compat_r; lra.
    - rewrite !(Qmult_comm by_). apply Qmult_le_compat_r; lra. }
  apply (getSurcharge_at_least y by_ v surchargeSlabs taxSlabs ry pty pry Ey Z);
    [lra|].
  set (tp := computeTaxOnSlabs pty taxSlabs) in *.
  assert (Q2 : 0 <= tp * pry) by (apply Qmult_le_0_compat; lra).
  destruct C as [[C1 C2] | [C1 C2]].
  - destruct V2 as [V2 | V2]; [|lra].
    assert (T : computeTaxOnSlabs ptx taxSlabs == tp).
    { unfold tp, computeTaxOnSlabs.
      destruct (Qlt_le_dec ptx pty) as [A|A]; [lra|].
      pose proof (taxOnSlabsFrom_growth 0.30 taxSlabs H30 0 pty ptx O A).
      pose proof (taxOnSlabsFrom_growth 0.30 taxSlabs H30 0 ptx pty O ltac:(lra)).
      lra. }
    rewrite T, C1, C2 in V2. lra.
  - destruct (taxOnSlabs_bounds taxSlabs 0.30 x pty O H30 C1) as (_ & Mxp & _).
    fold bx tp in Mxp.
    assert (Q3 : bx * rx <= tp * pry).
    { apply Qle_trans with (tp * rx).
      - apply Qmult_le_compat_r; lra.
      - rewrite !(Qmult_comm tp). apply Qmult_le_compat_r; lra. }
    lra.
Qed.

Ltac surcharge_mono_case I Ex Ey L :=
  first
    [ exfalso; lra
    | apply (getSurcharge_mono_step _ _ _ _ _ _ _ _ _ _ I Ex Ey L);
      [ reflexivity | lra | lra | lra | lra
      | first [left; split; lra | right; split; lra] ] ].

Lemma getSurcharge_mono_beyond (surchargeSlabs taxSlabs : list Slab) (x y : Q) :
  In surchargeSlabs [SURCHARGE_SLABS_OLD; SURCHARGE_SLABS_NEW] ->
  In taxSlabs incomeTaxTables -> 5000000 < x -> x <= y ->
  (getSurcharge x (computeTaxOnSlabs x taxSlabs) surchargeSlabs taxSlabs
   <= getSurcharge y (computeTaxOnSlabs y taxSlabs) surchargeSlabs taxSlabs)%Z.
Proof.
  intros [<- | [<- | []]] I B L.
  - destruct (surchargeSlab_old_cases x B)
      as [[Ux Ex] | [(Lx & Ux & Ex) | [(Lx & Ux & Ex) | [Lx Ex]]]];
      destruct (surchargeSlab_old_cases y ltac:(lra))
        as [[Uy Ey] | [(Ly & Uy & Ey) | [(Ly & Uy & Ey) | [Ly Ey]]]];
      surcharge_mono_case I Ex Ey L.
  - destruct (surchargeSlab_new_cases x B)
      as [[Ux Ex] | [(Lx & Ux & Ex) | [(Lx & Ux & Ex) | [Lx Ex]]]];
      destruct (surchargeSlab_new_cases y ltac:(lra))
        as [[Uy Ey] | [(Ly & Uy & Ey) | [(Ly & Uy & Ey) | [Ly Ey]]]];
      surcharge_mono_case I Ex Ey L.
Qed.

(** The surcharge on the tax after rebate never falls when the income
    rises. *)
Lemma getSurcharge_mono (surchargeSlabs taxSlabs : list Slab) (regime fy : string)
    (x y : Q) :
  In surchargeSlabs [SURCHARGE_SLABS_OLD; SURCHARGE_SLABS_NEW] ->
  In taxSlabs incomeTaxTables -> x <= y ->
  (getSurcharge x (apply87aRebate (computeTaxOnSlabs x taxSlabs) x regime fy)
     surchargeSlabs taxSlabs
   <= getSurcharge y (apply87aRebate (computeTaxOnSlabs y taxSlabs) y regime fy)
        surchargeSlabs taxSlabs)%Z.
Proof.
  intros S I L. destruct (Qlt_le_dec 5000000 x) as [B|B].
  - rewrite !apply87aRebate_beyond by lra.
    now apply getSurcharge_mono_beyond.
  - rewrite (getSurcharge_first x _ surchargeSlabs taxSlabs S B).
    apply getSurcharge_le_raw.
    + apply apply87aRebate_nonneg, table_tax_nonneg, I.
    + destruct S as [<- | [<- | []]].
      * apply (surchargeSlab_rate y SURCHARGE_SLABS_OLD 0.37). auto.
      * apply (surchargeSlab_rate y SURCHARGE_SLABS_NEW 0.25). auto.
Qed.

(** Cess and total follow the tax after rebate and the surcharge. *)
Lemma cess_total_mono (a a' : Q) (s s' : Z) :
  a <= a' -> (s <= s')%Z ->
  (applyCess (a + inject_Z s) <= applyCess (a' + inject_Z s'))%Z /\
  (Js.round (a + inject_Z s + inject_Z (applyCess (a + inject_Z s)))
   <= Js.round (a' + inject_Z s' + inject_Z (applyCess (a' + inject_Z s'))))%Z.
Proof.
  intros A S. rewrite Zle_Qle in S.
  assert (C : (applyCess (a + inject_Z s) <= applyCess (a' + inject_Z s'))%Z).
  { unfold applyCess, CESS_RATE. apply round_mono. lra. }
  split; [exact C|]. rewrite Zle_Qle in C. apply round_mono. lra.
Qed.

(** The components of the two breakdowns, compared at two incomes. *)
Lemma breakdown_mono (fy ageCategory : string) (x y : Q) :
  x <= y ->
  let n := calculateNewRegimeTax x fy in
  let n' := calculateNewRegimeTax y fy in
  let o := calculateOldRegimeTax x fy ageCategory in
  let o' := calculateOldRegimeTax y fy ageCategory in
  ((base_tax n <= base_tax n')%Z /\ tax_after_rebate n <= tax_after_rebate n' /\
   (surcharge n <= surcharge n')%Z /\ (cess n <= cess n')%Z /\
   (total_tax n <= total_tax n')%Z) /\
  ((base_tax o <= base_tax o')%Z /\ tax_after_rebate o <= tax_after_rebate o' /\
   (surcharge o <= surcharge o')%Z /\ (cess o <= cess o')%Z /\
   (total_tax o <= total_tax o')%Z).
Proof.
  intros L n n' o o'.
  unfold n, n', o, o', calculateNewRegimeTax, calculateOldRegimeTax.
  cbn [base_tax tax_after_rebate surcharge cess total_tax].
  split.
  - pose proof (newRegimeSlabs_table fy) as I.
    pose proof (apply87aRebate_mono (newRegimeSlabs fy) "new" fy x y I
                  (fun info z => rebate_covers_new fy info z) L) as A.
    pose proof (getSurcharge_mono SURCHARGE_SLABS_NEW (newRegimeSlabs fy) "new" fy
                  x y ltac:(right; left; reflexivity) I L) as S.
    destruct (cess_total_mono _ _ _ _ A S) as [C T].
    repeat split; try assumption.
    apply round_mono, table_tax_mono; assumption.
  - pose proof (oldRegimeSlabs_table ageCategory) as I.
    pose proof (apply87aRebate_mono (oldRegimeSlabs ageCategory) "old" fy x y I
                  (fun info z => rebate_covers_old fy ageCategory info z) L) as A.
    pose proof (getSurcharge_mono SURCHARGE_SLABS_OLD (oldRegimeSlabs ageCategory)
                  "old" fy x y ltac:(left; reflexivity) I L) as S.
    destruct (cess_total_mono _ _ _ _ A S) as [C T].
    repeat split; try assumption.
    apply round_mono, table_tax_mono; assumption.
Qed.

(** X10.  More income, never less tax.  Under either regime, for every
    financial year and age category, a higher taxable income never lowers
    the slab tax, the tax after rebate, the surcharge, the cess or the
    total tax. *)
Theorem total_tax_monotone (fy ageCategory : string) (x y : Q) :
  x <= y ->
  let n := calculateNewRegimeTax x fy in
  let n' := calculateNewRegimeTax y fy in
  let o := calculateOldRegimeTax x fy ageCategory in
  let o' := calculateOldRegimeTax y fy ageCategory in
  ((base_tax n <= base_tax n')%Z /\ tax_after_rebate n <= tax_after_rebate n' /\
   (surcharge n <= surcharge n')%Z /\ (cess n <= cess n')%Z /\
   (total_tax n <= total_tax n')%Z) /\
  ((base_tax o <= base_tax o')%Z /\ tax_after_rebate o <= tax_after_rebate o' /\
   (surcharge o <= surcharge o')%Z /\ (cess o <= cess o')%Z /\
   (total_tax o <= total_tax o')%Z).
Proof. exact (breakdown_mono fy ageCategory x y). Qed.

(** Across the rebate ceiling of FY 2025-26 and across the first
    surcharge threshold. *)
Lemma total_tax_monotone_witness :
  1200000 <= 5100000 /\
  (total_tax (calculateNewRegimeTax 1200000 "2025-26")
   <= total_tax (calculateNewRegimeTax 5100000 "2025-26"))%Z /\
  (total_tax (calculateOldRegimeTax 1200000 "2025-26" "senior")
   <= total_tax (calculateOldRegimeTax 5100000 "2025-26" "senior"))%Z.
Proof.
  assert (H : 1200000 <= 5100000) by (vm_compute; discriminate).
  split; [exact H|].
  destruct (total_tax_monotone "2025-26" "senior" 1200000 5100000 H)
    as [(_ & _ & _ & _ & N) (_ & _ & _ & _ & O)].
  split; [exact N | exact O].
Defined.

(* ------------------------------------------------------------------ *)
(** ** Taxable income                                                   *)
(* ------------------------------------------------------------------ *)

Lemma standardDeduction_new (fy : string) : standardDeduction fy "new" 75000 = 75000.
Proof.
  unfold standardDeduction, STANDARD_DEDUCTION. cbn [prop].
  destruct (String.eqb "2024-25" fy); [reflexivity|].
  destruct (String.eqb "2025-26" fy); reflexivity.
Qed.

Lemma standardDeduction_old (fy : string) :
  standardDeduction fy "old" 50000 = if String.eqb fy "2025-26" then 75000 else 50000.
Proof.
  unfold standardDeduction, STANDARD_DEDUCTION. cbn [prop].
  destruct (String.eqb "2024-25" fy) eqn:A.
  - apply String.eqb_eq in A. subst fy. reflexivity.
  - rewrite (String.eqb_sym "2025-26" fy). destruct (String.eqb fy "2025-26"); reflexivity.
Qed.

(** X11.  Taxable income.  For every salary profile and every set of
    what-if overrides: the taxable income of either regime is never
    negative; the standard deduction is 75,000 under the new regime for
    every financial-year string, and under the old regime 75,000 for
    '2025-26' and 50,000 for every other string; the home-loan interest
    deduction is at most 2,00,000 even when overridden; the 80C deduction
    is at most 1,50,000 when it is not overridden, while an override is
    taken as given. *)
Theorem taxable_income_rules (salary : SalaryProfile) (opts : OldRegimeOpts) :
  let b := computeOldRegimeTaxableIncome salary opts in
  0 <= computeNewRegimeTaxableIncome salary /\
  computeNewRegimeTaxableIncome salary
  = Js.max (gross_salary salary - 75000 - professional_tax salary
            - deduction_80ccd_2 salary) 0 /\
  0 <= ob_taxable_income b /\
  ob_standard_deduction b
  = (if String.eqb (financial_year salary) "2025-26" then 75000 else 50000) /\
  ob_deduction_24b b <= 200000 /\
  (total80c opts = None -> ob_deduction_80c b <= 150000) /\
  (forall v, total80c opts = Some v -> ob_deduction_80c b = v).
Proof.
  intro b. unfold b, computeNewRegimeTaxableIncome, computeOldRegimeTaxableIncome.
  cbn [ob_taxable_income ob_standard_deduction ob_deduction_24b ob_deduction_80c].
  rewrite standardDeduction_new, standardDeduction_old.
  repeat split.
  - apply max_ge_r.
  - apply max_ge_r.
  - destruct (total24b opts); apply min_le_r.
  - intros ->. apply min_le_r.
  - intros v ->. reflexivity.
Qed.

Lemma max0_mono (a b : Q) : a <= b -> Js.max a 0 <= Js.max b 0.
Proof.
  intro H. apply max_lub; [|apply max_ge_r].
  eapply Qle_trans; [exact H | apply max_ge_l].
Qed.

(** X12.  A what-if with more deductions never costs more.  For one
    salary profile and two sets of overrides, when the second yields at
    least the HRA exemption and at least the Chapter VI-A total of the
    first, its old-regime taxable income and the total tax on it are at
    most those of the first, for every financial year and age category. *)
Theorem more_deductions_never_more_tax (salary : SalaryProfile)
    (o o' : OldRegimeOpts) (fy ageCategory : string) :
  let b := computeOldRegimeTaxableIncome salary o in
  let b' := computeOldRegimeTaxableIncome salary o' in
  ob_hra_exemption b <= ob_hra_exemption b' ->
  total_vi_a b <= total_vi_a b' ->
  gross_total_income b' <= gross_total_income b /\
  ob_taxable_income b' <= ob_taxable_income b /\
  (total_tax (calculateOldRegimeTax (ob_taxable_income b') fy ageCategory)
   <= total_tax (calculateOldRegimeTax (ob_taxable_income b) fy ageCategory))%Z.
Proof.
  intros b b' H V.
  assert (G : gross_total_income b' <= gross_total_income b).
  { unfold b, b', computeOldRegimeTaxableIncome in *.
    cbn [gross_total_income ob_hra_exemption] in *. lra. }
  assert (T : ob_taxable_income b' <= ob_taxable_income b).
  { unfold b, b', computeOldRegimeTaxableIncome in *.
    cbn [gross_total_income ob_taxable_income total_vi_a] in *.
    apply max0_mono. lra. }
  repeat split; try assumption.
  apply (breakdown_mono fy ageCategory _ _ T).
Qed.

(** Priya's profile as filed, against the same profile with 80C filled up
    to the limit. *)
Lemma more_deductions_never_more_tax_witness :
  (total_tax (calculateOldRegimeTax
                (ob_taxable_income
                   (computeOldRegimeTaxableIncome priyaProfile
                      (mkOldRegimeOpts None (Some LIMIT_80C) None None None)))
                "2024-25" "below_60")
   <= total_tax (calculateOldRegimeTax
                   (ob_taxable_income
                      (computeOldRegimeTaxableIncome priyaProfile noOverrides))
                   "2024-25" "below_60"))%Z.
Proof.
  apply (more_deductions_never_more_tax priyaProfile noOverrides
           (mkOldRegimeOpts None (Some LIMIT_80C) None None None)
           "2024-25" "below_60");
    vm_compute; discriminate.
Defined.

(* ------------------------------------------------------------------ *)
(** ** Ceilings on the savings of the checks                            *)
(* ------------------------------------------------------------------ *)

(** An estimate [round(amount * marginal * (1 + CESS_RATE))] for an amount
    within [cap] at a marginal rate of the tables. *)
Lemma estimate_le (amount cap : Q) (x : Q) (regime fy ageCategory : string) :
  amount <= cap -> 0 <= cap ->
  (Js.round (amount * getMarginalRate x regime fy ageCategory * (1 + CESS_RATE))
   <= Js.round (cap * 0.312))%Z.
Proof.
  intros A C. apply round_mono. unfold CESS_RATE.
  destruct (marginalRate_range x regime fy ageCategory) as [M0 M1].
  set (m := getMarginalRate x regime fy ageCategory) in *.
  assert (P : amount * m <= cap * 0.30).
  { apply Qle_trans with (cap * m).
    - apply Qmult_le_compat_r; assumption.
    - rewrite !(Qmult_comm cap). apply Qmult_le_compat_r; assumption. }
  lra.
Qed.

(** The ceilings of the five deduction checks. *)
Lemma deduction_savings_bounds (salary : SalaryProfile) (opts : CheckOpts) :
  (0 <= deduction_80c salary + deduction_80ccc salary + deduction_80ccd_1 salary ->
   (savings (check80c salary) <= 46800)%Z) /\
  (0 <= deduction_80ccd_1b salary -> (savings (checkNps salary) <= 15600)%Z) /\
  (0 <= deduction_80d salary ->
   (savings (check80d salary opts)
    <= Js.round ((selfLimit80d opts + parentsLimit80d opts) * 0.312))%Z /\
   (savings (check80d salary opts) <= 31200)%Z) /\
  savings (checkHomeLoan salary) = 0%Z /\
  savings (checkHra salary) = 0%Z.
Proof.
  repeat apply conj.
  - intro H. unfold check80c. split_finding; [lia|].
    change 46800%Z with (Js.round (LIMIT_80C * 0.312)).
    apply estimate_le; [|vm_compute; discriminate].
    apply max_lub; [|vm_compute; discriminate].
    assert (0 <= Js.min (deduction_80c salary + deduction_80ccc salary
                         + deduction_80ccd_1 salary) LIMIT_80C)
      by (apply min_glb; [exact H | vm_compute; discriminate]).
    lra.
  - intro H. unfold checkNps. split_finding; [lia|].
    change 15600%Z with (Js.round (LIMIT_80CCD_1B * 0.312)).
    apply estimate_le; [|vm_compute; discriminate].
    apply max_lub; [lra | vm_compute; discriminate].
  - intro H.
    assert (L : 0 <= selfLimit80d opts + parentsLimit80d opts
                /\ selfLimit80d opts + parentsLimit80d opts <= 100000
                /\ parentsLimit80d opts <= selfLimit80d opts + parentsLimit80d opts).
    { unfold selfLimit80d, parentsLimit80d.
      destruct (orFalse (selfSenior opts)), (orFalse (parentsSenior opts));
        repeat split; vm_compute; discriminate. }
    destruct L as (L0 & L1 & L2).
    assert (B : (savings (check80d salary opts)
                 <= Js.round ((selfLimit80d opts + parentsLimit80d opts) * 0.312))%Z).
    { unfold check80d. split_finding.
      - apply round_nonneg. lra.
      - apply estimate_le; [|exact L0].
        destruct (deduction_80d salary =? 0); lra. }
    split; [exact B|].
    eapply Z.le_trans; [exact B|].
    change 31200%Z with (Js.round (100000 * 0.312)). apply round_mono. lra.
  - unfold checkHomeLoan. split_finding; reflexivity.
  - unfold checkHra. split_finding; reflexivity.
Qed.

(** X13.  Ceilings on the estimated savings.  For a salary whose claimed
    deductions are not negative: the 80C check never reports more than
    46,800 and the NPS check never more than 15,600; the 80D check never
    reports more than 31.2% of the combined limit it works with, hence at
    most 31,200.  The home-loan and HRA checks always report savings 0. *)
Theorem deduction_savings_ceilings (salary : SalaryProfile) (opts : CheckOpts) :
  (0 <= deduction_80c salary + deduction_80ccc salary + deduction_80ccd_1 salary ->
   (savings (check80c salary) <= 46800)%Z) /\
  (0 <= deduction_80ccd_1b salary -> (savings (checkNps salary) <= 15600)%Z) /\
  (0 <= deduction_80d salary ->
   (savings (check80d salary opts)
    <= Js.round ((selfLimit80d opts + parentsLimit80d opts) * 0.312))%Z /\
   (savings (check80d salary opts) <= 31200)%Z) /\
  savings (checkHomeLoan salary) = 0%Z /\
  savings (checkHra salary) = 0%Z.
Proof. exact (deduction_savings_bounds salary opts). Qed.

(** X14.  The capital-gains check and the exemption.  The savings it
    reports never exceed 13% (12.5% plus cess) of the exemption left after
    the gains already realized this year, hence are 0 once 1,25,000 have
    been realized and at most 16,250 when the realized gains are not
    negative; without holdings the check is not applicable. *)
Theorem capital_gains_savings_ceiling (today : Date) (hs : Holdings)
    (asOf : option Date) :
  let f := checkCapitalGains today hs asOf in
  (savings f <= Js.round (Js.max (LTCG_EXEMPTION - realized_ltcg_this_fy hs) 0 * 0.13))%Z /\
  (LTCG_EXEMPTION <= realized_ltcg_this_fy hs -> savings f = 0%Z) /\
  (0 <= realized_ltcg_this_fy hs -> (savings f <= 16250)%Z) /\
  (holdings hs = [] -> status f = NOT_APPLICABLE /\ savings f = 0%Z).
Proof.
  intro f.
  pose proof (max_ge_r (LTCG_EXEMPTION - realized_ltcg_this_fy hs) 0) as R0.
  assert (B : (savings f
               <= Js.round (Js.max (LTCG_EXEMPTION - realized_ltcg_this_fy hs) 0 * 0.13))%Z).
  { unfold f, checkCapitalGains. cbv zeta.
    destruct (scanHoldings _ (holdings hs)) as [[lt st] al].
    split_finding; try (apply round_nonneg; lra).
    apply round_mono. unfold LTCG_RATE, CESS_RATE.
    pose proof (min_le_r (sumGains (map lt_gain lt))
                  (Js.max (LTCG_EXEMPTION - realized_ltcg_this_fy hs) 0)).
    lra. }
  pose proof (proj1 (checkCapitalGains_savings today hs asOf)) as P. fold f in P.
  repeat apply conj.
  - exact B.
  - intro H.
    assert (E : Js.max (LTCG_EXEMPTION - realized_ltcg_this_fy hs) 0 == 0).
    { pose proof (max_lub (LTCG_EXEMPTION - realized_ltcg_this_fy hs) 0 0).
      lra. }
    rewrite (round_comp _ 0) in B by (rewrite E; lra).
    change (Js.round 0) with 0%Z in B. lia.
  - intro H. eapply Z.le_trans; [exact B|].
    change 16250%Z with (Js.round (LTCG_EXEMPTION * 0.13)). apply round_mono.
    assert (Js.max (LTCG_EXEMPTION - realized_ltcg_this_fy hs) 0 <= LTCG_EXEMPTION)
      by (apply max_lub; [lra | vm_compute; discriminate]).
    lra.
  - intro H. unfold f, checkCapitalGains. cbv zeta. rewrite H. cbn [isEmpty].
    split; reflexivity.
Qed.

(* ------------------------------------------------------------------ *)
(** ** The report: regime decision and suppression                      *)
(* ------------------------------------------------------------------ *)

(** X15.  The regime decision.  The regime finding records the total tax
    of the new regime on the new-regime taxable income and an old-regime
    tax; the report recommends 'old' exactly when that old-regime tax is
    strictly below the new-regime tax (a tie goes to 'new'), the savings
    of the finding are the difference when it is positive and 0
    otherwise, and the recommended regime is never anything but 'old' or
    'new'. *)
Theorem recommended_regime_decision (today : Date) (s : SalaryProfile)
    (h : option Holdings) (opts : RunOpts) :
  let r := runAllChecks today s h opts in
  let f := checkRegime s (forwardedOpts opts) in
  exists newTax oldTax : Z,
    prop "new_regime_tax" (details f) = Some (VInt newTax) /\
    prop "old_regime_tax" (details f) = Some (VInt oldTax) /\
    newTax = total_tax (calculateNewRegimeTax (computeNewRegimeTaxableIncome s)
                          (financial_year s)) /\
    findCheck "regime_arbitrage" (checks r) = Some f /\
    savings f = Z.max (newTax - oldTax) 0 /\
    (recommended_regime r = "old" <-> (oldTax < newTax)%Z) /\
    (recommended_regime r = "new" <-> (newTax <= oldTax)%Z) /\
    (status f = OPPORTUNITY <-> recommended_regime r = "old") /\
    (0 <= total_savings r)%Z.
Proof.
  intros r f.
  assert (F : findCheck "regime_arbitrage" (checks r) = Some f).
  { unfold r. rewrite findCheck_report. unfold allChecksOf. cbv zeta.
    find_check. reflexivity. }
  assert (R : recommended_regime r = recommendedRegimeOf f) by reflexivity.
  assert (T : total_savings r
              = (savings f
                 + savings (checkCapitalGains today (holdingsOrEmpty h)
                              (opt_cgAsOf opts)))%Z) by reflexivity.
  pose proof (proj1 (checkCapitalGains_savings today (holdingsOrEmpty h)
                       (opt_cgAsOf opts))) as G.
  rewrite R, T. clear R T. revert F. generalize (checks r). intros cs F.
  unfold f in *. clear f r. unfold recommendedRegimeOf, checkRegime in *.
  cbv zeta in *.
  match goal with
  | |- context [if (0 <? ?d)%Z then createFinding _ _ _ _ _ _ _ _ _ _ else _] =>
      match d with
      | (?n - ?o)%Z => exists n, o; destruct (0 <? d)%Z eqn:E
      end
  end; cbn [details createFinding prop String.eqb Ascii.eqb Bool.eqb savings status];
    (apply Z.ltb_lt in E || apply Z.ltb_ge in E);
    (repeat apply conj; try reflexivity; try assumption; try lia;
     try (intro D; first [discriminate D | lia])).
Qed.

(** X16.  What suppression leaves alone.  Whatever regime is recommended,
    each of the five deduction findings of the report keeps the
    identifier, name, action, deadline, confidence, explanation and
    details of the check's own result; when 'old' is recommended it is
    that result unchanged. *)
Theorem suppression_keeps_other_fields (today : Date) (s : SalaryProfile)
    (h : option Holdings) (opts : RunOpts) :
  let r := runAllChecks today s h opts in
  Forall
    (fun orig =>
       exists f,
         findCheck (check_id orig) (checks r) = Some f /\
         check_id f = check_id orig /\ check_name f = check_name orig /\
         action f = action orig /\ deadline f = deadline orig /\
         confidence f = confidence orig /\ explanation f = explanation orig /\
         details f = details orig /\
         (recommended_regime r = "old" -> f = orig))
    [ check80c s; check80d s (forwardedOpts opts); checkHra s; checkNps s;
      checkHomeLoan s ].
Proof.
  intro r.
  assert (R : recommended_regime r
              = recommendedRegimeOf (checkRegime s (forwardedOpts opts)))
    by reflexivity.
  repeat (apply Forall_cons; [|]); [| | | | |apply Forall_nil];
    unfold r at 1; rewrite findCheck_report; unfold allChecksOf; cbv zeta;
    rewrite R;
    destruct (recommendedRegimeOf_checkRegime s (forwardedOpts opts))
      as [(E & _) | (E & _)]; rewrite E; cbn [String.eqb Ascii.eqb Bool.eqb];
    rewrite ?check80c_id, ?check80d_id, ?checkHra_id, ?checkNps_id,
      ?checkHomeLoan_id;
    find_check; eexists; (split; [reflexivity|]);
    cbn [suppressUnderNewRegime check_id check_name action deadline confidence
         explanation details];
    rewrite ?check80c_id, ?check80d_id, ?checkHra_id, ?checkNps_id,
      ?checkHomeLoan_id;
    repeat split; try reflexivity; intro D; first [discriminate D | reflexivity].
Qed.

(* ------------------------------------------------------------------ *)
(** ** Redemption planner: what a split can save                        *)
(* ------------------------------------------------------------------ *)

(** Rounding two amounts that differ by at most [d] gives integers that
    differ by at most the ceiling of [d]. *)
Lemma round_diff_le_ceiling (x y d : Q) :
  x - y <= d -> (Js.round x - Js.round y <= Qceiling d)%Z.
Proof.
  intro H.
  assert (A : (Js.round x <= Js.round (y + inject_Z (Qceiling d)))%Z).
  { apply round_mono. pose proof (Qle_ceiling d). lra. }
  assert (B : Js.round (y + inject_Z (Qceiling d)) = (Js.round y + Qceiling d)%Z).
  { unfold Js.round.
    rewrite <- (Qfloor_Z (Qceiling d)) at 2.
    assert (E : y + inject_Z (Qceiling d) + (1 # 2)
                == (y + (1 # 2)) + inject_Z (Qceiling d)) by ring.
    rewrite (Qfloor_comp _ _ E).
    set (c := Qceiling d). set (z := y + (1 # 2)).
    pose proof (Qfloor_le z) as L. pose proof (Qlt_floor z) as U.
    pose proof (Qfloor_le (z + inject_Z c)) as L'.
    pose proof (Qlt_floor (z + inject_Z c)) as U'.
    rewrite Qfloor_Z.
    rewrite inject_Z_plus in U, U'. change (inject_Z 1) with 1 in U, U'.
    assert (X : inject_Z (Qfloor (z + inject_Z c))
                < inject_Z (Qfloor z + c + 1)).
    { rewrite !inject_Z_plus. change (inject_Z 1) with 1. lra. }
    assert (Y : inject_Z (Qfloor z + c) < inject_Z (Qfloor (z + inject_Z c) + 1)).
    { rewrite !inject_Z_plus. change (inject_Z 1) with 1. lra. }
    rewrite <- Zlt_Qlt in X, Y. lia. }
  lia.
Qed.

(** X17.  What splitting a redemption can save.  When neither exemption
    is negative (the defaults are 1,25,000 each): without a planned gain
    (null, undefined, zero or negative) every tax and rate of the plan is
    0 and the split is not beneficial; the one-year tax is 0 for a gain
    within the remaining exemption; the split tax is 0 for a gain within
    the two exemptions together; and the split never saves more than 13%
    of next year's exemption, rounded up: 16,250 with the default. *)
Theorem redemption_split_bounds (plannedLtcg : option Q) (opts : RedemptionOpts) :
  let r := computeRedemptionTax plannedLtcg opts in
  0 <= exemption_remaining r -> 0 <= exemption_next_fy r ->
  (orElse plannedLtcg 0 <= 0 ->
   tax (one_fy r) = 0%Z /\ split_total_tax (split_fy r) = 0%Z /\
   split_savings r = 0%Z /\ split_beneficial r = false /\
   effective_rate (one_fy r) = 0 /\ split_effective_rate (split_fy r) = 0) /\
  (planned_ltcg r <= exemption_remaining r -> tax (one_fy r) = 0%Z) /\
  (planned_ltcg r <= exemption_remaining r + exemption_next_fy r ->
   split_total_tax (split_fy r) = 0%Z) /\
  (split_savings r <= Qceiling (exemption_next_fy r * 0.13))%Z /\
  (exemptionNextFy opts = None -> (split_savings r <= 16250)%Z).
Proof.
  intro r. unfold r, computeRedemptionTax. cbv zeta.
  cbn [tax one_fy split_fy split_total_tax split_savings split_beneficial
       effective_rate split_effective_rate exemption_remaining exemption_next_fy
       planned_ltcg].
  set (l := Js.max (orElse plannedLtcg 0) 0).
  set (e1 := orElse (exemptionRemaining opts) LTCG_EXEMPTION).
  set (e2 := orElse (exemptionNextFy opts) LTCG_EXEMPTION).
  intros E1 E2.
  assert (L0 : 0 <= l) by apply max_ge_r.
  assert (RATE : LTCG_RATE * (1 + CESS_RATE) == 0.13) by reflexivity.
  pose proof (min_le_l l e1) as M1. pose proof (min_le_r l e1) as M2.
  pose proof (min_glb l e1 0 L0 E1) as M0.
  set (m := Js.min l e1) in *.
  assert (ONE : l <= e1 -> Js.round (Js.max (l - e1) 0 * (LTCG_RATE * (1 + CESS_RATE)))
                           = 0%Z).
  { intro H. rewrite (round_comp _ 0); [reflexivity|].
    pose proof (max_lub (l - e1) 0 0 ltac:(lra) ltac:(lra)) as U.
    pose proof (max_ge_r (l - e1) 0) as V.
    assert (X : Js.max (l - e1) 0 == 0) by lra. rewrite X. lra. }
  assert (MIN : l <= e1 -> m == l).
  { intro H. unfold m, Js.min. rewrite (proj2 (le_true_iff _ _) H). reflexivity. }
  assert (MIN' : e1 <= l -> m == e1).
  { intro H. unfold m, Js.min. destruct (l <=? e1) eqn:C; [|reflexivity].
    apply le_true_iff in C. lra. }
  assert (TWO : l <= e1 + e2 ->
                Js.round (Js.max (l - m - e2) 0 * (LTCG_RATE * (1 + CESS_RATE)))
                = 0%Z).
  { intro H. rewrite (round_comp _ 0); [reflexivity|].
    assert (l - m - e2 <= 0).
    { destruct (Qlt_le_dec e1 l) as [C|C];
        [pose proof (MIN' ltac:(lra)) | pose proof (MIN C)]; lra. }
    pose proof (max_lub (l - m - e2) 0 0 ltac:(lra) ltac:(lra)) as U.
    pose proof (max_ge_r (l - m - e2) 0) as V.
    assert (X : Js.max (l - m - e2) 0 == 0) by lra. rewrite X. lra. }
  assert (SAVE : (Js.round (Js.max (l - e1) 0 * (LTCG_RATE * (1 + CESS_RATE)))
                  - (0 + Js.round (Js.max (l - m - e2) 0
                                   * (LTCG_RATE * (1 + CESS_RATE))))
                  <= Qceiling (e2 * 0.13))%Z).
  { rewrite Z.add_0_l. apply round_diff_le_ceiling. rewrite RATE.
    pose proof (max_ge_l (l - m - e2) 0) as V. pose proof (max_ge_r (l - m - e2) 0) as V'.
    destruct (Qlt_le_dec e1 l) as [C|C].
    - pose proof (max_lub (l - e1) 0 (l - e1) ltac:(lra) ltac:(lra)) as U.
      pose proof (MIN' ltac:(lra)) as K. lra.
    - pose proof (max_lub (l - e1) 0 0 ltac:(lra) ltac:(lra)) as U. lra. }
  repeat apply conj.
  - intro H.
    assert (Z : l == 0).
    { pose proof (max_lub (orElse plannedLtcg 0) 0 0 H ltac:(lra)). unfold l in *. lra. }
    assert (G : (l >? 0) = false) by (apply lt_false_iff; lra).
    rewrite G, (ONE ltac:(lra)), (TWO ltac:(lra)).
    repeat split.
  - exact ONE.
  - intro H. rewrite (TWO H). reflexivity.
  - exact SAVE.
  - intro N. eapply Z.le_trans; [exact SAVE|].
    unfold e2. rewrite N. cbn [orElse]. vm_compute. discriminate.
Qed.

(** A gain of 3,00,000 with the default exemptions. *)
Lemma redemption_split_bounds_witness :
  (split_savings (computeRedemptionTax (Some 300000%Q) (mkRedemptionOpts None None))
   <= 16250)%Z.
Proof.
  apply (redemption_split_bounds (Some 300000%Q) (mkRedemptionOpts None None));
    try reflexivity; vm_compute; discriminate.
Defined.

(* ------------------------------------------------------------------ *)
(** ** Products in double precision                                     *)
(* ------------------------------------------------------------------ *)

Lemma roundHalfEven_error (q : Q) :
  q - (1 # 2) <= inject_Z (roundHalfEven q) /\
  inject_Z (roundHalfEven q) <= q + (1 # 2).
Proof.
  unfold roundHalfEven. cbv zeta.
  pose proof (Qfloor_le q) as L. pose proof (Qlt_floor q) as U.
  rewrite inject_Z_plus in U. change (inject_Z 1) with 1 in U.
  destruct (_ <? (1 # 2)) eqn:A.
  - apply lt_true_iff in A. lra.
  - apply lt_false_iff in A.
    destruct ((1 # 2) <? _) eqn:B.
    + rewrite inject_Z_plus. change (inject_Z 1) with 1. lra.
    + apply lt_false_iff in B.
      destruct (Z.even (Qfloor q));
        rewrite ?inject_Z_plus; change (inject_Z 1) with 1; lra.
Qed.

Lemma pow2_pos (e : Z) : 0 < 2 ^ e.
Proof. apply Qpower_0_lt. reflexivity. Qed.

Lemma pow2_succ (e : Z) : 2 ^ (e + 1) == 2 ^ e * 2.
Proof. rewrite Qpower_plus by discriminate. reflexivity. Qed.

(** A positive rational is at least [2^(log2 n - log2 d - 1)]. *)
Lemma log2_lower (x : Q) :
  0 < x ->
  2 ^ (Z.log2 (Qnum x) - Z.log2 (Zpos (Qden x)) - 53) * 2 ^ 52 <= x.
Proof.
  intro P. destruct x as [n d]. cbn [Qnum Qden].
  assert (N0 : (0 < n)%Z).
  { unfold Qlt in P. cbn in P. lia. }
  set (ln := Z.log2 n). set (ld := Z.log2 (Zpos d)).
  destruct (Z.log2_spec n N0) as [NL _].
  destruct (Z.log2_spec (Zpos d) ltac:(lia)) as [_ DU].
  fold ln in NL. fold ld in DU.
  assert (LN : (0 <= ln)%Z) by apply Z.log2_nonneg.
  assert (LD : (0 <= ld)%Z) by apply Z.log2_nonneg.
  assert (A : 2 ^ ln <= inject_Z n).
  { change 2 with (inject_Z 2). rewrite <- Zpower_Qpower by exact LN.
    now rewrite <- Zle_Qle. }
  assert (B : inject_Z (Zpos d) <= 2 ^ (ld + 1)).
  { change 2 with (inject_Z 2). rewrite <- Zpower_Qpower by lia.
    rewrite <- Zle_Qle. unfold Z.succ in DU. lia. }
  assert (E : 2 ^ (ln - ld - 53) * 2 ^ 52 == 2 ^ ln / 2 ^ (ld + 1)).
  { rewrite <- Qpower_plus by discriminate.
    rewrite <- Qpower_minus by discriminate.
    apply Qpower_comp; [reflexivity | lia]. }
  rewrite E.
  assert (X : n # d == inject_Z n / inject_Z (Zpos d)) by apply Qmake_Qdiv.
  rewrite X.
  pose proof (pow2_pos ln) as PA. pose proof (pow2_pos (ld + 1)) as PB.
  assert (PD : 0 < inject_Z (Zpos d)) by reflexivity.
  apply Qle_shift_div_r; [exact PB|].
  apply Qle_trans with (inject_Z n / inject_Z (Zpos d) * inject_Z (Zpos d)).
  - assert (inject_Z n / inject_Z (Zpos d) * inject_Z (Zpos d) == inject_Z n)
      as -> by (field; intro H; rewrite H in PD; discriminate PD).
    exact A.
  - rewrite !(Qmult_comm (inject_Z n / inject_Z (Zpos d))).
    apply Qmult_le_compat_r; [exact B|].
    apply Qle_shift_div_l; [exact PD|]. lra.
Qed.

(** The last bit of the nearest double is at most [x / 2^52], or it is
    the last bit of the subnormal numbers. *)
Lemma doubleExponent_grid (x : Q) :
  0 < x ->
  2 ^ doubleExponent x * 2 ^ 52 <= x \/ doubleExponent x = (-1074)%Z.
Proof.
  intro P. unfold doubleExponent. cbv zeta.
  set (e0 := (Z.log2 (Qnum x) - Z.log2 (Zpos (Qden x)) - 53)%Z).
  pose proof (log2_lower x P) as L. fold e0 in L.
  set (e := if x / 2 ^ e0 <? 2 ^ 53 then e0 else (e0 + 1)%Z).
  assert (G : 2 ^ e * 2 ^ 52 <= x).
  { unfold e. destruct (_ <? 2 ^ 53) eqn:T; [exact L|].
    apply lt_false_iff in T.
    rewrite pow2_succ.
    pose proof (pow2_pos e0) as P0.
    assert (S : 2 ^ 53 * 2 ^ e0 <= x).
    { pose proof (Qmult_le_compat_r _ _ (2 ^ e0) T ltac:(lra)) as M.
      assert (D : x / 2 ^ e0 * 2 ^ e0 == x) by (field; lra).
      rewrite D in M. exact M. } clear T.
    assert (V : 2 ^ 53 == 2 ^ 52 * 2) by reflexivity.
    rewrite V in S. lra. }
  destruct (Z.max_spec e (-1074)) as [[_ ->] | [_ ->]]; [right | left]; auto.
Qed.

(** The nearest double is within a relative [10^-15] of [x], or within
    the absolute [10^-9] that covers the subnormal range. *)
Lemma toDoublePos_error (x : Q) :
  0 < x ->
  0 <= toDoublePos x /\
  x - x * (1 # 1000000000000000) - (1 # 1000000000) <= toDoublePos x /\
  toDoublePos x <= x + x * (1 # 1000000000000000) + (1 # 1000000000).
Proof.
  intro P. unfold toDoublePos. cbv zeta.
  pose proof (doubleExponent_grid x P) as G.
  set (e := doubleExponent x) in *.
  pose proof (pow2_pos e) as PE.
  destruct (roundHalfEven_error (x / 2 ^ e)) as [L U].
  set (m := roundHalfEven (x / 2 ^ e)) in *.
  assert (D : x / 2 ^ e * 2 ^ e == x) by (field; lra).
  assert (L' : x - (1 # 2) * 2 ^ e <= inject_Z m * 2 ^ e).
  { pose proof (Qmult_le_compat_r _ _ (2 ^ e) L ltac:(lra)) as M.
    assert (X : (x / 2 ^ e - (1 # 2)) * 2 ^ e == x - (1 # 2) * 2 ^ e)
      by (rewrite <- D at 2; ring).
    rewrite X in M. exact M. }
  assert (U' : inject_Z m * 2 ^ e <= x + (1 # 2) * 2 ^ e).
  { pose proof (Qmult_le_compat_r _ _ (2 ^ e) U ltac:(lra)) as M.
    assert (X : (x / 2 ^ e + (1 # 2)) * 2 ^ e == x + (1 # 2) * 2 ^ e)
      by (rewrite <- D at 2; ring).
    rewrite X in M. exact M. }
  assert (M0 : 0 <= inject_Z m).
  { assert (Q0 : 0 < x / 2 ^ e) by (apply Qlt_shift_div_l; lra).
    assert (Z0 : (-1 < m)%Z).
    { rewrite Zlt_Qlt. change (inject_Z (-1)) with (-1 # 1). lra. }
    change 0 with (inject_Z 0). rewrite <- Zle_Qle. lia. }
  split; [apply Qmult_le_0_compat; lra|].
  destruct G as [G | G].
  - assert (V : 2 ^ 52 == 4503599627370496) by reflexivity.
    rewrite V in G. lra.
  - assert (T : 2 ^ e <= (1 # 1000000000)).
    { rewrite G. vm_compute. discriminate. }
    lra.
Qed.

Lemma toDouble_comp (x y : Q) : x == y -> toDouble x = toDouble y.
Proof. intro H. unfold toDouble. now rewrite (Qred_complete x y H). Qed.

Lemma toDouble_zero (x : Q) : x == 0 -> toDouble x = 0.
Proof. intro H. rewrite (toDouble_comp x 0 H). reflexivity. Qed.

Lemma toDouble_bounds (x : Q) :
  0 <= x ->
  0 <= toDouble x /\
  x - x * (1 # 1000000000000000) - (1 # 1000000000) <= toDouble x /\
  toDouble x <= x + x * (1 # 1000000000000000) + (1 # 1000000000).
Proof.
  intro P. unfold toDouble. cbv zeta.
  pose proof (Qred_correct x) as R. set (r := Qred x) in *.
  destruct (r =? 0) eqn:Z.
  - apply eq_true_iff in Z. repeat split; lra.
  - apply eq_false_iff in Z.
    assert (N : (r <? 0) = false) by (apply lt_false_iff; lra).
    rewrite N.
    assert (P' : 0 < r) by lra.
    destruct (toDoublePos_error r P') as (A & B & C).
    repeat split; lra.
Qed.

(** A product on doubles, for a factor [a >= 0] and a constant whose double
    lies between [lo] and [hi]. *)
Lemma mulDouble_bounds (a c lo hi : Q) :
  0 <= a -> 0 <= c -> 0 <= lo -> lo <= toDouble c -> toDouble c <= hi ->
  0 <= mulDouble a c /\
  ((a - a * (1 # 1000000000000000) - (1 # 1000000000)) * lo)
  - ((a - a * (1 # 1000000000000000) - (1 # 1000000000)) * lo)
    * (1 # 1000000000000000) - (1 # 1000000000) - a * lo * (1 # 100000000000000)
  <= mulDouble a c /\
  mulDouble a c
  <= ((a + a * (1 # 1000000000000000) + (1 # 1000000000)) * hi)
     + ((a + a * (1 # 1000000000000000) + (1 # 1000000000)) * hi)
       * (1 # 1000000000000000) + (1 # 1000000000).
Proof.
  intros A C L0 L H. unfold mulDouble.
  destruct (toDouble_bounds a A) as (A0 & A1 & A2).
  set (fa := toDouble a) in *. set (fc := toDouble c) in *.
  assert (P0 : 0 <= fa * fc) by (apply Qmult_le_0_compat; lra).
  destruct (toDouble_bounds (fa * fc) P0) as (M0 & M1 & M2).
  set (m := toDouble (fa * fc)) in *.
  set (au := a + a * (1 # 1000000000000000) + (1 # 1000000000)) in *.
  set (al := a - a * (1 # 1000000000000000) - (1 # 1000000000)) in *.
  assert (PU : fa * fc <= au * hi).
  { apply Qle_trans with (au * fc).
    - apply Qmult_le_compat_r; lra.
    - rewrite !(Qmult_comm au). apply Qmult_le_compat_r; [lra|]. unfold au. lra. }
  assert (PL : al * lo <= fa * fc).
  { destruct (Qlt_le_dec al 0) as [N|N].
    - apply Qle_trans with 0; [|exact P0].
      assert (0 <= (- al) * lo) by (apply Qmult_le_0_compat; lra). lra.
    - apply Qle_trans with (al * fc).
      + rewrite !(Qmult_comm al). apply Qmult_le_compat_r; lra.
      + apply Qmult_le_compat_r; lra. }
  assert (AL : 0 <= a * lo) by (apply Qmult_le_0_compat; lra).
  split; [exact M0|]. split; [|lra].
  destruct (Qlt_le_dec (al * lo) 0) as [N|N]; [|lra].
  (* the lower bound is negative: the product is not *)
  assert (X : al * lo == a * lo - a * lo * (1 # 1000000000000000)
                         - (1 # 1000000000) * lo) by (unfold al; ring).
  lra.
Qed.

(** The four ratios of the salary structure: the product on doubles is
    within a relative [10^-14] (and an absolute [10^-8]) of the exact one. *)
Lemma mulDouble_near (a c : Q) :
  0 <= a -> In c [0.40; 0.50; 0.12; 0.0481] ->
  0 <= mulDouble a c /\
  a * c - a * (1 # 100000000000000) - (1 # 100000000) <= mulDouble a c /\
  mulDouble a c <= a * c + a * (1 # 100000000000000) + (1 # 100000000).
Proof.
  intros A I. cbn [In] in I.
  destruct I as [<- | [<- | [<- | [<- | []]]]];
    match goal with
    | |- context [mulDouble a ?c] =>
        destruct (mulDouble_bounds a c
                    (c - c * (1 # 1000000000000000))
                    (c + c * (1 # 1000000000000000)) A
                    ltac:(vm_compute; discriminate) ltac:(vm_compute; discriminate)
                    ltac:(vm_compute; discriminate) ltac:(vm_compute; discriminate))
          as (M0 & M1 & M2)
    end;
    repeat split; lra.
Qed.

(* ------------------------------------------------------------------ *)
(** ** The estimators of the questionnaire                              *)
(* ------------------------------------------------------------------ *)

Lemma orNum_zero (x : option Q) : orNum x 0 == match x with Some v => v | None => 0 end.
Proof.
  unfold orNum. destruct x as [v|]; [|reflexivity].
  destruct (v =? 0) eqn:E; [|reflexivity].
  apply eq_true_iff in E. now rewrite E.
Qed.

Lemma orNum_some (v : Q) : orNum (Some v) 0 == v.
Proof. exact (orNum_zero (Some v)). Qed.

(** A rounded product by one of the ratios, for a factor that is not
    negative. *)
Lemma rounded_ratio (a c : Q) :
  0 <= a -> In c [0.40; 0.50; 0.12; 0.0481] ->
  (0 <= Js.round (mulDouble a c))%Z /\
  a * c - a * (1 # 100000000000000) - (1 # 100000000) - (1 # 2)
  < inject_Z (Js.round (mulDouble a c)) /\
  inject_Z (Js.round (mulDouble a c))
  <= a * c + a * (1 # 100000000000000) + (1 # 100000000) + (1 # 2).
Proof.
  intros A I. destruct (mulDouble_near a c A I) as (M0 & M1 & M2).
  pose proof (round_upper (mulDouble a c)).
  pose proof (round_lower (mulDouble a c)).
  split; [now apply round_nonneg|]. split; lra.
Qed.

(** The rounded components of the salary structure for a CTC that is not
    negative. *)
Lemma structure_bounds (c : Q) :
  0 <= c ->
  let basic := Js.round (mulDouble c BASIC_RATIO) in
  let hra := Js.round (mulDouble (inject_Z basic) HRA_RATIO) in
  let epf := Js.round (mulDouble (inject_Z basic) EPF_RATIO) in
  let gratuity := Js.round (mulDouble (inject_Z basic) GRATUITY_RATIO) in
  (0 <= basic)%Z /\ (0 <= hra)%Z /\ (0 <= epf)%Z /\ (0 <= gratuity)%Z /\
  (hra <= basic)%Z /\ (epf <= basic)%Z /\
  0 <= c - inject_Z epf - inject_Z gratuity /\
  (8 <= c -> 0 <= c - inject_Z epf - inject_Z gratuity - inject_Z basic - inject_Z hra).
Proof.
  intros H basic hra epf gratuity.
  unfold BASIC_RATIO, HRA_RATIO, EPF_RATIO, GRATUITY_RATIO in *.
  destruct (rounded_ratio c 0.40 H ltac:(cbn [In]; auto)) as (B0 & BL & BU).
  fold basic in B0, BL, BU.
  assert (B0' : 0 <= inject_Z basic) by (rewrite Zle_Qle in B0; exact B0).
  destruct (rounded_ratio (inject_Z basic) 0.50 B0' ltac:(cbn [In]; auto))
    as (H0 & HL & HU).
  destruct (rounded_ratio (inject_Z basic) 0.12 B0' ltac:(cbn [In]; auto))
    as (E0 & EL & EU).
  destruct (rounded_ratio (inject_Z basic) 0.0481 B0' ltac:(cbn [In]; auto 6))
    as (G0 & GL & GU).
  fold hra in H0, HL, HU. fold epf in E0, EL, EU. fold gratuity in G0, GL, GU.
  (* an integer below [basic + 1] is at most [basic] *)
  assert (INT : forall z : Z, inject_Z z < inject_Z basic + 1 -> (z <= basic)%Z).
  { intros z Hz. change 1 with (inject_Z 1) in Hz.
    rewrite <- inject_Z_plus, <- Zlt_Qlt in Hz. lia. }
  assert (HB : (hra <= basic)%Z) by (apply INT; lra).
  assert (EB : (epf <= basic)%Z) by (apply INT; lra).
  repeat apply conj; try assumption.
  - (* gross salary *)
    destruct (Z.eq_dec basic 0) as [Z0|NZ].
    + assert (epf = 0%Z /\ gratuity = 0%Z) as [-> ->].
      { unfold epf, gratuity. rewrite Z0. split; vm_compute; reflexivity. }
      change (inject_Z 0) with 0. lra.
    + destruct (Z.eq_dec basic 1) as [B1|B1].
      * assert (epf = 0%Z /\ gratuity = 0%Z) as [-> ->].
        { unfold epf, gratuity. rewrite B1. split; vm_compute; reflexivity. }
        change (inject_Z 0) with 0. lra.
      * assert (2 <= inject_Z basic).
        { change 2 with (inject_Z 2). rewrite <- Zle_Qle. lia. }
        lra.
  - intro C8. lra.
Qed.

(** The estimate at two CTCs where 4.81% of the basic salary is an exact
    half rupee: the product on doubles falls just below the half, so the
    gratuity is rounded down. *)
Example estimate_at_rounding_ties :
  let b1 := getEstimateBreakdown 787500 in
  let b2 := getEstimateBreakdown 1562500 in
  (eb_basic b1, eb_employerEpf b1, eb_gratuity b1) = (315000, 37800, 15151)%Z /\
  eb_grossSalary b1 == 734549 /\
  (eb_basic b2, eb_employerEpf b2, eb_gratuity b2) = (625000, 75000, 30062)%Z /\
  eb_grossSalary b2 == 1457438.
Proof. vm_compute. repeat split. Qed.

(** X18.  The estimated salary structure.  For every set of answers the
    profile built from the CTC is a new-regime profile of FY 2024-25 with
    professional tax 2,400 and no exemptions; basic, HRA and special
    allowance add up to the gross salary, and the CTC is the gross salary
    plus the EPF and the gratuity of the displayed breakdown; the 80C
    claim never exceeds 1,50,000.  For a CTC that is not negative the
    basic salary, HRA, EPF, gratuity and gross salary are not negative and
    HRA and EPF are within the basic salary; from a CTC of 8 rupees on the
    special allowance is not negative either.  Up to a CTC of 10^12 each
    rounded component is within 0.52 of its share: 40% of the CTC for the
    basic salary, 50%, 12% and 4.81% of the basic salary for HRA, EPF and
    gratuity. *)
Theorem estimate_salary_structure (answers : CtcAnswers) :
  let p := estimateFromCTC answers in
  let b := getEstimateBreakdown (ctc answers) in
  (financial_year p = "2024-25" /\ regime p = "new" /\
   professional_tax p == 2400 /\ standard_deduction p == 75000 /\
   hra_exemption p == 0 /\ lta_exemption p == 0 /\ other_exemptions p == 0) /\
  basic_salary p + hra_received p + special_allowance p == gross_salary p /\
  gross_salary p + epf_employee_contribution p + inject_Z (eb_gratuity b)
  == ctc answers /\
  deduction_80c p <= 150000 /\
  (0 <= ctc answers ->
   0 <= basic_salary p /\ 0 <= hra_received p /\
   0 <= epf_employee_contribution p /\ (0 <= eb_gratuity b)%Z /\
   0 <= gross_salary p /\
   hra_received p <= basic_salary p /\
   epf_employee_contribution p <= basic_salary p /\
   (8 <= ctc answers -> 0 <= special_allowance p)) /\
  (0 <= ctc answers -> ctc answers <= 1000000000000 ->
   Qabs (basic_salary p - ctc answers * 0.40) <= 0.52 /\
   Qabs (hra_received p - basic_salary p * 0.50) <= 0.52 /\
   Qabs (epf_employee_contribution p - basic_salary p * 0.12) <= 0.52 /\
   Qabs (inject_Z (eb_gratuity b) - basic_salary p * 0.0481) <= 0.52).
Proof.
  intros p b. unfold p, b, estimateFromCTC, getEstimateBreakdown, createSalaryProfile.
  cbv zeta.
  cbn [financial_year regime professional_tax standard_deduction hra_exemption
       lta_exemption other_exemptions basic_salary hra_received special_allowance
       gross_salary epf_employee_contribution deduction_80c
       d_financial_year d_regime d_professional_tax d_standard_deduction
       d_hra_exemption d_lta_exemption d_other_exemptions d_basic_salary
       d_hra_received d_special_allowance d_gross_salary
       d_epf_employee_contribution d_deduction_80c eb_gratuity].
  set (basic := Js.round (mulDouble (ctc answers) BASIC_RATIO)).
  set (hra := Js.round (mulDouble (inject_Z basic) HRA_RATIO)).
  set (epf := Js.round (mulDouble (inject_Z basic) EPF_RATIO)).
  set (gratuity := Js.round (mulDouble (inject_Z basic) GRATUITY_RATIO)).
  rewrite !orNum_some.
  split; [repeat split; reflexivity|].
  split; [lra|]. split; [lra|].
  split; [apply min_le_r|].
  split.
  - intro H.
    destruct (structure_bounds (ctc answers) H)
      as (B0 & H0 & E0 & G0 & HB & EB & GS & SP).
    fold basic hra epf gratuity in B0, H0, E0, G0, HB, EB, GS, SP.
    rewrite Zle_Qle in B0, H0, E0, HB, EB.
    repeat split; try assumption; try lra.
  - intros H T.
    unfold BASIC_RATIO, HRA_RATIO, EPF_RATIO, GRATUITY_RATIO in *.
    destruct (rounded_ratio (ctc answers) 0.40 H ltac:(cbn [In]; auto))
      as (B0 & BL & BU).
    fold basic in B0, BL, BU.
    assert (B0' : 0 <= inject_Z basic) by (rewrite Zle_Qle in B0; exact B0).
    destruct (rounded_ratio (inject_Z basic) 0.50 B0' ltac:(cbn [In]; auto))
      as (_ & HL & HU).
    destruct (rounded_ratio (inject_Z basic) 0.12 B0' ltac:(cbn [In]; auto))
      as (_ & EL & EU).
    destruct (rounded_ratio (inject_Z basic) 0.0481 B0' ltac:(cbn [In]; auto 6))
      as (_ & GL & GU).
    fold hra in HL, HU. fold epf in EL, EU. fold gratuity in GL, GU.
    pose proof (orNum_some (inject_Z basic)) as OB.
    pose proof (orNum_some (inject_Z hra)) as OH.
    pose proof (orNum_some (inject_Z epf)) as OE.
    repeat split; apply Qabs_Qle_condition; split; lra.
Qed.

(** X19.  The displayed breakdown is the one the engine gets.  For every
    set of answers, [getEstimateBreakdown] of the CTC shows the basic
    salary, HRA, special allowance, gross salary and employee EPF of the
    profile that [estimateFromCTC] builds; employer and employee EPF are
    equal; and twelve times the monthly in-hand amount is within 6 rupees
    of the gross salary less employee EPF and professional tax. *)
Theorem estimate_breakdown_agrees (answers : CtcAnswers) :
  let p := estimateFromCTC answers in
  let b := getEstimateBreakdown (ctc answers) in
  inject_Z (eb_basic b) == basic_salary p /\
  inject_Z (eb_hra b) == hra_received p /\
  eb_specialAllowance b == special_allowance p /\
  eb_grossSalary b == gross_salary p /\
  inject_Z (eb_epfEmployee b) == epf_employee_contribution p /\
  eb_employerEpf b = eb_epfEmployee b /\
  gross_salary p - epf_employee_contribution p - professional_tax p - 6
  <= 12 * inject_Z (eb_monthlyInHand b) /\
  12 * inject_Z (eb_monthlyInHand b)
  <= gross_salary p - epf_employee_contribution p - professional_tax p + 6.
Proof.
  intros p b. unfold p, b, estimateFromCTC, getEstimateBreakdown, createSalaryProfile.
  cbv zeta.
  cbn [basic_salary hra_received special_allowance gross_salary professional_tax
       epf_employee_contribution d_basic_salary d_hra_received d_special_allowance
       d_gross_salary d_epf_employee_contribution d_professional_tax
       eb_basic eb_hra eb_specialAllowance eb_grossSalary eb_epfEmployee
       eb_employerEpf eb_monthlyInHand].
  rewrite !orNum_some.
  set (basic := Js.round (mulDouble (ctc answers) BASIC_RATIO)).
  set (epf := Js.round (mulDouble (inject_Z basic) EPF_RATIO)).
  set (gross := ctc answers - inject_Z epf
                - inject_Z (Js.round (mulDouble (inject_Z basic) GRATUITY_RATIO))).
  pose proof (round_upper ((gross - inject_Z epf - DEFAULT_PROFESSIONAL_TAX) / 12)) as U.
  pose proof (round_lower ((gross - inject_Z epf - DEFAULT_PROFESSIONAL_TAX) / 12)) as L.
  set (m := Js.round ((gross - inject_Z epf - DEFAULT_PROFESSIONAL_TAX) / 12)) in *.
  assert (D : (gross - inject_Z epf - DEFAULT_PROFESSIONAL_TAX) / 12 * 12
              == gross - inject_Z epf - DEFAULT_PROFESSIONAL_TAX) by (field).
  unfold DEFAULT_PROFESSIONAL_TAX in *.
  repeat split; try reflexivity; lra.
Qed.

(** The synthetic holding of [estimateLTCG] for a representative gain. *)
Lemma estimated_holding_long_term (west : bool) (gain : Q) (today : Date) :
  (0 <= getMonth today <= 11)%Z ->
  (2023 * 12 + 3 <= getFullYear today * 12 + getMonth today)%Z ->
  isLongTerm
    {| security_name := "Your stock/MF portfolio (estimated)";
       security_type := "equity_mf";
       purchase_date := newDate_2023_01_01 west;
       purchase_price := 0; quantity := 1; current_price := gain |}
    (defaultAsOf today) = true.
Proof.
  intros M T. unfold isLongTerm, holdingMonths, defaultAsOf.
  cbn [security_type includes existsb String.eqb Ascii.eqb Bool.eqb orb purchase_date].
  apply Z.ltb_lt.
  destruct (getMonth today <? 3)%Z eqn:E;
    [apply Z.ltb_lt in E | apply Z.ltb_ge in E];
    destruct west; cbn [newDate_2023_01_01 getFullYear getMonth]; lia.
Qed.

(** X20.  The estimated portfolio is harvested.  For each gain range of
    the questionnaire, in every time zone and at every date from April
    2023 on, the synthetic holding of [estimateLTCG] is long-term at the
    end of the financial year and the capital-gains check reports an
    opportunity whose savings are 13% of the representative gain capped at
    the exemption of 1,25,000: 4,550, 11,375 or 16,250.  Without
    investments, with the range skipped or without an answer there are no
    holdings. *)
Theorem estimated_portfolio_harvest (west : bool) (key : string) (today : Date) :
  In key ["under_50k"; "50k_to_125k"; "over_125k"] ->
  (0 <= getMonth today <= 11)%Z ->
  (2023 * 12 + 3 <= getFullYear today * 12 + getMonth today)%Z ->
  (exists hs gain,
     estimateLTCG west (mkLtcgAnswers (Some true) (Some key)) = Some hs /\
     prop key RANGE_MAP = Some (Some gain) /\
     status (checkCapitalGains today hs None) = OPPORTUNITY /\
     savings (checkCapitalGains today hs None)
     = Js.round (Js.min gain LTCG_EXEMPTION * 0.13) /\
     In (savings (checkCapitalGains today hs None)) [4550; 11375; 16250]%Z) /\
  (forall range, estimateLTCG west (mkLtcgAnswers None range) = None) /\
  (forall range, estimateLTCG west (mkLtcgAnswers (Some false) range) = None) /\
  (forall has, estimateLTCG west (mkLtcgAnswers has (Some "skip")) = None) /\
  (forall has, estimateLTCG west (mkLtcgAnswers has None) = None).
Proof.
  intros K M T. split.
  - assert (C : forall gain, In gain [35000; 87500; 175000] ->
              let hs :=
                {| holdings :=
                     [ {| security_name := "Your stock/MF portfolio (estimated)";
                          security_type := "equity_mf";
                          purchase_date := newDate_2023_01_01 west;
                          purchase_price := 0; quantity := 1;
                          current_price := gain |} ];
                   realized_stcg_this_fy := orNum (Some 0) 0;
                   realized_ltcg_this_fy := orNum (Some 0) 0 |} in
              status (checkCapitalGains today hs None) = OPPORTUNITY /\
              savings (checkCapitalGains today hs None)
              = Js.round (Js.min gain LTCG_EXEMPTION * 0.13) /\
              In (savings (checkCapitalGains today hs None)) [4550; 11375; 16250]%Z).
    { intros gain G hs. unfold hs, checkCapitalGains. cbv zeta.
      cbn [holdings isEmpty scanHoldings realized_ltcg_this_fy].
      rewrite (estimated_holding_long_term west gain today M T).
      destruct G as [<- | [<- | [<- | []]]];
        match goal with
        | |- context [andb true (Js.lt 0 ?g)] =>
            replace (Js.lt 0 g) with true by (vm_compute; reflexivity)
        end;
        cbn [andb map lt_gain filter];
        match goal with
        | |- context [andb (Js.le ?a 0) _] =>
            replace (Js.le a 0) with false by (vm_compute; reflexivity)
        end;
        cbn [andb status savings createFinding];
        (split; [reflexivity|]);
        (split; [vm_compute; reflexivity|]);
        match goal with
        | |- In ?z _ =>
            let v := eval vm_compute in z in change z with v
        end; cbn [In]; auto. }
    cbn [In] in K. destruct K as [<- | [<- | [<- | []]]].
    + eexists; exists 35000. split; [reflexivity|]. split; [reflexivity|].
      apply C. cbn [In]; auto.
    + eexists; exists 87500. split; [reflexivity|]. split; [reflexivity|].
      apply C. cbn [In]; auto.
    + eexists; exists 175000. split; [reflexivity|]. split; [reflexivity|].
      apply C. cbn [In]; auto.
  - repeat split; intros; unfold estimateLTCG; cbn [hasInvestments orFalse negb];
      try reflexivity; destruct has as [[|]|]; reflexivity.
Qed.

(** The middle range on 15 August 2025, east of Greenwich. *)
Lemma estimated_portfolio_harvest_witness :
  exists hs gain,
    estimateLTCG false (mkLtcgAnswers (Some true) (Some "50k_to_125k")) = Some hs /\
    prop "50k_to_125k" RANGE_MAP = Some (Some gain) /\
    status (checkCapitalGains (mkDate 2025 7 15) hs None) = OPPORTUNITY /\
    savings (checkCapitalGains (mkDate 2025 7 15) hs None)
    = Js.round (Js.min gain LTCG_EXEMPTION * 0.13) /\
    In (savings (checkCapitalGains (mkDate 2025 7 15) hs None))
       [4550; 11375; 16250]%Z.
Proof.
  apply (estimated_portfolio_harvest false "50k_to_125k" (mkDate 2025 7 15)).
  - cbn [In]. auto.
  - cbn [getMonth]. lia.
  - cbn [getMonth getFullYear]. lia.
Defined.

(* ------------------------------------------------------------------ *)
(** ** Deadlines and reminders                                          *)
(* ------------------------------------------------------------------ *)

(** X21.  The parsed deadline is the next one.  For a reference date with
    a month from 0 to 11 in a year after 99, a deadline that
    [parseDeadline] recognizes is a 31 March or a 31 July that lies in the
    month of the reference date or one of the eleven months after it. *)
Theorem parse_deadline_next_occurrence (deadline : string) (now t : Date) :
  (0 <= getMonth now <= 11)%Z -> (99 < getFullYear now)%Z ->
  parseDeadline deadline now = Some t ->
  getDate t = 31%Z /\ (getMonth t = 2%Z \/ getMonth t = 6%Z) /\
  (0 <= (getFullYear t - getFullYear now) * 12 + (getMonth t - getMonth now) <= 11)%Z.
Proof.
  intros M Y. unfold parseDeadline, newDate.
  destruct (orb _ _); [discriminate|]. cbv zeta.
  assert (A : andb (0 <=? getFullYear now)%Z (getFullYear now <=? 99)%Z = false).
  { apply Bool.andb_false_iff. right. apply Z.leb_gt. lia. }
  assert (B : andb (0 <=? getFullYear now + 1)%Z (getFullYear now + 1 <=? 99)%Z = false).
  { apply Bool.andb_false_iff. right. apply Z.leb_gt. lia. }
  rewrite A, B.
  destruct (testWord31 "march" deadline).
  - destruct (getMonth now <? 3)%Z eqn:E;
      [apply Z.ltb_lt in E | apply Z.ltb_ge in E];
      intro H; injection H as <-; cbn [getDate getMonth getFullYear];
      repeat split; auto; lia.
  - destruct (testWord31 "july" deadline); [|discriminate].
    destruct (getMonth now <? 7)%Z eqn:E;
      [apply Z.ltb_lt in E | apply Z.ltb_ge in E];
      intro H; injection H as <-; cbn [getDate getMonth getFullYear];
      repeat split; auto; lia.
Qed.

(** A March deadline read on 15 April 2026. *)
Lemma parse_deadline_next_occurrence_witness :
  getDate (mkDate 2027 2 31) = 31%Z /\
  (getMonth (mkDate 2027 2 31) = 2%Z \/ getMonth (mkDate 2027 2 31) = 6%Z) /\
  (0 <= (getFullYear (mkDate 2027 2 31) - getFullYear (mkDate 2026 3 15)) * 12
        + (getMonth (mkDate 2027 2 31) - getMonth (mkDate 2026 3 15)) <= 11)%Z.
Proof.
  apply (parse_deadline_next_occurrence "March 31 of this financial year"
           (mkDate 2026 3 15) (mkDate 2027 2 31)).
  - cbn [getMonth]. lia.
  - cbn [getFullYear]. lia.
  - reflexivity.
Defined.

(** The month of a parsed deadline. *)
Lemma newDate_month (c : bool) (y y' m : Z) :
  getMonth (if c then newDate y m 31 else newDate y' m 31) = m.
Proof. destruct c; reflexivity. Qed.

Lemma reminder_march (d : string) (now : Date) :
  orb (String.eqb d "") (String.eqb d "N/A") = false ->
  testWord31 "march" d = true ->
  option_map getMonth (parseDeadline d now) = Some 2%Z.
Proof.
  intros G M. unfold parseDeadline. cbv zeta. rewrite G, M. cbn [option_map].
  now rewrite newDate_month.
Qed.

Lemma reminder_july (d : string) (now : Date) :
  orb (String.eqb d "") (String.eqb d "N/A") = false ->
  testWord31 "march" d = false -> testWord31 "july" d = true ->
  option_map getMonth (parseDeadline d now) = Some 6%Z.
Proof.
  intros G M J. unfold parseDeadline. cbv zeta. rewrite G, M, J. cbn [option_map].
  now rewrite newDate_month.
Qed.

Ltac split_deadline :=
  cbv zeta;
  repeat match goal with
  | |- context [if ?c then createFinding _ _ _ _ _ _ _ _ _ _ else _] =>
      destruct c eqn:?
  end;
  cbn [deadline status createFinding];
  first [ apply reminder_march; reflexivity
        | apply reminder_july; reflexivity
        | reflexivity ].

(** X22.  Reminders follow the findings.  For each of the seven checks
    and every reference date, the deadline of the finding yields a
    reminder exactly when the finding is an opportunity.  The reminder is
    for 31 March for the regime switch (although its deadline names 31
    July first), the 80C, 80D and NPS checks and the capital-gains check,
    for 31 July for the HRA check, and for one of the two for the
    home-loan check, whose deadline quotes the financial-year string. *)
Theorem reminders_follow_findings (salary : SalaryProfile) (opts : CheckOpts)
    (today : Date) (hs : Holdings) (asOf : option Date) (now : Date) :
  let march f :=
    reminderMonth f now
    = match status f with OPPORTUNITY => Some 2%Z | _ => None end in
  let july f :=
    reminderMonth f now
    = match status f with OPPORTUNITY => Some 6%Z | _ => None end in
  march (checkRegime salary opts) /\ march (check80c salary) /\
  march (check80d salary opts) /\ march (checkNps salary) /\
  march (checkCapitalGains today hs asOf) /\ july (checkHra salary) /\
  (march (checkHomeLoan salary) \/ july (checkHomeLoan salary)).
Proof.
  intros march july. unfold march, july, reminderMonth.
  repeat apply conj.
  - unfold checkRegime. split_deadline.
  - unfold check80c. split_deadline.
  - unfold check80d. split_deadline.
  - unfold checkNps. split_deadline.
  - unfold checkCapitalGains. cbv zeta.
    destruct (scanHoldings _ (holdings hs)) as [[lt st] al].
    split_deadline.
  - unfold checkHra. split_deadline.
  - unfold checkHomeLoan. cbv zeta.
    match goal with
    | |- context [if ?c then createFinding _ _ _ _ _ _ _ _ _ _ else _] =>
        destruct c
    end; cbn [deadline status createFinding].
    + left. reflexivity.
    + set (d := cat ["Include in ITR filing by July 31 (FY ";
                     financial_year salary; ")"]).
      destruct (testWord31 "march" d) eqn:M.
      * left. apply reminder_march; [reflexivity | exact M].
      * right. apply reminder_july; [reflexivity | exact M | reflexivity].
Qed.

(** X23.  The urgency colour and the reminder disagree in July.  The
    target date behind the urgency colour of a card is the deadline that
    [parseDeadline] returns, except for a deadline of 31 July (one that
    does not also name 31 March) read in July: the reminder is for 31 July
    of the current year, the urgency colour counts down to 31 July of the
    next. *)
Theorem urgency_target_vs_parse_deadline (deadline : string) (now : Date) :
  (getMonth now <> 6%Z \/ testWord31 "march" deadline = true \/
   testWord31 "july" deadline = false ->
   urgencyTarget deadline now = parseDeadline deadline now) /\
  (getMonth now = 6%Z -> testWord31 "march" deadline = false ->
   testWord31 "july" deadline = true ->
   parseDeadline deadline now = Some (newDate (getFullYear now) 6 31) /\
   urgencyTarget deadline now = Some (newDate (getFullYear now + 1) 6 31)).
Proof.
  unfold urgencyTarget, parseDeadline. cbv zeta. split.
  - intro H. destruct (orb _ _); [reflexivity|].
    destruct (testWord31 "march" deadline); [reflexivity|].
    destruct (testWord31 "july" deadline); [|reflexivity].
    destruct H as [H | [H | H]]; try discriminate H.
    destruct (getMonth now <? 6)%Z eqn:A; destruct (getMonth now <? 7)%Z eqn:B;
      try reflexivity;
      [apply Z.ltb_lt in A; apply Z.ltb_ge in B
      | apply Z.ltb_ge in A; apply Z.ltb_lt in B]; lia.
  - intros M A J.
    assert (G : orb (String.eqb deadline "") (String.eqb deadline "N/A") = false).
    { destruct (String.eqb deadline "") eqn:E1.
      - apply String.eqb_eq in E1. subst deadline. discriminate J.
      - destruct (String.eqb deadline "N/A") eqn:E2; [|reflexivity].
        apply String.eqb_eq in E2. subst deadline. discriminate J. }
    rewrite G, A, J, M. split; reflexivity.
Qed.

(** X24.  The card never labels the home-loan finding.  The findings of
    the 80C, 80D, HRA and NPS checks are labelled as part of the regime
    switch exactly when the old regime is recommended; the home-loan
    finding, whose identifier is not among [DEDUCTION_CHECK_IDS], never
    is, and neither are the regime and capital-gains findings. *)
Theorem home_loan_finding_never_labelled (salary : SalaryProfile) (opts : CheckOpts)
    (today : Date) (hs : Holdings) (asOf : option Date) (recommended : string) :
  isComponent (check80c salary) recommended = String.eqb recommended "old" /\
  isComponent (check80d salary opts) recommended = String.eqb recommended "old" /\
  isComponent (checkHra salary) recommended = String.eqb recommended "old" /\
  isComponent (checkNps salary) recommended = String.eqb recommended "old" /\
  isComponent (checkHomeLoan salary) recommended = false /\
  isComponent (suppressUnderNewRegime (checkHomeLoan salary)) recommended = false /\
  isComponent (checkRegime salary opts) recommended = false /\
  isComponent (checkCapitalGains today hs asOf) recommended = false.
Proof.
  unfold isComponent.
  rewrite suppress_id, check80c_id, check80d_id, checkHra_id, checkNps_id,
    checkHomeLoan_id, checkRegime_id, checkCapitalGains_id.
  repeat split; reflexivity.
Qed.

(* ------------------------------------------------------------------ *)
(** ** The questionnaire flow                                           *)
(* ------------------------------------------------------------------ *)

(** X25.  The first report of the questionnaire.  For every set of
    answers and every date, the report that [App.jsx] builds from the
    estimated profile is one for FY 2024-25 with current regime 'new';
    it has no holdings to look at, so its capital-gains finding is not
    applicable and the total savings are those of the regime finding
    alone; and with a CTC and extra 80C investments that are not negative
    the 80C check stays within its ceiling of 46,800. *)
Theorem questionnaire_report (today : Date) (ans : CtcAnswers) :
  let r := handleComplete today ans in
  let p := estimateFromCTC ans in
  let o := mkCheckOpts (Some (orFalse (parentsOver60 ans))) None in
  r_financial_year r = "2024-25" /\ current_regime r = "new" /\
  user_name r = orStr (name ans) "" /\
  (exists cg, findCheck "capital_gains" (checks r) = Some cg /\
              status cg = NOT_APPLICABLE /\ savings cg = 0%Z) /\
  findCheck "regime_arbitrage" (checks r) = Some (checkRegime p o) /\
  total_savings r = savings (checkRegime p o) /\
  (0 <= ctc ans -> 0 <= orElse (extra80C ans) 0 ->
   (savings (check80c p) <= 46800)%Z).
Proof.
  intros r p o.
  assert (N : orStr (Some (orStr (name ans) "")) "" = orStr (name ans) "").
  { unfold orStr. destruct (name ans) as [n|]; [|reflexivity].
    destruct (String.eqb n "") eqn:E; [reflexivity|]. now rewrite E. }
  repeat apply conj.
  - reflexivity.
  - reflexivity.
  - exact N.
  - exists (checkCapitalGains today emptyHoldings None). split.
    + unfold r, handleComplete. rewrite findCheck_report.
      unfold allChecksOf. cbv zeta.
      destruct (String.eqb _ "new"); find_check; reflexivity.
    + split; reflexivity.
  - unfold r, handleComplete. rewrite findCheck_report.
    unfold allChecksOf. cbv zeta. find_check. reflexivity.
  - unfold r, handleComplete, runAllChecks. cbv zeta.
    cbn [total_savings createTaxHawkResult holdingsOrEmpty opt_cgAsOf].
    change (savings (checkCapitalGains today emptyHoldings None)) with 0%Z.
    fold p. unfold forwardedOpts. cbn [opt_parentsSenior orFalse].
    fold o. lia.
  - intros C X.
    apply (proj1 (deduction_savings_bounds p o)).
    unfold p, estimateFromCTC, createSalaryProfile. cbv zeta.
    cbn [deduction_80c deduction_80ccc deduction_80ccd_1
         d_deduction_80c d_deduction_80ccc d_deduction_80ccd_1].
    rewrite (orNum_zero (Some _)), !(orNum_zero None).
    destruct (structure_bounds (ctc ans) C) as (_ & _ & E0 & _).
    rewrite Zle_Qle in E0.
    assert (0 <= orNum (extra80C ans) 0).
    { rewrite orNum_zero. unfold orElse in X. exact X. }
    assert (0 <= Js.min (inject_Z (Js.round (mulDouble (inject_Z (Js.round (mulDouble (ctc ans)
                                                           BASIC_RATIO)))
                                   EPF_RATIO))
                         + orNum (extra80C ans) 0) LIMIT_80C).
    { apply min_glb; [|vm_compute; discriminate].
      change (inject_Z 0) with 0 in E0. lra. }
    lra.
Qed.

(* ------------------------------------------------------------------ *)
(** ** Adjusting the estimate                                           *)
(* ------------------------------------------------------------------ *)

Lemma orNum_none : orNum None 0 = 0.
Proof. reflexivity. Qed.

(** Read the fields of the two profiles. *)
Ltac read_profiles :=
  lazy [ handleAdjustProfile estimateFromCTC adjustPanelValues
         createSalaryProfile answerNum answerCity
       financial_year employee_name pan employer_name gross_salary
       basic_salary hra_received special_allowance lta bonus other_salary
       hra_exemption lta_exemption other_exemptions standard_deduction
       professional_tax deduction_80c deduction_80ccc deduction_80ccd_1
       deduction_80ccd_1b deduction_80ccd_2 deduction_80d deduction_80e
       deduction_80g deduction_80tta deduction_24b other_deductions
       taxable_income tax_payable sp_cess total_tax_paid regime city
       monthly_rent epf_employee_contribution d_financial_year
       d_employee_name d_pan d_employer_name d_gross_salary d_basic_salary
       d_hra_received d_special_allowance d_lta d_bonus d_other_salary
       d_hra_exemption d_lta_exemption d_other_exemptions
       d_standard_deduction d_professional_tax d_deduction_80c
       d_deduction_80ccc d_deduction_80ccd_1 d_deduction_80ccd_1b
       d_deduction_80ccd_2 d_deduction_80d d_deduction_80e d_deduction_80g
       d_deduction_80tta d_deduction_24b d_other_deductions d_taxable_income
       d_tax_payable d_cess d_total_tax_paid d_regime d_city d_monthly_rent
       d_epf_employee_contribution c_basic c_hra c_epf c_gross c_special ].

(** Give a name to every [orNum (Some v) 0] and keep that it equals [v]. *)
Ltac name_orNum :=
  repeat match goal with
  | |- context [orNum (Some ?v) 0] =>
      let E := fresh "E" in
      let x := fresh "x" in
      pose proof (orNum_some v) as E;
      set (x := orNum (Some v) 0) in *; clearbody x
  | H : context [orNum (Some ?v) 0] |- _ =>
      let E := fresh "E" in
      let x := fresh "x" in
      pose proof (orNum_some v) as E;
      set (x := orNum (Some v) 0) in *; clearbody x
  end.

Lemma max_cases (a b : Q) :
  (a <= b /\ Js.max a b = b) \/ (b < a /\ Js.max a b = a).
Proof.
  unfold Js.max. destruct (a <=? b) eqn:E.
  - left. apply le_true_iff in E. auto.
  - right. apply le_false_iff in E. auto.
Qed.

(** Split every [Js.min] and [Js.max] on the order of its arguments. *)
Ltac split_min_max :=
  repeat match goal with
  | |- context [Js.max ?a ?b] =>
      let O := fresh "O" in
      let M := fresh "M" in
      destruct (max_cases a b) as [[O M] | [O M]]; rewrite M in *; clear M
  | H : context [Js.max ?a ?b] |- _ =>
      let O := fresh "O" in
      let M := fresh "M" in
      destruct (max_cases a b) as [[O M] | [O M]]; rewrite M in *; clear M
  | |- context [Js.min ?a ?b] =>
      let O := fresh "O" in
      let M := fresh "M" in
      destruct (min_cases a b) as [[O M] | [O M]]; rewrite M in *; clear M
  | H : context [Js.min ?a ?b] |- _ =>
      let O := fresh "O" in
      let M := fresh "M" in
      destruct (min_cases a b) as [[O M] | [O M]]; rewrite M in *; clear M
  end.

Lemma sameProfileButName_field (p q : SalaryProfile) (field : SalaryProfile -> Q) :
  sameProfileButName p q ->
  In field [gross_salary; professional_tax; deduction_80ccd_2] ->
  field p == field q.
Proof.
  intros (_ & _ & _ & _ & _ & N) I.
  rewrite Forall_forall in N. apply N.
  cbn [In] in *. destruct I as [<- | [<- | [<- | []]]]; auto 40.
Qed.

(** X26.  Recalculating without an edit changes nothing.  For answers
    with a CTC of at least 8 rupees, the adjustment panel opened on the
    estimated profile and applied as it stands makes [handleAdjust] build
    a profile with the same financial year, regime, city and numbers as
    the estimate; only the name is dropped.  In particular the taxable
    income of the new regime is the same. *)
Theorem adjust_without_edit_is_identity (answers : CtcAnswers) :
  8 <= ctc answers ->
  let p := estimateFromCTC answers in
  let corrected :=
    adjustPanelValues (ctc answers) (basic_salary p) (hra_received p)
      (epf_employee_contribution p) in
  let p' := handleAdjustProfile (Some answers) corrected in
  sameProfileButName p' p /\ employee_name p' = "" /\
  computeNewRegimeTaxableIncome p' == computeNewRegimeTaxableIncome p.
Proof.
  intros C p corrected p'.
  destruct (structure_bounds (ctc answers) ltac:(lra))
    as (_ & _ & _ & _ & _ & _ & _ & SP).
  specialize (SP C).
  assert (GR : Js.round
                 (mulDouble
                    (orNum (Some (inject_Z (Js.round (mulDouble (ctc answers)
                                                        BASIC_RATIO)))) 0)
                    0.0481)
               = Js.round
                   (mulDouble (inject_Z (Js.round (mulDouble (ctc answers)
                                                     BASIC_RATIO)))
                      GRATUITY_RATIO)).
  { unfold mulDouble. now rewrite (toDouble_comp _ _ (orNum_some _)). }
  assert (S : sameProfileButName p' p).
  { unfold sameProfileButName.
    split; [reflexivity|]. split; [reflexivity|]. split; [reflexivity|].
    split; [reflexivity|].
    split.
    { unfold p', corrected, p. read_profiles.
      unfold orStr at 1 3.
      destruct (String.eqb (toLowerCase (orStr (ans_city answers) "other")) "");
        reflexivity. }
    repeat (apply Forall_cons; [|]); try apply Forall_nil;
      unfold p', corrected, p; read_profiles; rewrite ?GR;
      rewrite ?orNum_none;
      unfold LIMIT_80C, DEFAULT_PROFESSIONAL_TAX, DEFAULT_STANDARD_DEDUCTION_NEW;
      name_orNum; split_min_max;
      lra. }
  split; [exact S|]. split; [reflexivity|].
  pose proof (sameProfileButName_field p' p gross_salary S ltac:(cbn [In]; auto)) as G.
  pose proof (sameProfileButName_field p' p professional_tax S ltac:(cbn [In]; auto))
    as PT.
  pose proof (sameProfileButName_field p' p deduction_80ccd_2 S ltac:(cbn [In]; auto))
    as D2.
  destruct S as (F & _).
  unfold computeNewRegimeTaxableIncome. rewrite !standardDeduction_new.
  split_min_max; lra.
Qed.

(** A CTC of 18,00,000. *)
Lemma adjust_without_edit_is_identity_witness :
  employee_name
    (handleAdjustProfile
       (Some (mkCtcAnswers 1800000 None None None None None None None None
                (Some "Priya")))
       (adjustPanelValues 1800000
          (basic_salary
             (estimateFromCTC (mkCtcAnswers 1800000 None None None None None None
                                 None None (Some "Priya"))))
          (hra_received
             (estimateFromCTC (mkCtcAnswers 1800000 None None None None None None
                                 None None (Some "Priya"))))
          (epf_employee_contribution
             (estimateFromCTC (mkCtcAnswers 1800000 None None None None None None
                                 None None (Some "Priya"))))))
  = "".
Proof.
  apply (adjust_without_edit_is_identity
           (mkCtcAnswers 1800000 None None None None None None None None
              (Some "Priya"))).
  vm_compute. discriminate.
Defined.
